(** * BSE: bank statement extractor

    A shallow embedding of the statement parsing pipeline
    ([src/helper_functions.py], [src/constants.py], [src/transactions.py],
    [src/account_statement.py], [main.py]) and the properties of its
    specification.

    Layout of the development:
    - [Py]: the fragment of the Python runtime the program relies on
      (strings as sequences of code points, exceptions, list indexing,
      [int], [float], [round], [datetime.strptime], the two regular
      expressions);
    - [helper_functions], [TransactionConstants]: the helper modules;
    - the object store, the dataclass constructors and one module per
      transaction class with its [text_identifiers] and [create];
    - [StatementAccount] and [main];
    - the theorems. *)

From Stdlib Require Import ZArith NArith List String Ascii Bool Lia Sorted Permutation.
From Stdlib Require Import SpecFloat.
From stdpp Require Import base option list gmap.

Local Open Scope string_scope.
Local Open Scope list_scope.
Local Open Scope Z_scope.

(** * The Python runtime fragment *)

Module Py.

(** ** Exceptions and the two effect layers *)

Inductive exn :=
| IndexError | ValueError | TypeError | AttributeError | KeyError | NameError.

Inductive result (A : Type) :=
| Ok (a : A)
| Raise (e : exn).
Arguments Ok {A} a.
Arguments Raise {A} e.

Definition rbind {A B} (r : result A) (k : A -> result B) : result B :=
  match r with
  | Ok a => k a
  | Raise e => Raise e
  end.

Definition is_raise {A} (r : result A) : Prop :=
  match r with Raise _ => True | Ok _ => False end.

(** ** Strings

    A Python [str] is a sequence of Unicode code points.  Literals are
    written [u "..."]: the UTF-8 bytes of the source text are decoded. *)

Definition pystr := list N.

Fixpoint utf8_decode (bs : list N) : pystr :=
  match bs with
  | [] => []
  | b0 :: r0 =>
    if (b0 <? 128)%N then b0 :: utf8_decode r0 else
    match r0 with
    | [] => []
    | b1 :: r1 =>
      if (b0 <? 224)%N then ((b0 mod 32) * 64 + b1 mod 64)%N :: utf8_decode r1 else
      match r1 with
      | [] => []
      | b2 :: r2 =>
        if (b0 <? 240)%N
        then ((b0 mod 16) * 4096 + (b1 mod 64) * 64 + b2 mod 64)%N :: utf8_decode r2
        else
        match r2 with
        | [] => []
        | b3 :: r3 =>
          ((b0 mod 8) * 262144 + (b1 mod 64) * 4096 + (b2 mod 64) * 64 + b3 mod 64)%N
            :: utf8_decode r3
        end
      end
    end
  end.

Definition u (s : string) : pystr :=
  utf8_decode (List.map N_of_ascii (list_ascii_of_string s)).

Definition chr (s : string) : N :=
  match u s with c :: _ => c | [] => 0%N end.

Definition str_eqb (a b : pystr) : bool := bool_decide (a = b).

(** [str.isspace] on one code point: the characters of bidirectional
    class WS, B or S and of category Zs. *)
Definition isspace (c : N) : bool :=
  ((9 <=? c) && (c <=? 13) || (28 <=? c) && (c <=? 32)
   || (c =? 133) || (c =? 160) || (c =? 5760)
   || (8192 <=? c) && (c <=? 8202)
   || (c =? 8232) || (c =? 8233) || (c =? 8239) || (c =? 8287) || (c =? 12288))%N.

(** Character classes.  The Unicode tables are given for the code points
    below U+0250 (Basic Latin to Latin Extended-B, which holds the Czech
    alphabet); code points above that range are classified as neither
    digit nor letter. *)

(** Category Nd: [str.isdecimal], [\d], and the digits [int] and [float]
    read. *)
Definition isdecimal (c : N) : bool := ((48 <=? c) && (c <=? 57))%N.

(** [str.isdigit] on one code point: Nd and the superscript digits. *)
Definition isdigit_cp (c : N) : bool :=
  (isdecimal c || (c =? 178) || (c =? 179) || (c =? 185))%N.

(** [\w]: alphanumeric or underscore. *)
Definition isword (c : N) : bool :=
  (isdigit_cp c
   || (65 <=? c) && (c <=? 90) || (97 <=? c) && (c <=? 122) || (c =? 95)
   || (c =? 170) || (c =? 181) || (c =? 186)
   || (188 <=? c) && (c <=? 190)
   || (192 <=? c) && (c <=? 214) || (216 <=? c) && (c <=? 246)
   || (248 <=? c) && (c <? 592))%N.

Definition digit_val (c : N) : option Z :=
  if isdecimal c then Some (Z.of_N c - 48) else None.

(** [s.strip()] *)
Fixpoint lstrip (s : pystr) : pystr :=
  match s with
  | [] => []
  | c :: s' => if isspace c then lstrip s' else s
  end.
Definition rstrip (s : pystr) : pystr := rev (lstrip (rev s)).
Definition strip (s : pystr) : pystr := rstrip (lstrip s).

(** [s.startswith(p)] and [p in s] *)
Fixpoint startswith (p s : pystr) : bool :=
  match p, s with
  | [], _ => true
  | _ :: _, [] => false
  | a :: p', b :: s' => (a =? b)%N && startswith p' s'
  end.

Fixpoint str_in (p s : pystr) : bool :=
  startswith p s ||
  match s with
  | [] => false
  | _ :: s' => str_in p s'
  end.

(** [s.replace(old, new)]: the non-overlapping occurrences of [old],
    leftmost first.  [skip] counts the characters of an occurrence that
    are still to be dropped. *)
Fixpoint replace_from (old new : pystr) (skip : nat) (s : pystr) : pystr :=
  match s with
  | [] => []
  | c :: s' =>
    match skip with
    | S k => replace_from old new k s'
    | O =>
      if startswith old s
      then new ++ replace_from old new (length old - 1) s'
      else c :: replace_from old new 0 s'
    end
  end.

Definition replace (old new s : pystr) : pystr :=
  match old with
  | [] => new ++ flat_map (fun c => c :: new) s
  | _ :: _ => replace_from old new 0 s
  end.

(** [s.split(sep)] for a one-character separator: never empty. *)
Fixpoint split (sep : N) (s : pystr) : list pystr :=
  match s with
  | [] => [[]]
  | c :: s' =>
    if (c =? sep)%N then [] :: split sep s'
    else match split sep s' with
         | w :: ws => (c :: w) :: ws
         | [] => [[c]]
         end
  end.

(** [s[-n:]] *)
Definition last_chars (n : nat) (s : pystr) : pystr := drop (length s - n) s.

(** [s.lower()]: the ASCII letters are folded, and so are the two code
    points outside ASCII whose lowercase form contains an ASCII letter
    (the Kelvin sign and the dotted capital I).  The other code points
    are kept: their lowercase forms hold no ASCII letter, so they cannot
    meet the ASCII words this program compares with. *)
Definition lower_cp (c : N) : pystr :=
  if ((65 <=? c) && (c <=? 90))%N then [(c + 32)%N]
  else if (c =? 8490)%N then [107%N]
  else if (c =? 304)%N then [105%N; 775%N]
  else [c].
Definition lower (s : pystr) : pystr := flat_map lower_cp s.

(** [s.isdigit()] *)
Definition isdigit (s : pystr) : bool :=
  match s with
  | [] => false
  | _ :: _ => forallb isdigit_cp s
  end.

(** ** Sequences *)

(** [l[i]] for an integer [i]: negative indices count from the end. *)
Definition getitem {A} (l : list A) (i : Z) : result A :=
  let n := Z.of_nat (length l) in
  let j := if i <? 0 then i + n else i in
  if (0 <=? j) && (j <? n)
  then match l !! Z.to_nat j with
       | Some x => Ok x
       | None => Raise IndexError
       end
  else Raise IndexError.

(** [l[i:]] for [i >= 0] *)
Definition slice_from {A} (l : list A) (i : nat) : list A := drop i l.

(** [enumerate(l)] *)
Definition enumerate {A} (l : list A) : list (nat * A) :=
  combine (seq 0 (length l)) l.

(** ** Numbers *)

(** [digitpart ::= digit (["_"] digit)*]: the value read so far, the
    number of digits read, and the text that is left. *)
Fixpoint digits_loop (acc : Z) (n : nat) (s : pystr) : Z * nat * pystr :=
  match s with
  | [] => (acc, n, [])
  | c :: s' =>
    match digit_val c with
    | Some d => digits_loop (10 * acc + d) (S n) s'
    | None =>
      if (c =? chr "_")%N then
        match s' with
        | c' :: s'' =>
          match digit_val c' with
          | Some d => digits_loop (10 * acc + d) (S n) s''
          | None => (acc, n, s)
          end
        | [] => (acc, n, s)
        end
      else (acc, n, s)
    end
  end.

Definition digitpart (s : pystr) : option (Z * nat * pystr) :=
  match s with
  | [] => None
  | c :: s' =>
    match digit_val c with
    | Some d => Some (digits_loop d 1 s')
    | None => None
    end
  end.

Definition sign_prefix (s : pystr) : bool * pystr :=
  match s with
  | [] => (false, [])
  | c :: s' =>
    if (c =? chr "-")%N then (true, s')
    else if (c =? chr "+")%N then (false, s')
    else (false, s)
  end.

(** [int(s)] for a string, base ten. *)
Definition int (s : pystr) : result Z :=
  let (neg, t) := sign_prefix (strip s) in
  match digitpart t with
  | Some (v, _, []) => Ok (if neg then - v else v)
  | _ => Raise ValueError
  end.

(** *** Floats: IEEE 754 binary64, round to nearest even *)

Definition float := spec_float.
Definition prec : Z := 53.
Definition emax : Z := 1024.

Definition fadd : float -> float -> float := SFadd prec emax.
Definition fsub : float -> float -> float := SFsub prec emax.
Definition fmul : float -> float -> float := SFmul prec emax.
Definition fdiv : float -> float -> float := SFdiv prec emax.
Definition flt : float -> float -> bool := SFltb.
Definition feq : float -> float -> bool := SFeqb.
Definition fne (x y : float) : bool := negb (feq x y).

(** The float nearest to the quotient of two positive integers. *)
Definition float_of_ratio (neg : bool) (n d : positive) : float :=
  fdiv (S754_finite neg n 0) (S754_finite false d 0).

(** The float of an integer literal, such as the [0] and [-1] of the
    source. *)
Definition float_of_Z (z : Z) : float :=
  match z with
  | Z0 => S754_zero false
  | Zpos p => float_of_ratio false p 1
  | Zneg p => float_of_ratio true p 1
  end.

(** The float nearest to [m * 10^e]; [nd] bounds the number of decimal
    digits of [m].  Beyond the two cut-offs the value is above every
    float or below half the least one, and the powers of ten are not
    computed. *)
Definition float_of_decimal (neg : bool) (m : Z) (nd : nat) (e : Z) : float :=
  match m with
  | Zpos p =>
    if 400 <? e then S754_infinity neg
    else if e + Z.of_nat nd <? - 400 then S754_zero neg
    else if 0 <=? e then float_of_ratio neg (p * Z.to_pos (10 ^ e)) 1
    else float_of_ratio neg p (Z.to_pos (10 ^ (- e)))
  | _ => S754_zero neg
  end.

Definition ascii_lower_cp (c : N) : N :=
  if ((65 <=? c) && (c <=? 90))%N then (c + 32)%N else c.

(** The exponent part [("e" | "E") [sign] digitpart], when there is one. *)
Definition exponent_part (s : pystr) : option (Z * pystr) :=
  match s with
  | c :: s' =>
    if (ascii_lower_cp c =? chr "e")%N then
      let (eneg, t) := sign_prefix s' in
      match digitpart t with
      | Some (v, _, r) => Some (if eneg then - v else v, r)
      | None => None
      end
    else Some (0, s)
  | [] => Some (0, [])
  end.

(** [float(s)] for a string:
    [[sign] (number [exponent] | "inf" | "infinity" | "nan")] between
    optional white space, where
    [number ::= [digitpart] "." digitpart | digitpart ["."]]. *)
Definition float_of_str (s : pystr) : result float :=
  let (neg, t) := sign_prefix (strip s) in
  let word := List.map ascii_lower_cp t in
  if str_eqb word (u "inf") || str_eqb word (u "infinity") then Ok (S754_infinity neg)
  else if str_eqb word (u "nan") then Ok S754_nan
  else
    let '(vi, ni, r1) :=
      match digitpart t with
      | Some x => x
      | None => (0, O, t)
      end in
    let '(vf, nf, r2) :=
      match r1 with
      | c :: r =>
        if (c =? chr ".")%N then
          match digitpart r with
          | Some x => x
          | None => (0, O, r)
          end
        else (0, O, r1)
      | [] => (0, O, [])
      end in
    match (ni + nf)%nat with
    | O => Raise ValueError
    | S _ =>
      match exponent_part r2 with
      | Some (e, []) =>
        Ok (float_of_decimal neg (vi * 10 ^ Z.of_nat nf + vf) (ni + nf) (e - Z.of_nat nf))
      | _ => Raise ValueError
      end
    end.

(** Division of [a] by [b > 0] rounded to the nearest integer, ties to
    even. *)
Definition div_half_even (a b : Z) : Z :=
  let q := a / b in
  match (2 * (a mod b)) ?= b with
  | Lt => q
  | Gt => q + 1
  | Eq => if Z.even q then q else q + 1
  end.

(** [round(x, 2)] for a float: the exact value of [x] is rounded to two
    decimals, ties to even, and the float nearest to that decimal is
    returned; zeros, infinities and NaN are returned as they are. *)
Definition round2 (x : float) : float :=
  match x with
  | S754_finite s m e =>
    let n := if 0 <=? e then Zpos m * 2 ^ e * 100
             else div_half_even (Zpos m * 100) (2 ^ (- e)) in
    match n with
    | Zpos p => float_of_ratio s p 100
    | _ => S754_zero s
    end
  | _ => x
  end.

(** [sum(l)] for a list of floats: the additions from the left, from the
    integer [0] (the summation of CPython before 3.12, which adds
    without compensation). *)
Definition sum (l : list float) : float := fold_left fadd l (float_of_Z 0).

(** ** Dates *)

Record datetime := mk_datetime {
  dt_year : Z; dt_month : Z; dt_day : Z;
  dt_hour : Z; dt_minute : Z; dt_second : Z }.

(** The order of [datetime] values. *)
Definition datetime_key (d : datetime) : list Z :=
  [dt_year d; dt_month d; dt_day d; dt_hour d; dt_minute d; dt_second d].

Fixpoint lex_compare (a b : list Z) : comparison :=
  match a, b with
  | [], [] => Eq
  | [], _ :: _ => Lt
  | _ :: _, [] => Gt
  | x :: a', y :: b' =>
    match x ?= y with
    | Eq => lex_compare a' b'
    | c => c
    end
  end.

Definition datetime_compare (a b : datetime) : comparison :=
  lex_compare (datetime_key a) (datetime_key b).

Definition is_leap (y : Z) : bool :=
  (y mod 4 =? 0) && (negb (y mod 100 =? 0) || (y mod 400 =? 0)).

Definition days_in_month (y m : Z) : Z :=
  if m =? 2 then (if is_leap y then 29 else 28)
  else if (m =? 4) || (m =? 6) || (m =? 9) || (m =? 11) then 30
  else 31.

(** The regular expressions [_strptime] builds for the directives, as
    backtracking matchers: the ways to match a prefix, in the order the
    engine tries them. *)
Definition matcher (A : Type) := pystr -> list (A * pystr).

Definition m_ret {A} (a : A) : matcher A := fun s => [(a, s)].
Definition m_bind {A B} (p : matcher A) (k : A -> matcher B) : matcher B :=
  fun s => flat_map (fun '(a, r) => k a r) (p s).
Definition m_alt {A} (p q : matcher A) : matcher A := fun s => p s ++ q s.

(** One decimal digit with a value between [lo] and [hi]. *)
Definition m_digit (lo hi : Z) : matcher Z := fun s =>
  match s with
  | c :: r =>
    match digit_val c with
    | Some d => if (lo <=? d) && (d <=? hi) then [(d, r)] else []
    | None => []
    end
  | [] => []
  end.

Definition m_char (c : N) : matcher unit := fun s =>
  match s with
  | c' :: r => if (c' =? c)%N then [(tt, r)] else []
  | [] => []
  end.

Definition m_two (lo1 hi1 lo2 hi2 : Z) : matcher Z :=
  m_bind (m_digit lo1 hi1) (fun a => m_bind (m_digit lo2 hi2) (fun b => m_ret (10 * a + b))).

(** [\s+], greedy. *)
Fixpoint m_spaces_from (s : pystr) : list (unit * pystr) :=
  match s with
  | c :: r => if isspace c then m_spaces_from r ++ [(tt, r)] else []
  | [] => []
  end.
Definition m_spaces : matcher unit := m_spaces_from.

(** [%d]: [3[0-1]|[1-2]\d|0[1-9]|[1-9]| [1-9]] *)
Definition m_d : matcher Z :=
  m_alt (m_two 3 3 0 1) (m_alt (m_two 1 2 0 9) (m_alt (m_two 0 0 1 9)
    (m_alt (m_digit 1 9) (m_bind (m_char (chr " ")) (fun _ => m_digit 1 9))))).
(** [%m]: [1[0-2]|0[1-9]|[1-9]] *)
Definition m_m : matcher Z :=
  m_alt (m_two 1 1 0 2) (m_alt (m_two 0 0 1 9) (m_digit 1 9)).
(** [%Y]: [\d\d\d\d] *)
Definition m_Y : matcher Z :=
  m_bind (m_two 0 9 0 9) (fun a => m_bind (m_two 0 9 0 9) (fun b => m_ret (100 * a + b))).
(** [%H]: [2[0-3]|[0-1]\d|\d] *)
Definition m_H : matcher Z :=
  m_alt (m_two 2 2 0 3) (m_alt (m_two 0 1 0 9) (m_digit 0 9)).
(** [%M]: [[0-5]\d|\d] *)
Definition m_M : matcher Z := m_alt (m_two 0 5 0 9) (m_digit 0 9).
(** [%S]: [6[0-1]|[0-5]\d|\d] *)
Definition m_S : matcher Z :=
  m_alt (m_two 6 6 0 1) (m_alt (m_two 0 5 0 9) (m_digit 0 9)).

(** The end of [datetime.strptime]: the first match must reach the end
    of the text, and the fields must form a date. *)
Definition strptime_finish (found : list (datetime * pystr)) : result datetime :=
  match found with
  | (d, []) :: _ =>
    if (1 <=? dt_year d) && (dt_day d <=? days_in_month (dt_year d) (dt_month d))
       && (dt_second d <=? 59)
    then Ok d else Raise ValueError
  | _ => Raise ValueError
  end.

(** [datetime.strptime(s, "%d.%m.%Y")] *)
Definition strptime_dmY (s : pystr) : result datetime :=
  strptime_finish
    (m_bind m_d (fun d => m_bind (m_char (chr ".")) (fun _ =>
     m_bind m_m (fun m => m_bind (m_char (chr ".")) (fun _ =>
     m_bind m_Y (fun y => m_ret (mk_datetime y m d 0 0 0)))))) s).

(** [datetime.strptime(s, "%Y-%m-%d %H:%M:%S")] *)
Definition strptime_Ymd_HMS (s : pystr) : result datetime :=
  strptime_finish
    (m_bind m_Y (fun y => m_bind (m_char (chr "-")) (fun _ =>
     m_bind m_m (fun m => m_bind (m_char (chr "-")) (fun _ =>
     m_bind m_d (fun d => m_bind m_spaces (fun _ =>
     m_bind m_H (fun hh => m_bind (m_char (chr ":")) (fun _ =>
     m_bind m_M (fun mm => m_bind (m_char (chr ":")) (fun _ =>
     m_bind m_S (fun ss => m_ret (mk_datetime y m d hh mm ss)))))))))))) s).

Definition digit_chr (d : Z) : N := Z.to_N (48 + d mod 10).

Definition two_digits (n : Z) : pystr := [digit_chr (n / 10); digit_chr n].

(** [d.strftime("%d.%m.%Y")], the year on four digits. *)
Definition strftime_dmY (d : datetime) : pystr :=
  two_digits (dt_day d) ++ [chr "."] ++ two_digits (dt_month d) ++ [chr "."]
  ++ two_digits (dt_year d / 100) ++ two_digits (dt_year d).

(** ** The two regular expressions of the helpers *)

(** [\d{2}\.\d{2}\.\d{4}\b] at the start of [s]. *)
Definition date_at (s : pystr) : option pystr :=
  match s with
  | d1 :: d2 :: p1 :: m1 :: m2 :: p2 :: y1 :: y2 :: y3 :: y4 :: r =>
    if forallb isdecimal [d1; d2; m1; m2; y1; y2; y3; y4]
       && (p1 =? chr ".")%N && (p2 =? chr ".")%N
       && match r with
          | [] => true
          | c :: _ => negb (isword c)
          end
    then Some [d1; d2; p1; m1; m2; p2; y1; y2; y3; y4]
    else None
  | _ => None
  end.

(** The leftmost match of [\b\d{2}\.\d{2}\.\d{4}\b]; [prev] tells whether
    the character before [s] is a word character. *)
Fixpoint search_date (prev : bool) (s : pystr) : option pystr :=
  match s with
  | [] => None
  | c :: s' =>
    match (if prev then None else date_at s) with
    | Some m => Some m
    | None => search_date (isword c) s'
    end
  end.

(** [\d{4}/\d{4}] at the start of [s], and somewhere in [s]. *)
Definition account_nr_at (s : pystr) : bool :=
  match s with
  | a1 :: a2 :: a3 :: a4 :: p :: b1 :: b2 :: b3 :: b4 :: _ =>
    forallb isdecimal [a1; a2; a3; a4; b1; b2; b3; b4] && (p =? chr "/")%N
  | _ => false
  end.

Fixpoint search_account_nr (s : pystr) : bool :=
  account_nr_at s ||
  match s with
  | [] => false
  | _ :: s' => search_account_nr s'
  end.

End Py.

Import Py.

Notation "'let?' x := e 'in' k" := (rbind e (fun x => k))
  (at level 10, x name, e at level 200, k at level 200).
Notation "'let?' ' p := e 'in' k" := (rbind e (fun x => match x with p => k end))
  (at level 10, p pattern, e at level 200, k at level 200).

(** * src/helper_functions.py *)

Module helper_functions.

Definition nbsp : pystr := [160%N].

Definition pdf_amount_to_float (amount_text : pystr) : result float :=
  let? x := float_of_str
              (replace (u ",") (u ".")
                 (replace nbsp (u "") (replace (u " ") (u "") amount_text))) in
  Ok (round2 x).

(** The loop of [get_amount_line] over [enumerate(lines[search_from_line_index:])];
    [None] stands for the pair [(None, None)]. *)
Fixpoint get_amount_line_loop (i : nat) (lines : list pystr) : option (pystr * nat) :=
  match lines with
  | [] => None
  | line :: rest =>
    if (str_in (u "-") line || str_in (u "+") line || str_eqb line (u "0.00"))
       && isdigit
            (replace (u ",") (u "")
               (replace (u ".") (u "")
                  (replace nbsp (u "")
                     (replace (u " ") (u "")
                        (replace (u "-") (u "") (replace (u "+") (u "") line))))))
    then Some (line, i)
    else get_amount_line_loop (S i) rest
  end.

Definition get_amount_line (lines : list pystr) (search_from_line_index : nat)
  : option (pystr * nat) :=
  get_amount_line_loop 0 (slice_from lines search_from_line_index).

Definition text_contains_date (text : pystr) : option pystr :=
  search_date false text.

Definition get_date_from_string (date_string : pystr) : result pystr :=
  let? date_object := strptime_Ymd_HMS date_string in
  Ok (strftime_dmY date_object).

(** As for [get_amount_line], [None] stands for [(None, None)]. *)
Fixpoint get_account_nr_line_loop (i : nat) (lines : list pystr) : option (pystr * nat) :=
  match lines with
  | [] => None
  | line :: rest =>
    if search_account_nr line then Some (strip line, i)
    else get_account_nr_line_loop (S i) rest
  end.

Definition get_account_nr_line (extracted_lines : list pystr) (search_from_line_index : nat)
  : option (pystr * nat) :=
  get_account_nr_line_loop 0 (slice_from extracted_lines search_from_line_index).

End helper_functions.

Import helper_functions.

(** * src/constants.py *)

Module TransactionConstants.

Definition TRANSACTION_END_SECTION : list pystr :=
  [ u "Konečný zůstatek:";
    u "Pokračování na další straně";
    u "Výpis z účtu";
    u "Datum";
    u "Strana:";
    u "Prosíme Vás o včasné překontrolování uvedených údajů. V případě nesouhlasu kontaktujte prosím svoje obchodní místo nebo volejte na telefon";
    u "Vážená klientko, vážený kliente," ].

End TransactionConstants.

(** * src/transactions.py: classes, objects and the object store *)

Inductive Class :=
| Transaction
| IncomingPayment
| OutgoingPayment
| OutgoingPaymentPeriodic
| CardPaymentDebit
| CardPaymentIncoming
| CardAtmCashOut
| CardAtmDeposit
| BankPayedService
| InterestPositive
| TaxInterest
| ElectronicBankingTransfer
| DirectDebit.

#[global] Instance Class_eq_dec : EqDecision Class.
Proof. solve_decision. Defined.

(** [c.__name__] *)
Definition class_name (c : Class) : pystr :=
  match c with
  | Transaction => u "Transaction"
  | IncomingPayment => u "IncomingPayment"
  | OutgoingPayment => u "OutgoingPayment"
  | OutgoingPaymentPeriodic => u "OutgoingPaymentPeriodic"
  | CardPaymentDebit => u "CardPaymentDebit"
  | CardPaymentIncoming => u "CardPaymentIncoming"
  | CardAtmCashOut => u "CardAtmCashOut"
  | CardAtmDeposit => u "CardAtmDeposit"
  | BankPayedService => u "BankPayedService"
  | InterestPositive => u "InterestPositive"
  | TaxInterest => u "TaxInterest"
  | ElectronicBankingTransfer => u "ElectronicBankingTransfer"
  | DirectDebit => u "DirectDebit"
  end.

(** [c.__mro__] without [object]: the class, then its bases. *)
Definition mro (c : Class) : list Class :=
  match c with
  | Transaction => [Transaction]
  | IncomingPayment => [IncomingPayment; Transaction]
  | OutgoingPayment => [OutgoingPayment; Transaction]
  | OutgoingPaymentPeriodic => [OutgoingPaymentPeriodic; OutgoingPayment; Transaction]
  | CardPaymentDebit => [CardPaymentDebit; OutgoingPayment; Transaction]
  | CardPaymentIncoming => [CardPaymentIncoming; CardPaymentDebit; OutgoingPayment; Transaction]
  | CardAtmCashOut => [CardAtmCashOut; CardPaymentDebit; OutgoingPayment; Transaction]
  | CardAtmDeposit => [CardAtmDeposit; IncomingPayment; Transaction]
  | BankPayedService => [BankPayedService; Transaction]
  | InterestPositive => [InterestPositive; IncomingPayment; Transaction]
  | TaxInterest => [TaxInterest; OutgoingPayment; Transaction]
  | ElectronicBankingTransfer => [ElectronicBankingTransfer; IncomingPayment; Transaction]
  | DirectDebit => [DirectDebit; OutgoingPayment; Transaction]
  end.

Definition issubclass (c d : Class) : bool := bool_decide (d ∈ mro c).

(** Python values of the kinds the fields of a transaction hold. *)
Inductive value :=
| VNone
| VBool (b : bool)
| VInt (z : Z)
| VFloat (x : float)
| VStr (s : pystr).

Definition value_eqb (a b : value) : bool :=
  match a, b with
  | VNone, VNone => true
  | VBool x, VBool y => Bool.eqb x y
  | VInt x, VInt y => x =? y
  | VFloat x, VFloat y => feq x y
  | VInt x, VFloat y => feq (float_of_Z x) y
  | VFloat x, VInt y => feq x (float_of_Z y)
  | VStr x, VStr y => str_eqb x y
  | _, _ => false
  end.

Definition is_str (v : value) (s : string) : bool := value_eqb v (VStr (u s)).

(** [s + v] for a string [s] *)
Definition str_add (s : pystr) (v : value) : result pystr :=
  match v with
  | VStr t => Ok (s ++ t)
  | _ => Raise TypeError
  end.

(** Keyword arguments, dictionaries with string keys and the fields of
    an instance: association lists in insertion order, keys unique. *)
Definition kwargs := list (string * value).

Fixpoint lookup_kw (k : string) (kw : kwargs) : option value :=
  match kw with
  | [] => None
  | (k', v) :: kw' => if String.eqb k' k then Some v else lookup_kw k kw'
  end.

Fixpoint update_kw (k : string) (v : value) (kw : kwargs) : kwargs :=
  match kw with
  | [] => [(k, v)]
  | (k', v') :: kw' =>
    if String.eqb k' k then (k, v) :: kw' else (k', v') :: update_kw k v kw'
  end.

(** The fields of the dataclasses: name, default ([None]: required) and
    the [init] flag. *)
Record field := mk_field { f_name : string; f_default : option value; f_init : bool }.

Definition own_fields (c : Class) : list field :=
  match c with
  | Transaction =>
    [ mk_field "statement_account" None true;
      mk_field "parent_statement" (Some VNone) true;
      mk_field "transaction_id" (Some VNone) false;
      mk_field "year" (Some VNone) true;
      mk_field "account_from" (Some VNone) true;
      mk_field "amount" (Some (VInt 0)) true;
      mk_field "date_booked" (Some VNone) true;
      mk_field "account_to" (Some VNone) true;
      mk_field "currency" (Some (VStr (u "CZK"))) true;
      mk_field "account_from_name" (Some VNone) true;
      mk_field "sender_note" (Some VNone) true;
      mk_field "variable_symbol" (Some VNone) true;
      mk_field "constant_symbol" (Some VNone) true;
      mk_field "specific_symbol" (Some VNone) true;
      mk_field "all_transaction_lines_text" (Some (VStr (u ""))) true;
      mk_field "user_description" (Some (VStr (u ""))) true;
      mk_field "user_category" (Some (VStr (u ""))) true ]
  | CardPaymentDebit =>
    [ mk_field "payment_date" (Some VNone) true;
      mk_field "card_identifier" (Some VNone) true;
      mk_field "vendor_text" (Some VNone) true;
      mk_field "card_owner" (Some VNone) true ]
  | CardAtmCashOut =>
    [ mk_field "our_bank_atm" (Some (VBool true)) true;
      mk_field "cash_out_date" (Some (VStr (u ""))) true ]
  | CardAtmDeposit =>
    [ mk_field "deposit_date" (Some (VStr (u ""))) true ]
  | BankPayedService =>
    [ mk_field "service_type" (Some VNone) true ]
  | _ => []
  end.

(** [dataclasses.fields(c)]: the fields of the bases first. *)
Definition fields (c : Class) : list field := flat_map own_fields (rev (mro c)).

(** An instance: its class and the values of its fields, in field order. *)
Record object := mk_object { cls : Class; attrs : kwargs }.

Definition getattr (o : object) (name : string) : result value :=
  match lookup_kw name (attrs o) with
  | Some v => Ok v
  | None => Raise AttributeError
  end.

Definition setattr (o : object) (name : string) (v : value) : object :=
  mk_object (cls o) (update_kw name v (attrs o)).

Definition isinstance (o : object) (c : Class) : bool := issubclass (cls o) c.

(** [dataclasses.asdict(o)] *)
Definition asdict (o : object) : kwargs :=
  omap (fun f => match lookup_kw (f_name f) (attrs o) with
                 | Some v => Some (f_name f, v)
                 | None => None
                 end) (fields (cls o)).

(** The generated [__init__], before [__post_init__]: a keyword that is
    not an [init] field and a missing required argument are type errors. *)
Definition accepts_keyword (c : Class) (k : string) : bool :=
  existsb (fun f => f_init f && String.eqb (f_name f) k) (fields c).

Fixpoint bind_fields (fs : list field) (kw : kwargs) : result kwargs :=
  match fs with
  | [] => Ok []
  | f :: fs' =>
    let? v := match (if f_init f then lookup_kw (f_name f) kw else None), f_default f with
              | Some v, _ => Ok v
              | None, Some d => Ok d
              | None, None => Raise TypeError
              end in
    let? rest := bind_fields fs' kw in
    Ok ((f_name f, v) :: rest)
  end.

Definition dataclass_init (c : Class) (kw : kwargs) : result object :=
  if forallb (fun '(k, _) => accepts_keyword c k) kw
  then let? a := bind_fields (fields c) kw in Ok (mk_object c a)
  else Raise TypeError.

(** References into the store are the positions of the objects, in
    creation order. *)
Definition ref := nat.

(** A cell handed to [csv.writer]: a value or a [datetime]. *)
Inductive cell :=
| CellValue (v : value)
| CellDate (d : datetime).

(** The state the classes of [transactions.py] share: the objects, the
    class attribute [Transaction.generator_id] (absent, or the integer
    the generator yields next), the [all] list of every class, and the
    two files the class methods write: the document of
    [transactions.json] and the rows of [transactions.csv], when the
    file exists. *)
Record World := mk_World {
  heap : list object;
  generator_id : option Z;
  all : Class -> list ref;
  transactions_json : option (list kwargs);
  transactions_csv : option (list (list cell)) }.

Definition empty_World : World := mk_World [] None (fun _ => []) None None.

Definition set_heap (h : list object) (w : World) : World :=
  mk_World h (generator_id w) (all w) (transactions_json w) (transactions_csv w).
Definition set_generator_id (g : option Z) (w : World) : World :=
  mk_World (heap w) g (all w) (transactions_json w) (transactions_csv w).
Definition set_all (a : Class -> list ref) (w : World) : World :=
  mk_World (heap w) (generator_id w) a (transactions_json w) (transactions_csv w).
Definition set_transactions_json (d : option (list kwargs)) (w : World) : World :=
  mk_World (heap w) (generator_id w) (all w) d (transactions_csv w).
Definition set_transactions_csv (d : option (list (list cell))) (w : World) : World :=
  mk_World (heap w) (generator_id w) (all w) (transactions_json w) d.

(** Computations over the shared state that may raise. *)
Definition M (A : Type) := World -> result (A * World).

Definition ret {A} (a : A) : M A := fun w => Ok (a, w).
Definition mbind {A B} (m : M A) (k : A -> M B) : M B :=
  fun w => match m w with
           | Ok (a, w') => k a w'
           | Raise e => Raise e
           end.
Definition lift {A} (r : result A) : M A :=
  fun w => match r with
           | Ok a => Ok (a, w)
           | Raise e => Raise e
           end.
Definition raise {A} (e : exn) : M A := fun _ => Raise e.

Notation "'let!' x := e 'in' k" := (mbind e (fun x => k))
  (at level 10, x name, e at level 200, k at level 200).
Notation "'let!' ' p := e 'in' k" := (mbind e (fun x => match x with p => k end))
  (at level 10, p pattern, e at level 200, k at level 200).

Definition deref (r : ref) : M object :=
  fun w => match heap w !! r with
           | Some o => Ok (o, w)
           | None => Raise IndexError
           end.

Definition store (r : ref) (o : object) : M unit :=
  fun w => Ok (tt, set_heap (<[r := o]> (heap w)) w).

(** [CardPaymentDebit.get_card_owner] *)
Definition card_owners : list (pystr * pystr) :=
  [ (u "7148", u "Ondra, ČS, VISA");
    (u "5567", u "Ondra, ČSOB, MC");
    (u "1563", u "Ondra, ČSOB, MC");
    (u "9448", u "Ondra, REVOLUT, MC");
    (u "0119", u "Mája, ČS, VISA") ].

Definition get_card_owner (self : object) : result pystr :=
  let? card_identifier := getattr self "card_identifier" in
  Ok (match card_identifier with
      | VStr s =>
        match List.find (fun '(k, _) => str_eqb k s) card_owners with
        | Some (_, owner) => owner
        | None => u "Unknown card"
        end
      | _ => u "Unknown card"
      end).

(** [next(Transaction.generator_id)], the generator being created with
    [id_generator(start_id=1)] when the attribute is still [None]. *)
Definition next_id : M Z :=
  fun w =>
    let n := match generator_id w with
             | None => 1
             | Some n => n
             end in
    Ok (n, set_generator_id (Some (n + 1)) w).

(** The [__post_init__] chain of class [c]: the card classes set
    [card_owner], [Transaction.__post_init__] draws the id and appends
    the instance to [Transaction.all], and each class of the chain
    appends it to its own [all]. *)
Definition post_init (self : object) : M ref :=
  let! self := lift (if isinstance self CardPaymentDebit
                     then let? owner := get_card_owner self in
                          Ok (setattr self "card_owner" (VStr owner))
                     else Ok self) in
  let! n := next_id in
  let self := setattr self "transaction_id" (VInt n) in
  fun w =>
    let r := length (heap w) in
    Ok (r, set_all (fun c => if isinstance self c then all w c ++ [r] else all w c)
                   (set_heap (heap w ++ [self]) w)).

(** A call of the class [c] with the keyword arguments [kw]. *)
Definition new (c : Class) (kw : kwargs) : M ref :=
  let! self := lift (dataclass_init c kw) in
  post_init self.

(** ** The transaction classes: markers and extraction rules *)

(** [d.get(bank)] on a [text_identifiers] dictionary. *)
Definition identifiers_get (d : list (pystr * list pystr)) (bank : value)
  : option (list pystr) :=
  match bank with
  | VStr b =>
    match List.find (fun '(k, _) => str_eqb k b) d with
    | Some (_, ids) => Some ids
    | None => None
    end
  | _ => None
  end.

(** [v.strip()] where [v] is a string or [None]. *)
Definition strip_of (v : option pystr) : result pystr :=
  match v with
  | Some s => Ok (strip s)
  | None => Raise AttributeError
  end.

Definition str_or_none (v : option pystr) : value :=
  match v with
  | Some s => VStr s
  | None => VNone
  end.

(** [line_index + index + k] where [index] is an integer or [None]. *)
Definition add_index (line_index : nat) (index : option nat) (k : Z) : result Z :=
  match index with
  | Some j => Ok (Z.of_nat line_index + Z.of_nat j + k)
  | None => Raise TypeError
  end.

Definition nl : pystr := [10%N].

Module IncomingPayment.

Definition text_identifiers : list (pystr * list pystr) :=
  [ (u "cs", [u "Příchozí úhrada"; u "Zahraniční příchozí úhrada"]);
    (u "csob", [u "Příchozí úhrada"]) ].

Definition create (bank year statement_account account_to : value)
    (line_index : nat) (extracted_text_lines : list pystr) : M (option ref) :=
  let i := Z.of_nat line_index in
  if is_str bank "cs" then
    let! kw := lift (
      let? line := getitem extracted_text_lines i in
      let? date := match text_contains_date line with
                   | Some d => Ok d
                   | None => let? prev := getitem extracted_text_lines (i - 1) in
                             Ok (strip prev)
                   end in
      let? l1 := getitem extracted_text_lines (i + 1) in
      let account_from := strip l1 in
      let? amount_line := strip_of (fst <$> get_amount_line extracted_text_lines line_index) in
      let? amount := pdf_amount_to_float amount_line in
      Ok [ ("statement_account", statement_account); ("year", year);
           ("account_from", VStr account_from); ("amount", VFloat amount);
           ("date_booked", VStr date); ("account_to", account_to) ]) in
    let! r := new IncomingPayment kw in
    ret (Some r)
  else if is_str bank "csob" then
    let! kw := lift (
      let? line := getitem extracted_text_lines i in
      let? date := match text_contains_date line with
                   | Some d => Ok d
                   | None => let? prev := getitem extracted_text_lines (i - 1) in
                             str_add (strip prev) year
                   end in
      let found := get_account_nr_line extracted_text_lines line_index in
      let account_from := fst <$> found in
      let? j := add_index line_index (snd <$> found) (- 2) in
      let? amount_line := getitem extracted_text_lines j in
      let? amount := pdf_amount_to_float (strip amount_line) in
      Ok [ ("statement_account", statement_account); ("year", year);
           ("account_from", str_or_none account_from); ("amount", VFloat amount);
           ("date_booked", VStr date); ("account_to", account_to) ]) in
    let! r := new IncomingPayment kw in
    ret (Some r)
  else ret None.

End IncomingPayment.

Module OutgoingPayment.

Definition text_identifiers : list (pystr * list pystr) :=
  [ (u "csob", [u "Odchozí úhrada"]); (u "cs", [u "Tuzemská odchozí úhrada"]) ].

Definition create (bank year statement_account account_from : value)
    (line_index : nat) (extracted_text_lines : list pystr) : M (option ref) :=
  let i := Z.of_nat line_index in
  if is_str bank "cs" then
    let! kw := lift (
      let? line := getitem extracted_text_lines i in
      let? date := match text_contains_date line with
                   | Some d => Ok d
                   | None => let? prev := getitem extracted_text_lines (i - 1) in
                             Ok (strip prev)
                   end in
      let? l1 := getitem extracted_text_lines (i + 1) in
      let offset := if str_in (u "okamžitá") l1 then 1 else 0 in
      let? l2 := getitem extracted_text_lines (i + 1 + offset) in
      let account_to := strip l2 in
      let? amount_line := strip_of (fst <$> get_amount_line extracted_text_lines line_index) in
      let? amount := pdf_amount_to_float amount_line in
      Ok [ ("statement_account", statement_account); ("year", year);
           ("account_from", account_from); ("amount", VFloat amount);
           ("date_booked", VStr date); ("account_to", VStr account_to) ]) in
    let! r := new OutgoingPayment kw in
    ret (Some r)
  else if is_str bank "csob" then
    let! kw := lift (
      let? line := getitem extracted_text_lines i in
      let? date := match text_contains_date line with
                   | Some d => Ok d
                   | None => let? prev := getitem extracted_text_lines (i - 1) in
                             str_add (strip prev) year
                   end in
      let found := get_account_nr_line extracted_text_lines line_index in
      let account_to := fst <$> found in
      let? j := add_index line_index (snd <$> found) (- 2) in
      let? amount_line := getitem extracted_text_lines j in
      let? amount := pdf_amount_to_float (strip amount_line) in
      Ok [ ("statement_account", statement_account); ("year", year);
           ("account_from", account_from); ("amount", VFloat amount);
           ("date_booked", VStr date); ("account_to", str_or_none account_to) ]) in
    let! r := new OutgoingPayment kw in
    ret (Some r)
  else ret None.

End OutgoingPayment.

Module OutgoingPaymentPeriodic.

Definition text_identifiers : list (pystr * list pystr) :=
  [ (u "cs", [u "Trvalý příkaz"]); (u "csob", [u "Trvalý příkaz"]) ].

Definition create (bank year statement_account account_from : value)
    (line_index : nat) (extracted_text_lines : list pystr) : M (option ref) :=
  let i := Z.of_nat line_index in
  if is_str bank "cs" then
    let! kw := lift (
      let? line := getitem extracted_text_lines i in
      let? date := match text_contains_date line with
                   | Some d => Ok d
                   | None => let? prev := getitem extracted_text_lines (i - 1) in
                             Ok (strip prev)
                   end in
      let found := get_account_nr_line extracted_text_lines line_index in
      let account_to := fst <$> found in
      let? amount_line := strip_of (fst <$> get_amount_line extracted_text_lines line_index) in
      let? amount := pdf_amount_to_float amount_line in
      Ok [ ("statement_account", statement_account); ("year", year);
           ("account_from", account_from); ("amount", VFloat amount);
           ("date_booked", VStr date); ("account_to", str_or_none account_to) ]) in
    let! r := new OutgoingPaymentPeriodic kw in
    ret (Some r)
  else if is_str bank "csob" then
    let! kw := lift (
      let? line := getitem extracted_text_lines i in
      let? date := match text_contains_date line with
                   | Some d => Ok d
                   | None => let? prev := getitem extracted_text_lines (i - 1) in
                             str_add (strip prev) year
                   end in
      let found := get_account_nr_line extracted_text_lines line_index in
      let account_to := fst <$> found in
      let? j := add_index line_index (snd <$> found) (- 2) in
      let? amount_line := getitem extracted_text_lines j in
      let? amount := pdf_amount_to_float (strip amount_line) in
      Ok [ ("statement_account", statement_account); ("year", year);
           ("account_from", account_from); ("amount", VFloat amount);
           ("date_booked", VStr date); ("account_to", str_or_none account_to) ]) in
    let! r := new OutgoingPaymentPeriodic kw in
    ret (Some r)
  else ret None.

End OutgoingPaymentPeriodic.

Module CardPaymentDebit.

Definition text_identifiers : list (pystr * list pystr) :=
  [ (u "csob", [u "Transakce platební kartou"]); (u "cs", [u "Platba kartou"]) ].

Definition create (bank year statement_account account_from : value)
    (line_index : nat) (extracted_text_lines : list pystr) : M (option ref) :=
  let i := Z.of_nat line_index in
  if is_str bank "cs" then
    let! kw := lift (
      let? line := getitem extracted_text_lines i in
      let? date := match text_contains_date line with
                   | Some d => Ok d
                   | None => let? prev := getitem extracted_text_lines (i - 1) in
                             Ok (strip prev)
                   end in
      let? l1 := getitem extracted_text_lines (i + 1) in
      let? variable_symbol := int (strip l1) in
      let? amount_line := strip_of (fst <$> get_amount_line extracted_text_lines line_index) in
      let? amount := pdf_amount_to_float amount_line in
      let? l3 := getitem extracted_text_lines (i + 3) in
      let? constant_symbol := int (strip l3) in
      let? l4 := getitem extracted_text_lines (i + 4) in
      let? specific_symbol := int (strip l4) in
      let? l5 := getitem extracted_text_lines (i + 5) in
      let? first := getitem (split (chr " ") (strip l5)) 0 in
      let card_identifier := replace (u "X") (u "") first in
      let? l5' := getitem extracted_text_lines (i + 5) in
      let? last := getitem (split (chr " ") (strip l5')) (- 1) in
      let payment_date := replace (u "d.tran.") (u "") last in
      let? l6 := getitem extracted_text_lines (i + 6) in
      let vendor_text := strip l6 in
      Ok [ ("statement_account", statement_account); ("year", year);
           ("account_from", account_from); ("amount", VFloat amount);
           ("date_booked", VStr date); ("payment_date", VStr payment_date);
           ("variable_symbol", VInt variable_symbol);
           ("constant_symbol", VInt constant_symbol);
           ("specific_symbol", VInt specific_symbol);
           ("card_identifier", VStr card_identifier);
           ("vendor_text", VStr vendor_text) ]) in
    let! r := new CardPaymentDebit kw in
    ret (Some r)
  else if is_str bank "csob" then
    let! kw := lift (
      let? line := getitem extracted_text_lines i in
      let? date := match text_contains_date line with
                   | Some d => Ok d
                   | None => let? prev := getitem extracted_text_lines (i - 1) in
                             str_add (strip prev) year
                   end in
      let? amount_line := strip_of (fst <$> get_amount_line extracted_text_lines line_index) in
      let? amount := pdf_amount_to_float amount_line in
      let? l4 := getitem extracted_text_lines (i + 4) in
      let? variable_symbol := int (strip l4) in
      let? l5 := getitem extracted_text_lines (i + 5) in
      let? constant_symbol := int (strip l5) in
      let? l6 := getitem extracted_text_lines (i + 6) in
      let? specific_symbol := int (strip l6) in
      let? l6' := getitem extracted_text_lines (i + 6) in
      let card_identifier := last_chars 4 (strip l6') in
      let? l8 := getitem extracted_text_lines (i + 8) in
      let? payment_date := getitem (split (chr " ") (strip l8)) (- 1) in
      let? l7 := getitem extracted_text_lines (i + 7) in
      let vendor_text := strip l7 in
      let? l9 := getitem extracted_text_lines (i + 9) in
      let vendor_text := vendor_text ++ strip l9 in
      Ok [ ("statement_account", statement_account); ("year", year);
           ("account_from", account_from); ("amount", VFloat amount);
           ("date_booked", VStr date); ("payment_date", VStr payment_date);
           ("variable_symbol", VInt variable_symbol);
           ("constant_symbol", VInt constant_symbol);
           ("specific_symbol", VInt specific_symbol);
           ("card_identifier", VStr card_identifier);
           ("vendor_text", VStr vendor_text) ]) in
    let! r := new CardPaymentDebit kw in
    ret (Some r)
  else ret None.

End CardPaymentDebit.

Module CardPaymentIncoming.

Definition text_identifiers : list (pystr * list pystr) :=
  [ (u "csob", [u "Příchozí úhrada kartou"]); (u "cs", [u "Vratka platby kartou"]) ].

Definition create (bank year statement_account account_to : value)
    (line_index : nat) (extracted_text_lines : list pystr) : M (option ref) :=
  let i := Z.of_nat line_index in
  if is_str bank "cs" then
    let! kw := lift (
      let? line := getitem extracted_text_lines i in
      let? date := match text_contains_date line with
                   | Some d => Ok d
                   | None => let? prev := getitem extracted_text_lines (i - 1) in
                             Ok (strip prev)
                   end in
      let? l1 := getitem extracted_text_lines (i + 1) in
      let? variable_symbol := int (strip l1) in
      let? amount_line := strip_of (fst <$> get_amount_line extracted_text_lines line_index) in
      let? amount := pdf_amount_to_float amount_line in
      let? l4 := getitem extracted_text_lines (i + 4) in
      let? constant_symbol := int (strip l4) in
      let? l5 := getitem extracted_text_lines (i + 5) in
      let? specific_symbol := int (strip l5) in
      let? l6 := getitem extracted_text_lines (i + 6) in
      let? first := getitem (split (chr " ") (strip l6)) 0 in
      let card_identifier := replace (u "X") (u "") first in
      let? l6' := getitem extracted_text_lines (i + 6) in
      let? last := getitem (split (chr " ") (strip l6')) (- 1) in
      let payment_date := replace (u "d.tran.") (u "") last in
      let? l7 := getitem extracted_text_lines (i + 7) in
      let vendor_text := strip l7 in
      Ok [ ("statement_account", statement_account); ("year", year);
           ("amount", VFloat amount);
           ("date_booked", VStr date); ("payment_date", VStr payment_date);
           ("variable_symbol", VInt variable_symbol);
           ("constant_symbol", VInt constant_symbol);
           ("specific_symbol", VInt specific_symbol);
           ("card_identifier", VStr card_identifier);
           ("vendor_text", VStr vendor_text) ]) in
    let! r := new CardPaymentDebit kw in
    ret (Some r)
  else if is_str bank "csob" then
    let! kw := lift (
      let? line := getitem extracted_text_lines i in
      let? date := match text_contains_date line with
                   | Some d => Ok d
                   | None => let? prev := getitem extracted_text_lines (i - 1) in
                             str_add (strip prev) year
                   end in
      let? amount_line := getitem extracted_text_lines (i + 2) in
      let? amount := pdf_amount_to_float (strip amount_line) in
      let? l4 := getitem extracted_text_lines (i + 4) in
      let? variable_symbol := int (strip l4) in
      let? l5 := getitem extracted_text_lines (i + 5) in
      let? constant_symbol := int (strip l5) in
      let? l6 := getitem extracted_text_lines (i + 6) in
      let? specific_symbol := int (strip l6) in
      let? l6' := getitem extracted_text_lines (i + 6) in
      let card_identifier := last_chars 4 (strip l6') in
      let? l8 := getitem extracted_text_lines (i + 8) in
      let? payment_date := getitem (split (chr " ") (strip l8)) (- 1) in
      let? l7 := getitem extracted_text_lines (i + 7) in
      let vendor_text := strip l7 in
      let? l9 := getitem extracted_text_lines (i + 9) in
      let vendor_text := vendor_text ++ strip l9 in
      Ok [ ("statement_account", statement_account); ("year", year);
           ("account_to", account_to); ("amount", VFloat amount);
           ("date_booked", VStr date); ("payment_date", VStr payment_date);
           ("variable_symbol", VInt variable_symbol);
           ("constant_symbol", VInt constant_symbol);
           ("specific_symbol", VInt specific_symbol);
           ("card_identifier", VStr card_identifier);
           ("vendor_text", VStr vendor_text) ]) in
    let! r := new CardPaymentIncoming kw in
    ret (Some r)
  else ret None.

End CardPaymentIncoming.

Module CardAtmCashOut.

Definition text_identifiers : list (pystr * list pystr) :=
  [ (u "cs", [u "Výběr hotovosti z bankomatu"]); (u "csob", [u "PLACEHOLDER"]) ].

Definition is_our_bank_atm (line_index : nat) (extracted_text_lines : list pystr)
  : result bool :=
  let other_bank_identifier_text := u "jiné banky v ČR" in
  let? l1 := getitem extracted_text_lines (Z.of_nat line_index + 1) in
  if str_in other_bank_identifier_text l1 then Ok false else Ok true.

Definition create (bank year statement_account account_from : value)
    (line_index : nat) (extracted_text_lines : list pystr) : M (option ref) :=
  let i := Z.of_nat line_index in
  if is_str bank "cs" then
    let! kw := lift (
      let? line := getitem extracted_text_lines i in
      let? date := match text_contains_date line with
                   | Some d => Ok d
                   | None => let? prev := getitem extracted_text_lines (i - 1) in
                             Ok (strip prev)
                   end in
      let? own_bank_atm := is_our_bank_atm line_index extracted_text_lines in
      let offset := if negb own_bank_atm then 1 else 0 in
      let? l1 := getitem extracted_text_lines (i + 1 + offset) in
      let? variable_symbol := int (strip l1) in
      let? amount_line := strip_of (fst <$> get_amount_line extracted_text_lines line_index) in
      let? amount := pdf_amount_to_float amount_line in
      let? l3 := getitem extracted_text_lines (i + 3 + offset) in
      let? constant_symbol := int (strip l3) in
      let? l4 := getitem extracted_text_lines (i + 4 + offset) in
      let? specific_symbol := int (strip l4) in
      let? l5 := getitem extracted_text_lines (i + 5 + offset) in
      let? first := getitem (split (chr " ") (strip l5)) 0 in
      let card_identifier := replace (u "X") (u "") first in
      let? l5' := getitem extracted_text_lines (i + 5 + offset) in
      let? last := getitem (split (chr " ") (strip l5')) (- 1) in
      let cash_out_date := replace (u "d.tran.") (u "") last in
      let? l6 := getitem extracted_text_lines (i + 6 + offset) in
      let vendor_text := strip l6 in
      Ok [ ("statement_account", statement_account); ("year", year);
           ("account_from", account_from); ("amount", VFloat amount);
           ("date_booked", VStr date);
           ("variable_symbol", VInt variable_symbol);
           ("constant_symbol", VInt constant_symbol);
           ("specific_symbol", VInt specific_symbol);
           ("card_identifier", VStr card_identifier);
           ("vendor_text", VStr vendor_text);
           ("our_bank_atm", VBool own_bank_atm);
           ("cash_out_date", VStr cash_out_date) ]) in
    let! r := new CardAtmCashOut kw in
    ret (Some r)
  else ret None.

End CardAtmCashOut.

Module CardAtmDeposit.

Definition text_identifiers : list (pystr * list pystr) :=
  [ (u "cs", [u "Vklad hotovosti přes bankomat"]); (u "csob", [u "PLACEHOLDER"]) ].

Definition create (bank year statement_account account_from : value)
    (line_index : nat) (extracted_text_lines : list pystr) : M (option ref) :=
  let i := Z.of_nat line_index in
  if is_str bank "cs" then
    let! kw := lift (
      let? line := getitem extracted_text_lines i in
      let? date := match text_contains_date line with
                   | Some d => Ok d
                   | None => let? prev := getitem extracted_text_lines (i - 1) in
                             Ok (strip prev)
                   end in
      let? l1 := getitem extracted_text_lines (i + 1) in
      let? variable_symbol := int (strip l1) in
      let? amount_line := strip_of (fst <$> get_amount_line extracted_text_lines line_index) in
      let? amount := pdf_amount_to_float amount_line in
      let? l3 := getitem extracted_text_lines (i + 3) in
      let? constant_symbol := int (strip l3) in
      let deposit_date := date in
      Ok [ ("statement_account", statement_account); ("year", year);
           ("account_from", account_from); ("account_to", statement_account);
           ("amount", VFloat amount); ("date_booked", VStr date);
           ("variable_symbol", VInt variable_symbol);
           ("constant_symbol", VInt constant_symbol);
           ("deposit_date", VStr deposit_date) ]) in
    let! r := new CardAtmDeposit kw in
    ret (Some r)
  else ret None.

End CardAtmDeposit.

Module BankPayedService.

Definition text_identifiers : list (pystr * list pystr) :=
  [ (u "cs", [u "Ceny za služby"]); (u "csob", [u "Poplatek-platební karta"]) ].

(** The inner loop of the two service-type functions: the first subtype
    found in line [j] is appended. *)
Fixpoint subtype_loop (value : list pystr) (extracted_text_lines : list pystr) (j : Z)
    (service_type : pystr) : result pystr :=
  match value with
  | [] => Ok service_type
  | subtype :: rest =>
    let? l := getitem extracted_text_lines j in
    if str_in subtype l then Ok (service_type ++ u " - " ++ subtype)
    else subtype_loop rest extracted_text_lines j service_type
  end.

Definition cs_service_types : list (pystr * list pystr) :=
  [ (u "Cena za výběr hotovosti z bankomatu", [u "jiné banky v ČR"]);
    (u "Cena za vedení účtu", []);
    (u "Poplatek", [u "platební karta"]) ].

Fixpoint cs_service_type_loop (items : list (pystr * list pystr)) (line_index : nat)
    (extracted_text_lines : list pystr) (service_type : pystr) : result pystr :=
  match items with
  | [] => Ok service_type
  | (key, value) :: rest =>
    let? l1 := getitem extracted_text_lines (Z.of_nat line_index + 1) in
    if str_in key l1
    then subtype_loop value extracted_text_lines (Z.of_nat line_index + 2)
           (service_type ++ key)
    else cs_service_type_loop rest line_index extracted_text_lines service_type
  end.

Definition get_cs_bank_service_type (line_index : nat) (extracted_text_lines : list pystr)
  : result pystr :=
  cs_service_type_loop cs_service_types line_index extracted_text_lines (u "").

Definition csob_service_types : list (pystr * list pystr) :=
  [ (u "Poplatek", [u "platební karta"]) ].

Fixpoint csob_service_type_loop (items : list (pystr * list pystr)) (line_index : nat)
    (extracted_text_lines : list pystr) (service_type : pystr) : result pystr :=
  match items with
  | [] => Ok service_type
  | (key, value) :: rest =>
    let? l0 := getitem extracted_text_lines (Z.of_nat line_index) in
    if str_in key l0
    then let? service_type :=
           subtype_loop value extracted_text_lines (Z.of_nat line_index)
             (service_type ++ key) in
         Ok (service_type ++ nl)
    else csob_service_type_loop rest line_index extracted_text_lines service_type
  end.

Definition get_csob_bank_service_type (line_index : nat) (extracted_text_lines : list pystr)
  : result pystr :=
  csob_service_type_loop csob_service_types line_index extracted_text_lines nl.

Definition create (bank year statement_account account_from : value)
    (line_index : nat) (extracted_text_lines : list pystr) : M (option ref) :=
  let i := Z.of_nat line_index in
  if is_str bank "cs" then
    let! kw := lift (
      let? line := getitem extracted_text_lines i in
      let? date := match text_contains_date line with
                   | Some d => Ok d
                   | None => let? prev := getitem extracted_text_lines (i - 1) in
                             Ok (strip prev)
                   end in
      let? amount_line := strip_of (fst <$> get_amount_line extracted_text_lines line_index) in
      let? amount := pdf_amount_to_float amount_line in
      let? service_type := get_cs_bank_service_type line_index extracted_text_lines in
      Ok [ ("statement_account", statement_account); ("year", year);
           ("account_from", account_from); ("amount", VFloat amount);
           ("date_booked", VStr date); ("service_type", VStr service_type) ]) in
    let! r := new BankPayedService kw in
    ret (Some r)
  else if is_str bank "csob" then
    let! kw := lift (
      let? line := getitem extracted_text_lines i in
      let? date := match text_contains_date line with
                   | Some d => Ok d
                   | None => let? prev := getitem extracted_text_lines (i - 1) in
                             str_add (strip prev) year
                   end in
      let? amount_line := strip_of (fst <$> get_amount_line extracted_text_lines line_index) in
      let? amount := pdf_amount_to_float amount_line in
      let? service_type := get_csob_bank_service_type line_index extracted_text_lines in
      Ok [ ("statement_account", statement_account); ("year", year);
           ("account_from", account_from); ("amount", VFloat amount);
           ("date_booked", VStr date); ("service_type", VStr service_type) ]) in
    let! r := new BankPayedService kw in
    ret (Some r)
  else ret None.

End BankPayedService.

Module InterestPositive.

Definition text_identifiers : list (pystr * list pystr) :=
  [ (u "cs", [u "Kreditní úrok"]); (u "csob", [u "Zúčtování kladných úroků"]) ].

Definition create (bank year statement_account account_from : value)
    (line_index : nat) (extracted_text_lines : list pystr) : M (option ref) :=
  let i := Z.of_nat line_index in
  if is_str bank "cs" then
    let! kw := lift (
      let? line := getitem extracted_text_lines i in
      let? date := match text_contains_date line with
                   | Some d => Ok d
                   | None => let? prev := getitem extracted_text_lines (i - 1) in
                             Ok (strip prev)
                   end in
      let account_to := account_from in
      let? amount_line := strip_of (fst <$> get_amount_line extracted_text_lines line_index) in
      let? amount := pdf_amount_to_float amount_line in
      Ok [ ("statement_account", statement_account); ("year", year);
           ("account_from", account_from); ("amount", VFloat amount);
           ("date_booked", VStr date); ("account_to", account_to) ]) in
    let! r := new InterestPositive kw in
    ret (Some r)
  else if is_str bank "csob" then
    let! kw := lift (
      let? line := getitem extracted_text_lines i in
      let? date := match text_contains_date line with
                   | Some d => Ok d
                   | None => let? prev := getitem extracted_text_lines (i - 1) in
                             str_add (strip prev) year
                   end in
      let account_to := account_from in
      let? amount_line := getitem extracted_text_lines (i + 2) in
      let? amount := pdf_amount_to_float (strip amount_line) in
      Ok [ ("statement_account", statement_account); ("year", year);
           ("account_from", account_from); ("amount", VFloat amount);
           ("date_booked", VStr date); ("account_to", account_to) ]) in
    let! r := new InterestPositive kw in
    ret (Some r)
  else ret None.

End InterestPositive.

Module TaxInterest.

Definition text_identifiers : list (pystr * list pystr) :=
  [ (u "cs", [u "Daň z úroku"]); (u "csob", [u "PLACEHOLDER"]) ].

Definition create (bank year statement_account account_from : value)
    (line_index : nat) (extracted_text_lines : list pystr) : M (option ref) :=
  let i := Z.of_nat line_index in
  if is_str bank "cs" then
    let! kw := lift (
      let? line := getitem extracted_text_lines i in
      let? date := match text_contains_date line with
                   | Some d => Ok d
                   | None => let? prev := getitem extracted_text_lines (i - 1) in
                             Ok (strip prev)
                   end in
      let? amount_line := strip_of (fst <$> get_amount_line extracted_text_lines line_index) in
      let? amount := pdf_amount_to_float amount_line in
      Ok [ ("statement_account", statement_account); ("year", year);
           ("account_from", account_from); ("amount", VFloat amount);
           ("date_booked", VStr date) ]) in
    let! r := new TaxInterest kw in
    ret (Some r)
  else ret None.

End TaxInterest.

Module ElectronicBankingTransfer.

Definition text_identifiers : list (pystr * list pystr) :=
  [ (u "cs", [u "PLACEHOLDER"]); (u "csob", [u "Bezhotovostní převod EB"]) ].

Definition create (bank year statement_account : value)
    (line_index : nat) (extracted_text_lines : list pystr) : M (option ref) :=
  let i := Z.of_nat line_index in
  if is_str bank "cs" then ret None
  else if is_str bank "csob" then
    let! kw := lift (
      let? line := getitem extracted_text_lines i in
      let? date := match text_contains_date line with
                   | Some d => Ok d
                   | None => let? prev := getitem extracted_text_lines (i - 1) in
                             str_add (strip prev) year
                   end in
      let found := get_account_nr_line extracted_text_lines line_index in
      let counter_party_account := str_or_none (fst <$> found) in
      let? j := add_index line_index (snd <$> found) (- 2) in
      let? amount_line := getitem extracted_text_lines j in
      let? amount := pdf_amount_to_float (strip amount_line) in
      let '(account_from, account_to) :=
        if flt amount (float_of_Z 0)
        then (statement_account, counter_party_account)
        else (counter_party_account, statement_account) in
      Ok [ ("statement_account", statement_account); ("year", year);
           ("account_from", account_from); ("amount", VFloat amount);
           ("date_booked", VStr date); ("account_to", account_to) ]) in
    let! r := new ElectronicBankingTransfer kw in
    ret (Some r)
  else ret None.

End ElectronicBankingTransfer.

Module DirectDebit.

Definition text_identifiers : list (pystr * list pystr) :=
  [ (u "cs", [u "Inkaso"]); (u "csob", [u "Inkaso"]) ].

Definition create (bank year statement_account account_from : value)
    (line_index : nat) (extracted_text_lines : list pystr) : M (option ref) :=
  let i := Z.of_nat line_index in
  if is_str bank "cs" then
    let! kw := lift (
      let? line := getitem extracted_text_lines i in
      let? date := match text_contains_date line with
                   | Some d => Ok d
                   | None => let? prev := getitem extracted_text_lines (i - 1) in
                             Ok (strip prev)
                   end in
      let found := get_account_nr_line extracted_text_lines line_index in
      let account_to := fst <$> found in
      let? amount_line := strip_of (fst <$> get_amount_line extracted_text_lines line_index) in
      let? amount := pdf_amount_to_float amount_line in
      Ok [ ("statement_account", statement_account); ("year", year);
           ("account_from", account_from); ("amount", VFloat amount);
           ("date_booked", VStr date); ("account_to", str_or_none account_to) ]) in
    let! r := new DirectDebit kw in
    ret (Some r)
  else if is_str bank "csob" then
    let! kw := lift (
      let? line := getitem extracted_text_lines i in
      let? date := match text_contains_date line with
                   | Some d => Ok d
                   | None => let? prev := getitem extracted_text_lines (i - 1) in
                             str_add (strip prev) year
                   end in
      let found := get_account_nr_line extracted_text_lines line_index in
      let account_to := fst <$> found in
      let? j := add_index line_index (snd <$> found) (- 2) in
      let? amount_line := getitem extracted_text_lines j in
      let? amount := pdf_amount_to_float (strip amount_line) in
      Ok [ ("statement_account", statement_account); ("year", year);
           ("account_from", account_from); ("amount", VFloat amount);
           ("date_booked", VStr date); ("account_to", str_or_none account_to) ]) in
    let! r := new DirectDebit kw in
    ret (Some r)
  else ret None.

End DirectDebit.

(** ** The class methods of [Transaction] *)

Fixpoint mapM {A B} (f : A -> result B) (l : list A) : result (list B) :=
  match l with
  | [] => Ok []
  | x :: l' =>
    let? y := f x in
    let? ys := mapM f l' in
    Ok (y :: ys)
  end.

Fixpoint forM {A} (l : list A) (f : A -> M unit) : M unit :=
  match l with
  | [] => ret tt
  | x :: l' => let! _ := f x in forM l' f
  end.

(** [list.sort]: the stable arrangement in ascending order, compared
    with [<] only; an element goes before the first one it is not
    greater than. *)
Fixpoint insert_sorted {A} (lt : A -> A -> bool) (x : A) (l : list A) : list A :=
  match l with
  | [] => [x]
  | y :: l' => if lt y x then y :: insert_sorted lt x l' else x :: l
  end.

Fixpoint stable_sort {A} (lt : A -> A -> bool) (l : list A) : list A :=
  match l with
  | [] => []
  | x :: l' => insert_sorted lt x (stable_sort lt l')
  end.

(** [d.pop(k)] *)
Fixpoint remove_kw (k : string) (kw : kwargs) : kwargs :=
  match kw with
  | [] => []
  | (k', v) :: kw' => if String.eqb k' k then kw' else (k', v) :: remove_kw k kw'
  end.

Definition pop_kw (k : string) (kw : kwargs) : result (value * kwargs) :=
  match lookup_kw k kw with
  | Some v => Ok (v, remove_kw k kw)
  | None => Raise KeyError
  end.

(** [str(n)] for an integer. *)
Fixpoint digits_of_pos (fuel : nat) (n : Z) (acc : pystr) : pystr :=
  match fuel with
  | O => acc
  | S fuel' =>
    if n <? 10 then digit_chr n :: acc
    else digits_of_pos fuel' (n / 10) (digit_chr n :: acc)
  end.

Definition str_of_Z (n : Z) : pystr :=
  if n <? 0 then chr "-" :: digits_of_pos (Z.to_nat (Z.log2 (- n)) + 1) (- n) []
  else digits_of_pos (Z.to_nat (Z.log2 n) + 1) n [].

Module Transaction.

(** The sort key of [sort_transactions].  The id of an instance is an
    integer from [__post_init__] on. *)
Definition get_sort_key (tx : object) : result (datetime * Z) :=
  let? date_booked := getattr tx "date_booked" in
  let? d := match date_booked with
            | VStr s => strptime_dmY s
            | _ => Raise TypeError
            end in
  let? transaction_id := getattr tx "transaction_id" in
  match transaction_id with
  | VInt n => Ok (d, n)
  | _ => Raise TypeError
  end.

(** The order of the keys: tuples compare lexicographically. *)
Definition key_lt (a b : datetime * Z) : bool :=
  match datetime_compare (fst a) (fst b) with
  | Lt => true
  | Eq => snd a <? snd b
  | Gt => false
  end.

Definition sort_transactions : M unit :=
  fun w =>
    let? keyed := mapM (fun r => match heap w !! r with
                                 | Some tx => let? k := get_sort_key tx in Ok (k, r)
                                 | None => Raise IndexError
                                 end) (all w Transaction) in
    let sorted := snd <$> stable_sort (fun a b => key_lt (fst a) (fst b)) keyed in
    Ok (tt, set_all (fun c => if bool_decide (c = Transaction) then sorted else all w c) w).

(** One record of the JSON document: the class name under ["type"],
    then the fields. *)
Definition json_record (t : object) : kwargs :=
  fold_left (fun d '(k, v) => update_kw k v d) (asdict t)
            [("type", VStr (class_name (cls t)))].

Definition save_transactions_json : M unit :=
  let! _ := sort_transactions in
  let! registry := (fun w => Ok (all w Transaction, w)) in
  let! _ := forM (enumerate registry) (fun '(i, r) =>
              let! transaction := deref r in
              store r (setattr transaction "transaction_id" (VInt (Z.of_nat i + 1)))) in
  fun w =>
    let? transactions_data := mapM (fun r => match heap w !! r with
                                             | Some t => Ok (json_record t)
                                             | None => Raise IndexError
                                             end) (all w Transaction) in
    Ok (tt, set_transactions_json (Some transactions_data) w).

(** The dispatch of [load_transactions_json] on the popped type. *)
Definition load_one (transaction : kwargs) : M unit :=
  let! '(transaction_type, transaction) := lift (pop_kw "type" transaction) in
  if is_str transaction_type "IncomingPayment" then
    let! _ := new IncomingPayment transaction in ret tt
  else if is_str transaction_type "OutgoingPayment" then
    let! _ := new OutgoingPayment transaction in ret tt
  else if is_str transaction_type "OutgoingPaymentPeriodic" then
    let! _ := new OutgoingPaymentPeriodic transaction in ret tt
  else if is_str transaction_type "CardPaymentDebit" then
    let! _ := new CardPaymentDebit transaction in ret tt
  else if is_str transaction_type "CardPaymentIncoming" then
    let! _ := new CardPaymentIncoming transaction in ret tt
  else if is_str transaction_type "CardAtmCashOut" then
    let! _ := new CardAtmCashOut transaction in ret tt
  else if is_str transaction_type "BankPayedService" then
    let! _ := new BankPayedService transaction in ret tt
  else if is_str transaction_type "InterestPositive" then
    let! _ := new InterestPositive transaction in ret tt
  else if is_str transaction_type "TaxInterest" then
    let! _ := new TaxInterest transaction in ret tt
  else if is_str transaction_type "IncomingElectronicBankingTransfer" then
    let! _ := new ElectronicBankingTransfer transaction in ret tt
  else if is_str transaction_type "DirectDebit" then
    let! _ := new DirectDebit transaction in ret tt
  else ret tt.

(** A missing file raises [FileNotFoundError], which is caught. *)
Definition load_transactions_json : M unit :=
  fun w =>
    match transactions_json w with
    | None => Ok (tt, w)
    | Some transactions_data => forM transactions_data load_one w
    end.

Section to_csv.

(** [str(x)] of a float, the shortest decimal literal that reads back as
    [x]: a function of the runtime the export applies to the amounts. *)
Variable str_of_float : float -> pystr.

Definition str_of (v : value) : pystr :=
  match v with
  | VNone => u "None"
  | VBool true => u "True"
  | VBool false => u "False"
  | VInt n => str_of_Z n
  | VFloat x => str_of_float x
  | VStr s => s
  end.

Definition headers : list cell :=
  CellValue <$> (VStr <$>
    [ u "Transaction ID"; u "Transaction account"; u "Date Booked"; u "Type";
      u "Account From"; u "Account To"; u "Amount"; u "Currency"; u "Category";
      u "Description"; u "Transaction  data" ]).

Definition csv_row (tx : object) : result (list cell) :=
  let? service_type_clean :=
    if isinstance tx BankPayedService
    then let? service_type := getattr tx "service_type" in
         match service_type with
         | VStr s => Ok (replace nl (u "") s)
         | _ => Raise AttributeError
         end
    else Ok (u "") in
  let tx_type := match service_type_clean with
                 | [] => u ""
                 | _ :: _ => u " - " ++ service_type_clean
                 end in
  let? transaction_id := getattr tx "transaction_id" in
  let? statement_account := getattr tx "statement_account" in
  let? date_booked := getattr tx "date_booked" in
  let? date := match date_booked with
               | VStr s => strptime_dmY s
               | _ => Raise TypeError
               end in
  let? account_from := getattr tx "account_from" in
  let? account_to := getattr tx "account_to" in
  let? amount := getattr tx "amount" in
  let? currency := getattr tx "currency" in
  let? user_category := getattr tx "user_category" in
  let? user_description := getattr tx "user_description" in
  let? all_transaction_lines_text := getattr tx "all_transaction_lines_text" in
  Ok [ CellValue transaction_id;
       CellValue statement_account;
       CellDate date;
       CellValue (VStr (class_name (cls tx) ++ tx_type));
       CellValue account_from;
       CellValue account_to;
       CellValue (VStr (replace (u ".") (u ",") (str_of amount)));
       CellValue currency;
       CellValue user_category;
       CellValue user_description;
       CellValue all_transaction_lines_text ].

Definition transactions_to_csv : M unit :=
  fun w =>
    let? rows := mapM (fun r => match heap w !! r with
                                | Some tx => csv_row tx
                                | None => Raise IndexError
                                end) (all w Transaction) in
    Ok (tt, set_transactions_csv (Some (headers :: rows)) w).

End to_csv.

End Transaction.

(** * src/account_statement.py *)

(** A row of [csv.DictReader]: column name to text. *)
Definition csv_row := list (string * pystr).

Fixpoint row_get (k : string) (row : csv_row) : option pystr :=
  match row with
  | [] => None
  | (k', v) :: row' => if String.eqb k' k then Some v else row_get k row'
  end.

(** An instance of [StatementAccount]. *)
Record StatementAccount := mk_StatementAccount {
  file_path : pystr;
  bank_name : option pystr;
  account_number : option pystr;
  year : option pystr;
  start_balance : option float;
  end_balance : option float;
  pages_content_pdf : list (list pystr);
  csv_content : list csv_row;
  all_transactions : list ref }.

Module StatementAccount.

Definition set_all_transactions (l : list ref) (self : StatementAccount) : StatementAccount :=
  mk_StatementAccount (file_path self) (bank_name self) (account_number self) (year self)
    (start_balance self) (end_balance self) (pages_content_pdf self) (csv_content self) l.

(** [any(identifier in line for identifier in C.text_identifiers.get(self.bank_name))] *)
Definition any_identifier_in (text_identifiers : list (pystr * list pystr))
    (bank_name : value) (line : pystr) : result bool :=
  match identifiers_get text_identifiers bank_name with
  | Some identifiers => Ok (existsb (fun identifier => str_in identifier line) identifiers)
  | None => Raise TypeError
  end.

(** [self.all_transactions.append(tx); tx.parent_statement = self.file_path],
    where [tx] is what a [create] returned. *)
Definition append_created (self : StatementAccount) (tx : option ref) : M StatementAccount :=
  match tx with
  | None => raise AttributeError
  | Some r =>
    let! o := deref r in
    let! _ := store r (setattr o "parent_statement" (VStr (file_path self))) in
    ret (set_all_transactions (all_transactions self ++ [r]) self)
  end.

(** The body of the inner loop of [get_transactions_pdf]: one line of a
    page, with the flag [is_transaction_lines_active]. *)
Definition process_line (page : list pystr) (i : nat) (line : pystr)
    (st : StatementAccount * bool) : M (StatementAccount * bool) :=
  let '(self, is_transaction_lines_active) := st in
  let bank := str_or_none (bank_name self) in
  let year := str_or_none (year self) in
  let account := str_or_none (account_number self) in
  let! hit := lift (any_identifier_in CardPaymentIncoming.text_identifiers bank line) in
  if hit then
    let! tx := CardPaymentIncoming.create bank year account account i page in
    let! self := append_created self tx in ret (self, true)
  else
  let! hit := lift (any_identifier_in IncomingPayment.text_identifiers bank line) in
  if hit then
    let! tx := IncomingPayment.create bank year account account i page in
    let! self := append_created self tx in ret (self, true)
  else
  let! hit := lift (any_identifier_in OutgoingPayment.text_identifiers bank line) in
  if hit then
    let! tx := OutgoingPayment.create bank year account account i page in
    let! self := append_created self tx in ret (self, true)
  else
  let! hit := lift (any_identifier_in CardPaymentDebit.text_identifiers bank line) in
  if hit then
    let! tx := CardPaymentDebit.create bank year account account i page in
    let! self := append_created self tx in ret (self, true)
  else
  let! hit := lift (any_identifier_in CardAtmCashOut.text_identifiers bank line) in
  if hit then
    let! tx := CardAtmCashOut.create bank year account account i page in
    let! self := append_created self tx in ret (self, true)
  else
  let! hit := lift (any_identifier_in BankPayedService.text_identifiers bank line) in
  if hit then
    let! tx := BankPayedService.create bank year account account i page in
    let! self := append_created self tx in ret (self, true)
  else
  let! hit := lift (any_identifier_in OutgoingPaymentPeriodic.text_identifiers bank line) in
  if hit then
    let! tx := OutgoingPaymentPeriodic.create bank year account account i page in
    let! self := append_created self tx in ret (self, true)
  else
  let! hit := lift (any_identifier_in InterestPositive.text_identifiers bank line) in
  if hit then
    let! tx := InterestPositive.create bank year account account i page in
    let! self := append_created self tx in ret (self, true)
  else
  let! hit := lift (any_identifier_in TaxInterest.text_identifiers bank line) in
  if hit then
    let! tx := TaxInterest.create bank year account account i page in
    let! self := append_created self tx in ret (self, true)
  else
  let! hit := lift (any_identifier_in ElectronicBankingTransfer.text_identifiers bank line) in
  if hit then
    let! tx := ElectronicBankingTransfer.create bank year account i page in
    let! self := append_created self tx in ret (self, true)
  else
  let! hit := lift (any_identifier_in DirectDebit.text_identifiers bank line) in
  if hit then
    let! tx := DirectDebit.create bank year account account i page in
    let! self := append_created self tx in ret (self, true)
  else
  let! hit := lift (any_identifier_in CardAtmDeposit.text_identifiers bank line) in
  if hit then
    let! tx := CardAtmDeposit.create bank year account account i page in
    let! self := append_created self tx in ret (self, true)
  else if existsb (str_eqb line) TransactionConstants.TRANSACTION_END_SECTION then
    ret (self, false)
  else if is_transaction_lines_active && negb (str_eqb line (u "")) then
    let! r := lift (getitem (all_transactions self) (- 1)) in
    let! o := deref r in
    let! text := lift (getattr o "all_transaction_lines_text") in
    let! text := lift (match text with
                       | VStr t => Ok (t ++ strip line ++ nl)
                       | _ => Raise TypeError
                       end) in
    let! _ := store r (setattr o "all_transaction_lines_text" (VStr text)) in
    ret (self, is_transaction_lines_active)
  else ret (self, is_transaction_lines_active).

Fixpoint lines_loop (page : list pystr) (lines : list (nat * pystr))
    (st : StatementAccount * bool) : M (StatementAccount * bool) :=
  match lines with
  | [] => ret st
  | (i, line) :: rest =>
    let! st := process_line page i line st in
    lines_loop page rest st
  end.

Fixpoint pages_loop (pages : list (list pystr)) (st : StatementAccount * bool)
  : M (StatementAccount * bool) :=
  match pages with
  | [] => ret st
  | page :: rest =>
    let! st := lines_loop page (enumerate page) st in
    pages_loop rest st
  end.

Definition get_transactions_pdf (self : StatementAccount) : M StatementAccount :=
  let is_transaction_lines_active := false in
  let! '(self, _) := pages_loop (pages_content_pdf self) (self, is_transaction_lines_active) in
  ret self.

Definition is_transaction_valid (state : option pystr) : result bool :=
  match state with
  | Some s => Ok (str_eqb (lower s) (u "completed"))
  | None => Raise AttributeError
  end.

Definition revolut_rules : list (Class * (list pystr * bool)) :=
  [ (OutgoingPayment, ([u "transfer"; u "exchange"], true));
    (IncomingPayment, ([u "transfer"; u "exchange"; u "topup"], false));
    (CardPaymentDebit, ([u "card_payment"], true));
    (CardPaymentIncoming, ([u "card_payment"], false));
    (BankPayedService, ([u "fee"], true));
    (CardAtmCashOut, ([u "atm"], true)) ].

(** The text of a date column, or the marker of a missing one. *)
Definition date_or_missing (v : option pystr) : result pystr :=
  match v with
  | None | Some [] => Ok (u "ERROR - MISSING DATE")
  | Some s => get_date_from_string s
  end.

(** [float(v)] where [v] is a string or [None]. *)
Definition float_of (v : option pystr) : result float :=
  match v with
  | Some s => float_of_str s
  | None => Raise TypeError
  end.

(** One turn of the loop over [revolut_rules.items()], for a valid row:
    the rule [key] with its types and sign. *)
Definition apply_rule (key : Class) (types : list pystr) (negative : bool)
    (tx_type description currency : option pystr) (date_started date_completed : pystr)
    (amount fee : float) (self : StatementAccount) : M StatementAccount :=
  let! t := lift (match tx_type with
                  | Some s => Ok (lower s)
                  | None => Raise AttributeError
                  end) in
  if existsb (str_eqb t) types then
    if Bool.eqb negative (flt amount (float_of_Z 0)) then
      let! tx :=
        match key with
        | OutgoingPayment =>
          new OutgoingPayment
            [ ("statement_account", str_or_none (account_number self));
              ("parent_statement", VStr (file_path self));
              ("account_from", str_or_none (account_number self));
              ("year", str_or_none (year self));
              ("amount", VFloat amount);
              ("date_booked", VStr date_completed);
              ("currency", str_or_none currency);
              ("all_transaction_lines_text", str_or_none description) ]
        | IncomingPayment =>
          new IncomingPayment
            [ ("statement_account", str_or_none (account_number self));
              ("parent_statement", VStr (file_path self));
              ("account_to", str_or_none (account_number self));
              ("year", str_or_none (year self));
              ("amount", VFloat amount);
              ("date_booked", VStr date_completed);
              ("currency", str_or_none currency);
              ("all_transaction_lines_text", str_or_none description) ]
        | CardPaymentDebit =>
          new CardPaymentDebit
            [ ("statement_account", str_or_none (account_number self));
              ("parent_statement", VStr (file_path self));
              ("account_from", str_or_none (account_number self));
              ("year", str_or_none (year self));
              ("amount", VFloat amount);
              ("card_identifier", VStr (u "9448"));
              ("payment_date", VStr date_started);
              ("date_booked", VStr date_completed);
              ("currency", str_or_none currency);
              ("all_transaction_lines_text", str_or_none description) ]
        | CardPaymentIncoming =>
          new CardPaymentIncoming
            [ ("statement_account", str_or_none (account_number self));
              ("parent_statement", VStr (file_path self));
              ("account_to", str_or_none (account_number self));
              ("year", str_or_none (year self));
              ("amount", VFloat amount);
              ("date_booked", VStr date_completed);
              ("currency", str_or_none currency);
              ("all_transaction_lines_text", str_or_none description) ]
        | BankPayedService =>
          new BankPayedService
            [ ("statement_account", str_or_none (account_number self));
              ("parent_statement", VStr (file_path self));
              ("account_from", str_or_none (account_number self));
              ("year", str_or_none (year self));
              ("amount", VFloat amount);
              ("date_booked", VStr date_completed);
              ("currency", str_or_none currency);
              ("all_transaction_lines_text", str_or_none description);
              ("service_type", VStr (u "")) ]
        | CardAtmCashOut =>
          new CardAtmCashOut
            [ ("statement_account", str_or_none (account_number self));
              ("parent_statement", VStr (file_path self));
              ("account_from", str_or_none (account_number self));
              ("year", str_or_none (year self));
              ("amount", VFloat amount);
              ("date_booked", VStr date_completed);
              ("currency", str_or_none currency);
              ("all_transaction_lines_text", str_or_none description) ]
        | _ => raise NameError
        end in
      let self := set_all_transactions (all_transactions self ++ [tx]) self in
      if flt (float_of_Z 0) fee then
        let! tx_fee :=
          new BankPayedService
            [ ("statement_account", str_or_none (account_number self));
              ("parent_statement", VStr (file_path self));
              ("account_from", str_or_none (account_number self));
              ("year", str_or_none (year self));
              ("amount", VFloat (fmul fee (float_of_Z (- 1))));
              ("date_booked", VStr date_completed);
              ("currency", str_or_none currency);
              ("all_transaction_lines_text", str_or_none description);
              ("service_type", VStr (u "transaction fee")) ] in
        ret (set_all_transactions (all_transactions self ++ [tx_fee]) self)
      else ret self
    else ret self
  else ret self.

Fixpoint rules_loop (rules : list (Class * (list pystr * bool)))
    (tx_type description currency : option pystr) (date_started date_completed : pystr)
    (amount fee : float) (self : StatementAccount) : M StatementAccount :=
  match rules with
  | [] => ret self
  | (key, (types, negative)) :: rest =>
    let! self := apply_rule key types negative tx_type description currency
                   date_started date_completed amount fee self in
    rules_loop rest tx_type description currency date_started date_completed amount fee self
  end.

(** The body of the loop of [get_transactions_csv]: one row. *)
Definition process_row (row : csv_row) (self : StatementAccount) : M StatementAccount :=
  let tx_type := row_get "Type" row in
  let! date_started := lift (date_or_missing (row_get "Started Date" row)) in
  let! date_completed := lift (date_or_missing (row_get "Completed Date" row)) in
  let description := row_get "Description" row in
  let! amount := lift (float_of (row_get "Amount" row)) in
  let! fee := lift (float_of (row_get "Fee" row)) in
  let currency := row_get "Currency" row in
  let state := row_get "State" row in
  let! valid := lift (is_transaction_valid state) in
  if negb valid then ret self
  else rules_loop revolut_rules tx_type description currency date_started date_completed
         amount fee self.

Fixpoint rows_loop (rows : list csv_row) (self : StatementAccount) : M StatementAccount :=
  match rows with
  | [] => ret self
  | row :: rest =>
    let! self := process_row row self in
    rows_loop rest self
  end.

Definition get_transactions_csv (self : StatementAccount) : M StatementAccount :=
  rows_loop (csv_content self) self.

End StatementAccount.

(** ** The initialisation of a statement from the rows of a csv file *)

Module StatementAccountCsv.

(** [os.path.splitext(path)[0]]: the text before the last dot of the
    last component, leading dots of the component apart. *)
Fixpoint last_dot (seen_other : bool) (pos : nat) (s : pystr) (found : option nat)
  : option nat :=
  match s with
  | [] => found
  | c :: s' =>
    if (c =? chr "/")%N then last_dot false (S pos) s' None
    else if (c =? chr ".")%N
    then last_dot seen_other (S pos) s' (if seen_other then Some pos else found)
    else last_dot true (S pos) s' found
  end.

Definition splitext_base (path : pystr) : pystr :=
  match last_dot false 0 path None with
  | Some k => take k path
  | None => path
  end.

(** The currencies are tried in the order CZK, USD, EUR; the source
    iterates a set, whose order is not fixed when a path holds more
    than one of them. *)
Definition get_account_nr_csv (self : StatementAccount) : pystr :=
  let revolut_account_nr := u "LT443250037740989361" in
  let upper := List.map (fun c => if ((97 <=? c) && (c <=? 122))%N then (c - 32)%N else c)
                        (file_path self) in
  match List.find (fun c => str_in c upper) [u "CZK"; u "USD"; u "EUR"] with
  | Some c => revolut_account_nr ++ c
  | None => u ""
  end.

Definition get_account_start_balance_csv (self : StatementAccount) : result (option float) :=
  match csv_content self with
  | [] => Ok (start_balance self)
  | first_line :: _ =>
    let? balance_after_1st_line := StatementAccount.float_of (row_get "Balance" first_line) in
    let? amount_1st_line := StatementAccount.float_of (row_get "Amount" first_line) in
    Ok (Some (fsub balance_after_1st_line amount_1st_line))
  end.

Definition get_account_end_balance_csv (self : StatementAccount) : result (option float) :=
  match last (csv_content self) with
  | None => Ok (end_balance self)
  | Some last_line =>
    let? b := StatementAccount.float_of (row_get "Balance" last_line) in
    Ok (Some b)
  end.

Definition get_statement_year_csv (self : StatementAccount) : pystr :=
  u "20" ++ last_chars 2 (splitext_base (file_path self)).

Definition set_bank_name (v : option pystr) (self : StatementAccount) : StatementAccount :=
  mk_StatementAccount (file_path self) v (account_number self) (year self)
    (start_balance self) (end_balance self) (pages_content_pdf self) (csv_content self)
    (all_transactions self).
Definition set_account_number (v : option pystr) (self : StatementAccount) : StatementAccount :=
  mk_StatementAccount (file_path self) (bank_name self) v (year self)
    (start_balance self) (end_balance self) (pages_content_pdf self) (csv_content self)
    (all_transactions self).
Definition set_year (v : option pystr) (self : StatementAccount) : StatementAccount :=
  mk_StatementAccount (file_path self) (bank_name self) (account_number self) v
    (start_balance self) (end_balance self) (pages_content_pdf self) (csv_content self)
    (all_transactions self).
Definition set_start_balance (v : option float) (self : StatementAccount) : StatementAccount :=
  mk_StatementAccount (file_path self) (bank_name self) (account_number self) (year self)
    v (end_balance self) (pages_content_pdf self) (csv_content self) (all_transactions self).
Definition set_end_balance (v : option float) (self : StatementAccount) : StatementAccount :=
  mk_StatementAccount (file_path self) (bank_name self) (account_number self) (year self)
    (start_balance self) v (pages_content_pdf self) (csv_content self) (all_transactions self).

(** [StatementAccount(file_path)] for a csv file whose rows are
    [rows]: [__post_init__] with [initialize_from_csv], up to the
    registration in [StatementAccount.all], which the caller does. *)
Definition initialize_from_csv (file_path : pystr) (rows : list csv_row)
  : M StatementAccount :=
  let self := mk_StatementAccount file_path None None None None None [] rows [] in
  let self := set_bank_name (Some (u "revolut")) self in
  let self := set_account_number (Some (get_account_nr_csv self)) self in
  let! b := lift (get_account_start_balance_csv self) in
  let self := set_start_balance b self in
  let! e := lift (get_account_end_balance_csv self) in
  let self := set_end_balance e self in
  let self := set_year (Some (get_statement_year_csv self)) self in
  StatementAccount.get_transactions_csv self.

End StatementAccountCsv.

(** * main.py *)

Module main.

(** What the run prints. *)
Inductive output :=
| Printed (text : pystr)
| Warning (missing : float).

(** The state of a run: the classes of [transactions.py], the list
    [StatementAccount.all] and the standard output. *)
Record Program := mk_Program {
  world : World;
  StatementAccount_all : list StatementAccount;
  stdout : list output }.

(** [t.amount] as an operand of float arithmetic. *)
Definition number (v : value) : result float :=
  match v with
  | VFloat x => Ok x
  | VInt n => Ok (float_of_Z n)
  | VBool b => Ok (float_of_Z (if b then 1 else 0))
  | _ => Raise TypeError
  end.

(** [[t.amount for t in s.all_transactions]] *)
Definition amounts (w : World) (s : StatementAccount) : result (list float) :=
  mapM (fun r => match heap w !! r with
                 | Some t => let? a := getattr t "amount" in number a
                 | None => Raise IndexError
                 end) (all_transactions s).

(** [end - start] where each is a float or [None]. *)
Definition balance_delta (s : StatementAccount) : result float :=
  match end_balance s, start_balance s with
  | Some e, Some b => Ok (fsub e b)
  | _, _ => Raise TypeError
  end.

(** The body of the loop of [validate_all_transactions_extracted]. *)
Definition validate_one (w : World) (s : StatementAccount) (out : list output)
  : result (list output) :=
  let out := out ++ [Printed (file_path s)] in
  let? delta := balance_delta s in
  let? xs := amounts w s in
  if fne (round2 delta) (round2 (sum xs)) then
    let? delta' := balance_delta s in
    let? xs' := amounts w s in
    Ok (out ++ [Warning (round2 (fsub delta' (sum xs')))])
  else Ok out.

Fixpoint validate_loop (w : World) (l : list StatementAccount) (out : list output)
  : result (list output) :=
  match l with
  | [] => Ok out
  | s :: rest =>
    let? out := validate_one w s out in
    validate_loop w rest out
  end.

Definition validate_all_transactions_extracted (p : Program) : result Program :=
  let? out := validate_loop (world p) (StatementAccount_all p) (stdout p) in
  Ok (mk_Program (world p) (StatementAccount_all p) out).

(** [load_csvs] on the rows of the discovered csv files: every
    statement is built and appended to [StatementAccount.all]. *)
Fixpoint load_csvs (files : list (pystr * list csv_row)) (p : Program) : result Program :=
  match files with
  | [] => Ok p
  | (path, rows) :: rest =>
    let? '(s, w) := StatementAccountCsv.initialize_from_csv path rows (world p) in
    load_csvs rest (mk_Program w (StatementAccount_all p ++ [s]) (stdout p))
  end.

End main.

(** * The vocabulary of the specification *)

(** The order in which [get_transactions_pdf] tests the classes. *)
Definition precedence : list Class :=
  [ CardPaymentIncoming; IncomingPayment; OutgoingPayment; CardPaymentDebit;
    CardAtmCashOut; BankPayedService; OutgoingPaymentPeriodic; InterestPositive;
    TaxInterest; ElectronicBankingTransfer; DirectDebit; CardAtmDeposit ].

Definition text_identifiers_of (c : Class) : list (pystr * list pystr) :=
  match c with
  | Transaction => []
  | IncomingPayment => IncomingPayment.text_identifiers
  | OutgoingPayment => OutgoingPayment.text_identifiers
  | OutgoingPaymentPeriodic => OutgoingPaymentPeriodic.text_identifiers
  | CardPaymentDebit => CardPaymentDebit.text_identifiers
  | CardPaymentIncoming => CardPaymentIncoming.text_identifiers
  | CardAtmCashOut => CardAtmCashOut.text_identifiers
  | CardAtmDeposit => CardAtmDeposit.text_identifiers
  | BankPayedService => BankPayedService.text_identifiers
  | InterestPositive => InterestPositive.text_identifiers
  | TaxInterest => TaxInterest.text_identifiers
  | ElectronicBankingTransfer => ElectronicBankingTransfer.text_identifiers
  | DirectDebit => DirectDebit.text_identifiers
  end.

(** A marker of class [c] for the bank occurs in the line. *)
Definition marker_in (c : Class) (bank : value) (line : pystr) : bool :=
  match identifiers_get (text_identifiers_of c) bank with
  | Some identifiers => existsb (fun identifier => str_in identifier line) identifiers
  | None => false
  end.

(** The extraction rule of class [c], called as [get_transactions_pdf]
    calls it: the account number of the statement is passed for the
    account argument. *)
Definition create_rule (c : Class) (bank year account : value) (line_index : nat)
    (page : list pystr) : M (option ref) :=
  match c with
  | Transaction => ret None
  | IncomingPayment => IncomingPayment.create bank year account account line_index page
  | OutgoingPayment => OutgoingPayment.create bank year account account line_index page
  | OutgoingPaymentPeriodic =>
    OutgoingPaymentPeriodic.create bank year account account line_index page
  | CardPaymentDebit => CardPaymentDebit.create bank year account account line_index page
  | CardPaymentIncoming => CardPaymentIncoming.create bank year account account line_index page
  | CardAtmCashOut => CardAtmCashOut.create bank year account account line_index page
  | CardAtmDeposit => CardAtmDeposit.create bank year account account line_index page
  | BankPayedService => BankPayedService.create bank year account account line_index page
  | InterestPositive => InterestPositive.create bank year account account line_index page
  | TaxInterest => TaxInterest.create bank year account account line_index page
  | ElectronicBankingTransfer =>
    ElectronicBankingTransfer.create bank year account line_index page
  | DirectDebit => DirectDebit.create bank year account account line_index page
  end.

(** The line of the page at offset [k] from line [i], when there is one. *)
Definition line_at (page : list pystr) (i : nat) (k : nat) : pystr :=
  default [] (page !! (i + k)%nat).

(** The fixed positional offsets from the marker line that the rule of
    class [c] reads for the bank.  Two rules shift their offsets by one
    when line [i + 1] holds a given text, and the cs rule for bank
    services reads line [i + 2] only under a service type that has
    subtypes. *)
Definition fixed_offsets (c : Class) (bank : value) (i : nat) (page : list pystr)
  : list nat :=
  if is_str bank "cs" then
    match c with
    | IncomingPayment => [1]%nat
    | OutgoingPayment =>
      [1; if str_in (u "okamžitá") (line_at page i 1) then 2 else 1]%nat
    | CardPaymentDebit => [1; 3; 4; 5; 6]%nat
    | CardPaymentIncoming => [1; 4; 5; 6; 7]%nat
    | CardAtmCashOut =>
      if str_in (u "jiné banky v ČR") (line_at page i 1)
      then [1; 2; 4; 5; 6; 7]%nat else [1; 3; 4; 5; 6]%nat
    | CardAtmDeposit => [1; 3]%nat
    | BankPayedService =>
      if str_in (u "Cena za výběr hotovosti z bankomatu") (line_at page i 1) then [1; 2]%nat
      else if str_in (u "Cena za vedení účtu") (line_at page i 1) then [1]%nat
      else if str_in (u "Poplatek") (line_at page i 1) then [1; 2]%nat
      else [1]%nat
    | _ => []
    end
  else if is_str bank "csob" then
    match c with
    | CardPaymentDebit => [4; 5; 6; 8; 7; 9]%nat
    | CardPaymentIncoming => [2; 4; 5; 6; 8; 7; 9]%nat
    | InterestPositive => [2]%nat
    | _ => []
    end
  else [].

(** The store is well formed for a list of references: each one denotes
    an object. *)
Definition refs_valid (w : World) (l : list ref) : Prop :=
  Forall (fun r => is_Some (heap w !! r)) l.

(** ** The constructor, step by step *)

(** The value [__init__] gives a field. *)
Definition initial_value (f : field) (kw : kwargs) : value :=
  match (if f_init f then lookup_kw (f_name f) kw else None), f_default f with
  | Some v, _ => v
  | None, Some d => d
  | None, None => VNone
  end.

(** The id the next instance receives. *)
Definition fresh_id (w : World) : Z := default 1 (generator_id w).

(** The world after an instance [o] has been registered. *)
Definition registered (o : object) (w : World) : World :=
  set_all (fun c => if isinstance o c then all w c ++ [length (heap w)] else all w c)
    (set_heap (heap w ++ [o]) (set_generator_id (Some (fresh_id w + 1)) w)).

(** The fields of a new instance of [c], from the fields [a] that
    [__init__] has bound. *)
Definition finished (c : Class) (a : kwargs) (n : Z) : result object :=
  let? o := if issubclass c CardPaymentDebit
            then let? owner := get_card_owner (mk_object c a) in
                 Ok (setattr (mk_object c a) "card_owner" (VStr owner))
            else Ok (mk_object c a) in
  Ok (setattr o "transaction_id" (VInt n)).


(** ** Sample inputs *)

Definition sample_csv_statement : StatementAccount :=
  mk_StatementAccount (u "revolut/czk_2301.csv") (Some (u "revolut"))
    (Some (u "LT443250037740989361CZK")) (Some (u "2001")) None None [] [] [].

(** The row of the specification: a card payment with a fee. *)
Definition sample_fee_row : csv_row :=
  [ ("Type", u "card_payment"); ("Amount", u "-120.00"); ("Fee", u "1.50");
    ("State", u "Completed") ].

(** The same row with a negative fee. *)
Definition sample_negative_fee_row : csv_row :=
  [ ("Type", u "card_payment"); ("Amount", u "-120.00"); ("Fee", u "-1.50");
    ("State", u "Completed") ].

(** A reverted row. *)
Definition sample_reverted_row : csv_row :=
  [ ("Type", u "TRANSFER"); ("Started Date", u "2023-01-05 10:11:12");
    ("Completed Date", u ""); ("Description", u "To John"); ("Amount", u "-50.00");
    ("Fee", u "0.00"); ("Currency", u "CZK"); ("State", u "REVERTED"); ("Balance", u "") ].

(** ** Reconciliation *)

(** The transactions of a statement are in the store and their amounts
    are numbers. *)
Definition statement_wf (w : World) (s : StatementAccount) : Prop :=
  Forall (fun r => exists t a x,
            heap w !! r = Some t /\ getattr t "amount" = Ok a /\ main.number a = Ok x)
         (all_transactions s).

(** What the check prints for a statement with the balance delta
    [delta] and the sum [total] of the amounts: the path, and the
    warning with the missing amount when the two differ once rounded to
    two decimals. *)
Definition reconciliation_report (path : pystr) (delta total : float) : list main.output :=
  main.Printed path ::
  (if fne (round2 delta) (round2 total)
   then [main.Warning (round2 (fsub delta total))]
   else []).

Definition statement_report (w : World) (s : StatementAccount) : list main.output :=
  match start_balance s, end_balance s, main.amounts w s with
  | Some b, Some e, Ok xs => reconciliation_report (file_path s) (fsub e b) (sum xs)
  | _, _, _ => []
  end.

(** Two statements with the balances 1000.00 and 1500.00: the first
    with one transaction of 480.00, the second with one of 500.00. *)
Definition sample_reconciliation_world : World :=
  match (let! _ := new IncomingPayment
                     [ ("statement_account", VStr (u "111/0800"));
                       ("amount", VFloat (float_of_Z 480));
                       ("date_booked", VStr (u "02.01.2023")) ] in
         new IncomingPayment
           [ ("statement_account", VStr (u "222/0800"));
             ("amount", VFloat (float_of_Z 500));
             ("date_booked", VStr (u "03.01.2023")) ]) empty_World with
  | Ok (_, w) => w
  | Raise _ => empty_World
  end.

Definition sample_reconciliation_program : main.Program :=
  main.mk_Program sample_reconciliation_world
    [ mk_StatementAccount (u "a.pdf") (Some (u "cs")) (Some (u "111/0800")) (Some (u "2023"))
        (Some (float_of_Z 1000)) (Some (float_of_Z 1500)) [] [] [0%nat];
      mk_StatementAccount (u "b.pdf") (Some (u "cs")) (Some (u "222/0800")) (Some (u "2023"))
        (Some (float_of_Z 1000)) (Some (float_of_Z 1500)) [] [] [1%nat] ]
    [].

(** Two states of a statement that differ in the list of transactions
    only. *)
Definition same_header (s s' : StatementAccount) : Prop :=
  file_path s' = file_path s /\ bank_name s' = bank_name s
  /\ account_number s' = account_number s /\ year s' = year s.

(** A page of a cs statement with one card payment, and the statement
    it belongs to. *)
Definition sample_cs_page : list pystr :=
  [ u "01.02.2023"; u "Platba kartou"; u "123"; u "-250,00"; u "1178"; u "99";
    u "XXXXXXXXXXXX7148 d.tran.30.01.2023"; u "ALBERT PRAHA" ].

Definition sample_cs_statement (pages : list (list pystr)) : StatementAccount :=
  mk_StatementAccount (u "cs_2023_02.pdf") (Some (u "cs")) (Some (u "1234567890/0800"))
    (Some (u "2023")) None None pages [] [].

(** The same page cut after the constant symbol. *)
Definition sample_cut_page : list pystr := take 5 sample_cs_page.

(** A page of a cs statement with a refund of a card payment. *)
Definition sample_refund_page : list pystr :=
  [ u "05.02.2023"; u "Vratka platby kartou"; u "123"; u "+250,00"; u "CZK"; u "1178";
    u "99"; u "XXXXXXXXXXXX7148 d.tran.30.01.2023"; u "ALBERT PRAHA" ].

(** A page of a csob statement with a card payment. *)
Definition sample_csob_page : list pystr :=
  [ u "02.01."; u "Transakce platební kartou"; u "-250,00"; u "1 000,00"; u "0001";
    u "1111"; u "2222"; u "12345678"; u "ALBERT"; u "Místo: 01.01.2023"; u "PRAHA" ].

(** ** The chronological order *)

(** The sort key of the object a reference denotes, when it has one. *)
Definition sort_key (w : World) (r : ref) : option (datetime * Z) :=
  match heap w !! r with
  | Some tx =>
    match Transaction.get_sort_key tx with
    | Ok k => Some k
    | Raise _ => None
    end
  | None => None
  end.

(** A key is not after another: an earlier booking date, or the same
    date and an id that is not greater. *)
Definition key_before (a b : datetime * Z) : Prop :=
  datetime_compare (fst a) (fst b) = Lt
  \/ (datetime_compare (fst a) (fst b) = Eq /\ snd a <= snd b).

(** The references of a list are in the order of their keys in [w]. *)
Definition chronological (w : World) (l : list ref) : Prop :=
  StronglySorted (fun a b => exists ka kb,
                    sort_key w a = Some ka /\ sort_key w b = Some kb /\ key_before ka kb) l.

(** A registry of three transactions, not in the order of their dates. *)
Definition sample_unsorted_world : World :=
  match (let! _ := new IncomingPayment
                     [ ("statement_account", VStr (u "111/0800"));
                       ("date_booked", VStr (u "15.03.2023")) ] in
         let! _ := new OutgoingPayment
                     [ ("statement_account", VStr (u "111/0800"));
                       ("date_booked", VStr (u "02.01.2023")) ] in
         new DirectDebit
           [ ("statement_account", VStr (u "111/0800"));
             ("date_booked", VStr (u "15.03.2023")) ]) empty_World with
  | Ok (_, w) => w
  | Raise _ => empty_World
  end.

(** ** Export and re-import *)

(** The classes whose name is one of the labels [load_transactions_json]
    compares the "type" of a record with. *)
Definition reimport_kinds : list Class :=
  [ IncomingPayment; OutgoingPayment; OutgoingPaymentPeriodic; CardPaymentDebit;
    CardPaymentIncoming; CardAtmCashOut; BankPayedService; InterestPositive;
    TaxInterest; DirectDebit ].

(** A later run of the program: no object, no registry, and the document
    of the last export on disk. *)
Definition fresh_run (w : World) : World :=
  set_transactions_json (transactions_json w) empty_World.

(** The structured export, then the re-import in a later run. *)
Definition export_then_reimport : M unit :=
  fun w =>
    let? '(_, w') := Transaction.save_transactions_json w in
    Transaction.load_transactions_json (fresh_run w').

(** A registry of one incoming payment. *)
Definition sample_single_world : World :=
  match new IncomingPayment
          [ ("statement_account", VStr (u "111/0800"));
            ("date_booked", VStr (u "15.03.2023")) ] empty_World with
  | Ok (_, w) => w
  | Raise _ => empty_World
  end.

(** ** Amount texts *)

(** The amounts of the statements: an optional sign, an integer part of
    digits with thousand separators, and an optional decimal part. *)
Inductive sign := Plus | Minus.
Inductive separator := Space | NoBreakSpace.
Inductive decimal_mark := Comma | Dot.

Inductive item :=
| Digit (d : Z)
| Separator (s : separator).

Record amount := mk_amount {
  amount_sign : option sign;
  integer_part : list item;
  decimal_part : option (decimal_mark * list Z)
}.

Definition integer_digits (a : amount) : list Z :=
  omap (fun i => match i with Digit d => Some d | Separator _ => None end)
       (integer_part a).

Definition decimal_digits (a : amount) : list Z :=
  match decimal_part a with
  | Some (_, ds) => ds
  | None => []
  end.

Definition is_digit (d : Z) : Prop := 0 <= d <= 9.






(** The number a list of digits writes. *)
Definition digits_value (ds : list Z) : Z := fold_left (fun acc d => 10 * acc + d) ds 0.

(** The number an amount writes is
    [(-1)^negative * scaled * 10^(- decimals)]. *)
Definition negative (a : amount) : bool :=
  match amount_sign a with Some Minus => true | _ => false end.

Definition decimals (a : amount) : nat := length (decimal_digits a).

Definition scaled (a : amount) : Z :=
  digits_value (integer_digits a) * 10 ^ Z.of_nat (decimals a)
  + digits_value (decimal_digits a).



(** ** The searches of the helpers *)

(** The test [get_amount_line] applies to a line. *)
Definition amount_line (line : pystr) : bool :=
  (str_in (u "-") line || str_in (u "+") line || str_eqb line (u "0.00"))
  && isdigit
       (replace (u ",") (u "")
          (replace (u ".") (u "")
             (replace nbsp (u "")
                (replace (u " ") (u "")
                   (replace (u "-") (u "") (replace (u "+") (u "") line)))))).




(** ** Dates *)

(** The day of a [datetime], at midnight. *)
Definition date_of (d : datetime) : datetime :=
  mk_datetime (dt_year d) (dt_month d) (dt_day d) 0 0 0.

(** ** The registries and the ids *)

(** The [all] list of every class holds the instances of the class and
    of its subclasses, each once. *)
Definition registry_wf (w : World) : Prop :=
  (forall c r, r ∈ all w c <-> exists o, heap w !! r = Some o /\ isinstance o c = true)
  /\ forall c, NoDup (all w c).

(** The generator is at 1 or beyond; every instance has an id, an
    integer from 1 up to the one the generator yields next, and two
    instances have different ids. *)
Definition ids_unique (w : World) : Prop :=
  1 <= fresh_id w
  /\ (forall r o, heap w !! r = Some o ->
       exists n, getattr o "transaction_id" = Ok (VInt n) /\ 1 <= n < fresh_id w)
  /\ forall r1 r2 o1 o2,
       heap w !! r1 = Some o1 -> heap w !! r2 = Some o2 ->
       getattr o1 "transaction_id" = getattr o2 "transaction_id" -> r1 = r2.

(** An instance after some of its attributes have been set: the class
    and the id are the same. *)
Definition same_identity (o o' : object) : Prop :=
  cls o' = cls o /\ getattr o' "transaction_id" = getattr o "transaction_id".

(** The store after an extraction: the instances that were there are
    still there, with their identity, and the registries have what they
    had, in the same order, before what is new. *)
Definition extends (w w' : World) : Prop :=
  (forall r o, heap w !! r = Some o ->
     exists o', heap w' !! r = Some o' /\ same_identity o o')
  /\ forall c, exists added, all w' c = all w c ++ added.

(** What the extraction does to the store, one effect at a time: a call
    of a class, or the assignment of an attribute other than the id. *)
Inductive step (w : World) : World -> Prop :=
| step_new (c : Class) (kw : kwargs) (r : ref) (w' : World) :
    new c kw w = Ok (r, w') -> step w w'
| step_setattr (r : ref) (o : object) (k : string) (v : value) :
    heap w !! r = Some o -> k <> "transaction_id" ->
    step w (set_heap (<[r := setattr o k v]> (heap w)) w).

Definition steps : World -> World -> Prop := rtc step.

(** The references of [added] are distinct and denote instances that
    [w'] has and [w] had not. *)
Definition added_between (w w' : World) (added : list ref) : Prop :=
  Forall (fun r => (length (heap w) <= r < length (heap w'))%nat) added /\ NoDup added.

(** ** The rules of the csv path *)

(** A rule of [revolut_rules] fits a row of type [tx_type] and amount
    [amount]: the type, in lower case, is one of the rule's and the sign
    of the amount is the rule's. *)
Definition rule_fits (rule : Class * (list pystr * bool)) (tx_type : option pystr)
    (amount : float) : bool :=
  match tx_type with
  | Some s =>
    existsb (str_eqb (lower s)) (fst (snd rule))
    && Bool.eqb (snd (snd rule)) (flt amount (float_of_Z 0))
  | None => false
  end.

(** The csv statement of the samples with two rows: a card payment with
    a fee, and a reverted transfer. *)
Definition sample_csv_statement_rows : StatementAccount :=
  mk_StatementAccount (u "revolut/czk_2301.csv") (Some (u "revolut"))
    (Some (u "LT443250037740989361CZK")) (Some (u "2001")) None None []
    [sample_fee_row; sample_reverted_row] [].

(** ** Pages *)

(** No class has a marker for the bank in the line. *)
Definition no_marker (bank : value) (line : pystr) : Prop :=
  Forall (fun c => marker_in c bank line = false) precedence.

(** A page of a cs statement with no transaction on it. *)
Definition sample_plain_page : list pystr :=
  [ u "Česká spořitelna, a.s."; u "Výpis z účtu"; u ""; u "Strana: 1" ].

(** * src/transaction_analytics.py *)

(** ** Comparisons of Python values *)

(** An integer against a float, exactly. *)
Definition Z_float_compare (z : Z) (x : float) : option comparison :=
  match x with
  | S754_nan => None
  | S754_infinity s => Some (if s then Gt else Lt)
  | S754_zero _ => Some (z ?= 0)
  | S754_finite s m e =>
    let v := if s then Zneg m else Zpos m in
    Some (if 0 <=? e then z ?= v * 2 ^ e else z * 2 ^ (- e) ?= v)
  end.

(** The integer a [bool] or an [int] is. *)
Definition as_int (v : value) : option Z :=
  match v with
  | VBool b => Some (if b then 1 else 0)
  | VInt z => Some z
  | _ => None
  end.

(** The order of two numbers: absent when one of the values is no
    number, unordered when one is NaN. *)
Definition number_compare (a b : value) : option (option comparison) :=
  match as_int a, as_int b, a, b with
  | Some x, Some y, _, _ => Some (Some (x ?= y))
  | Some x, None, _, VFloat y => Some (Z_float_compare x y)
  | None, Some y, VFloat x, _ => Some (option_map CompOpp (Z_float_compare y x))
  | None, None, VFloat x, VFloat y => Some (SFcompare x y)
  | _, _, _, _ => None
  end.

(** The order of strings: by code points. *)
Fixpoint str_compare (a b : pystr) : comparison :=
  match a, b with
  | [], [] => Eq
  | [], _ :: _ => Lt
  | _ :: _, [] => Gt
  | x :: a', y :: b' =>
    match (x ?= y)%N with
    | Eq => str_compare a' b'
    | c => c
    end
  end.

(** [a < b] *)
Definition py_lt (a b : value) : result bool :=
  match number_compare a b with
  | Some (Some Lt) => Ok true
  | Some _ => Ok false
  | None =>
    match a, b with
    | VStr s, VStr t => Ok (match str_compare s t with Lt => true | _ => false end)
    | _, _ => Raise TypeError
    end
  end.

(** [a == b] *)
Definition py_eq (a b : value) : bool :=
  match number_compare a b with
  | Some (Some Eq) => true
  | Some _ => false
  | None =>
    match a, b with
    | VStr s, VStr t => str_eqb s t
    | VNone, VNone => true
    | _, _ => false
    end
  end.

(** ** Conditions and rules *)

(** The names the annotation of [check_tx_attribute] lists. *)
Inductive tx_attribute :=
| A_type | A_transaction_id | A_statement_account | A_account_from | A_amount
| A_date_booked | A_account_to | A_currency | A_account_from_name | A_sender_note
| A_variable_symbol | A_constant_symbol | A_specific_symbol
| A_all_transaction_lines_text | A_transaction_user_description
| A_transaction_user_category | A_card_owner | A_vendor_text.

Definition attribute_name (a : tx_attribute) : string :=
  match a with
  | A_type => "type"
  | A_transaction_id => "transaction_id"
  | A_statement_account => "statement_account"
  | A_account_from => "account_from"
  | A_amount => "amount"
  | A_date_booked => "date_booked"
  | A_account_to => "account_to"
  | A_currency => "currency"
  | A_account_from_name => "account_from_name"
  | A_sender_note => "sender_note"
  | A_variable_symbol => "variable_symbol"
  | A_constant_symbol => "constant_symbol"
  | A_specific_symbol => "specific_symbol"
  | A_all_transaction_lines_text => "all_transaction_lines_text"
  | A_transaction_user_description => "transaction_user_description"
  | A_transaction_user_category => "transaction_user_category"
  | A_card_owner => "card_owner"
  | A_vendor_text => "vendor_text"
  end.

(** The comparisons [__post_init__] allows. *)
Inductive comparison_kind := Less | Greater | Equal | NotEqual | IsIn | NotIn.

Definition comparison_of (s : pystr) : option comparison_kind :=
  if str_eqb s (u "less") then Some Less
  else if str_eqb s (u "greater") then Some Greater
  else if str_eqb s (u "equal") then Some Equal
  else if str_eqb s (u "not equal") then Some NotEqual
  else if str_eqb s (u "is in") then Some IsIn
  else if str_eqb s (u "not in") then Some NotIn
  else None.

(** An instance of [RuleCondition], past [__post_init__]. *)
Record RuleCondition := mk_RuleCondition {
  c_check_tx_attribute : tx_attribute;
  c_comparison : comparison_kind;
  c_value : value }.

(** An instance of [TransactionRule]. *)
Record TransactionRule := mk_TransactionRule {
  r_conditions_and : list RuleCondition;
  r_conditions_or : list RuleCondition;
  r_transaction_about : pystr;
  r_transaction_category : pystr }.

Module RuleCondition.

(** [RuleCondition(check_tx_attribute, comparison, value)]: the checks of
    [__post_init__]. *)
Definition new (check_tx_attribute : tx_attribute) (comparison : pystr) (v : value)
  : result RuleCondition :=
  match comparison_of comparison with
  | None => Raise ValueError
  | Some c =>
    match v with
    | VNone => Raise ValueError
    | _ => Ok (mk_RuleCondition check_tx_attribute c v)
    end
  end.

Section lower.

(** [s.lower()]: the case table of the runtime. *)
Variable str_lower : pystr -> pystr.

Definition validate (self : RuleCondition) (transaction_value : value) : result bool :=
  match c_comparison self with
  | Less => py_lt transaction_value (c_value self)
  | Greater => py_lt (c_value self) transaction_value
  | Equal => Ok (py_eq transaction_value (c_value self))
  | NotEqual => Ok (negb (py_eq transaction_value (c_value self)))
  | IsIn =>
    match c_value self, transaction_value with
    | VStr v, VStr t => Ok (str_in (str_lower v) (str_lower t))
    | _, _ => Raise AttributeError
    end
  | NotIn =>
    match transaction_value, c_value self with
    | VStr t, VStr v => Ok (negb (str_in v t))
    | _, _ => Raise TypeError
    end
  end.

Definition check_condition_passes (self : RuleCondition) (transaction : object)
  : result bool :=
  match c_check_tx_attribute self with
  | A_type =>
    let transaction_type := VStr (class_name (cls transaction)) in
    Ok (match c_comparison self with
        | Equal => py_eq transaction_type (c_value self)
        | NotEqual => negb (py_eq transaction_type (c_value self))
        | _ => false
        end)
  | attribute_to_check =>
    match lookup_kw (attribute_name attribute_to_check) (attrs transaction) with
    | Some transaction_value => validate self transaction_value
    | None => Ok false
    end
  end.

End lower.

End RuleCondition.

Module TransactionRule.

Section lower.

Variable str_lower : pystr -> pystr.

(** [all(c.check_condition_passes(t) for c in conditions)] and [any]:
    the conditions are checked until the answer is known. *)
Fixpoint all_pass (conditions : list RuleCondition) (transaction : object) : result bool :=
  match conditions with
  | [] => Ok true
  | c :: rest =>
    let? b := RuleCondition.check_condition_passes str_lower c transaction in
    if b then all_pass rest transaction else Ok false
  end.

Fixpoint any_pass (conditions : list RuleCondition) (transaction : object) : result bool :=
  match conditions with
  | [] => Ok false
  | c :: rest =>
    let? b := RuleCondition.check_condition_passes str_lower c transaction in
    if b then Ok true else any_pass rest transaction
  end.

Definition is_transaction_passes (self : TransactionRule) (transaction : object)
  : result bool :=
  match r_conditions_and self, r_conditions_or self with
  | [], [] => Ok false
  | _, _ =>
    let? condition_and_passed := all_pass (r_conditions_and self) transaction in
    if negb condition_and_passed then Ok false
    else match r_conditions_or self with
         | _ :: _ => any_pass (r_conditions_or self) transaction
         | [] => Ok true
         end
  end.

End lower.

End TransactionRule.

Section analysis.

Variable str_lower : pystr -> pystr.

(** [self.a += s] for a string [s]. *)
Definition iadd_str (self : object) (a : string) (s : pystr) : result object :=
  let? v := getattr self a in
  match v with
  | VStr t => Ok (setattr self a (VStr (t ++ s)))
  | _ => Raise TypeError
  end.

(** [Transaction.get_transaction_description_and_category] *)
Fixpoint get_transaction_description_and_category (rules : list TransactionRule)
    (self : object) : result object :=
  match rules with
  | [] => Ok self
  | rule :: rest =>
    let? passes := TransactionRule.is_transaction_passes str_lower rule self in
    if passes then
      let? self := iadd_str self "user_description" (r_transaction_about rule) in
      iadd_str self "user_category" (r_transaction_category rule)
    else get_transaction_description_and_category rest self
  end.

(** [main.analyze_all_transactions]; the rules are those of
    [src/transaction_rules.py]. *)
Definition analyze_all_transactions (rules : list TransactionRule) : M unit :=
  fun w =>
    forM (all w Transaction) (fun r =>
      let! tx := deref r in
      let! tx := lift (get_transaction_description_and_category rules tx) in
      store r tx) w.

End analysis.

(** An instance after the analysis: the class is the same and so is
    every attribute but the description and the category of the user. *)
Definition same_but_user_texts (o o' : object) : Prop :=
  cls o' = cls o
  /\ forall k, k <> "user_description" -> k <> "user_category" ->
               getattr o' k = getattr o k.

(** * src/account_statement.py: the head of a pdf statement *)

Module StatementAccountPdf.

Import StatementAccountCsv.

(** The loops [for page_lines in self.pages_content_pdf: for i, line in
    enumerate(page_lines): ...] whose body sets an attribute and
    returns: [body] gives the value to set, or nothing to go on. *)
Fixpoint scan_lines {A} (body : list pystr -> nat -> pystr -> result (option A))
    (page_lines : list pystr) (lines : list (nat * pystr)) : result (option A) :=
  match lines with
  | [] => Ok None
  | (i, line) :: rest =>
    let? found := body page_lines i line in
    match found with
    | Some a => Ok (Some a)
    | None => scan_lines body page_lines rest
    end
  end.

Fixpoint scan_pages {A} (body : list pystr -> nat -> pystr -> result (option A))
    (pages : list (list pystr)) : result (option A) :=
  match pages with
  | [] => Ok None
  | page_lines :: rest =>
    let? found := scan_lines body page_lines (enumerate page_lines) in
    match found with
    | Some a => Ok (Some a)
    | None => scan_pages body rest
    end
  end.

Definition bank_names : list (pystr * pystr) :=
  [ (u "Československá obchodní banka, a. s.,", u "csob");
    (u "Česká spořitelna, a.s.,", u "cs");
    (u "Plus účet České spořitelny", u "cs");
    (u "Revolut", u "revolut") ].

Definition get_bank_name_pdf (self : StatementAccount) : StatementAccount :=
  match scan_pages (fun _ _ line =>
          Ok (snd <$> List.find (fun '(key, _) => str_in key line) bank_names))
          (pages_content_pdf self) with
  | Ok (Some bank) => set_bank_name (Some bank) self
  | _ => self
  end.

(** [re.match(r"^LT\d*$", s)] *)
Definition match_LT (s : pystr) : bool :=
  match s with
  | c1 :: c2 :: rest => (c1 =? chr "L")%N && (c2 =? chr "T")%N && forallb isdecimal rest
  | _ => false
  end.

Definition get_account_nr_pdf (self : StatementAccount) : result StatementAccount :=
  let? found := scan_pages (fun page_lines i line =>
      if str_in (u "Číslo účtu/kód banky:") line then
        Ok (Some (strip (replace (u "Číslo účtu/kód banky:") (u "") line)))
      else if str_eqb (strip line) (u "Účet:") then
        let? next := getitem page_lines (Z.of_nat i + 1) in
        Ok (Some (strip next))
      else if match_LT (strip line) then
        let? next := getitem page_lines (Z.of_nat i + 1) in
        if str_in (u "REVOLT21") next then Ok (Some (strip line)) else Ok None
      else Ok None) (pages_content_pdf self) in
  Ok (match found with
      | Some account => set_account_number (Some account) self
      | None => self
      end).

(** [self.bank_name in ["csob", "cs"]] and [self.bank_name == "revolut"] *)
Definition bank_is (self : StatementAccount) (names : list pystr) : bool :=
  match bank_name self with
  | Some b => existsb (str_eqb b) names
  | None => false
  end.

(** [round(float(t.replace(" ", "").replace("\xa0", "").replace(",", ".")), 2)] *)
Definition balance_cs (amount_text : pystr) : result float :=
  let? x := float_of_str
              (replace (u ",") (u ".")
                 (replace nbsp (u "") (replace (u " ") (u "") amount_text))) in
  Ok (round2 x).

(** [round(float(t.replace(" CZK", "").replace(",", "")), 2)] *)
Definition balance_revolut (amount_text : pystr) : result float :=
  let? x := float_of_str (replace (u ",") (u "") (replace (u " CZK") (u "") amount_text)) in
  Ok (round2 x).

(** The inner loop of the Revolut rules: the line at [offset] after the
    first line "Celkem" of [page_lines[start:]]; [base] is the index
    the offsets are counted from, an integer or [None]. *)
Fixpoint after_celkem (page_lines : list pystr) (base : option nat) (offset : Z)
    (lines : list (nat * pystr)) : result (option float) :=
  match lines with
  | [] => Ok None
  | (o, line) :: rest =>
    if str_eqb (strip line) (u "Celkem") then
      match base with
      | None => Raise TypeError
      | Some i =>
        let? amount_text := getitem page_lines (Z.of_nat i + Z.of_nat o + offset) in
        let? x := balance_revolut amount_text in
        Ok (Some x)
      end
    else after_celkem page_lines base offset rest
  end.

Definition get_account_start_balance_pdf (self : StatementAccount)
  : result StatementAccount :=
  let? found := scan_pages (fun page_lines i line =>
      if str_in (u "Počáteční zůstatek:") line && bank_is self [u "csob"; u "cs"] then
        let? amount_text := getitem page_lines (Z.of_nat i + 1) in
        let? x := balance_cs amount_text in
        Ok (Some x)
      else if str_in (u "Souhrn zůstatku") line && bank_is self [u "revolut"] then
        after_celkem page_lines (Some i) 1 (enumerate (slice_from page_lines i))
      else Ok None) (pages_content_pdf self) in
  Ok (match found with
      | Some x => set_start_balance (Some x) self
      | None => self
      end).

(** The index of the last line of the page with "Souhrn zůstatku", or
    the index that was known. *)
Definition last_summary (lines : list (nat * pystr)) (known : option nat) : option nat :=
  fold_left (fun known '(i, line) =>
               if str_in (u "Souhrn zůstatku") line then Some i else known)
            lines known.

Fixpoint end_balance_revolut (pages : list (list pystr)) (last_summary_section_index : option nat)
  : result (option float) :=
  match pages with
  | [] => Ok None
  | page_lines :: rest =>
    let last_summary_section_index :=
      last_summary (enumerate page_lines) last_summary_section_index in
    let? found := after_celkem page_lines last_summary_section_index 4
                    (enumerate (slice_from page_lines
                                  (default 0%nat last_summary_section_index))) in
    match found with
    | Some x => Ok (Some x)
    | None => end_balance_revolut rest last_summary_section_index
    end
  end.

Definition get_account_end_balance_pdf (self : StatementAccount)
  : result StatementAccount :=
  let? found :=
    if bank_is self [u "revolut"] then end_balance_revolut (pages_content_pdf self) None
    else if bank_is self [u "csob"; u "cs"] then
      scan_pages (fun page_lines i line =>
        if str_in (u "Konečný zůstatek:") line then
          let? amount_text := getitem page_lines (Z.of_nat i + 1) in
          let? x := balance_cs amount_text in
          Ok (Some x)
        else Ok None) (pages_content_pdf self)
    else Ok None in
  Ok (match found with
      | Some x => set_end_balance (Some x) self
      | None => self
      end).

Definition get_statement_year_pdf (self : StatementAccount) : result StatementAccount :=
  let? found := scan_pages (fun page_lines i line =>
      if str_eqb (strip line) (u "Období:") then
        let? next := getitem page_lines (Z.of_nat i + 1) in
        Ok (Some (last_chars 4 (strip next)))
      else if str_in (u "Období:") (strip line) then
        let? this := getitem page_lines (Z.of_nat i) in
        Ok (Some (last_chars 4 (strip this)))
      else if str_in (u "Transakce účtu od") line then
        Ok (Some (last_chars 4 (strip line)))
      else Ok None) (pages_content_pdf self) in
  Ok (match found with
      | Some y => set_year (Some y) self
      | None => self
      end).

(** [StatementAccount(file_path)] for a pdf file whose pages hold the
    lines [pages]: [__post_init__] with [initialize_from_pdf], up to the
    registration in [StatementAccount.all]. *)
Definition initialize_from_pdf (file_path : pystr) (pages : list (list pystr))
  : M StatementAccount :=
  let self := mk_StatementAccount file_path None None None None None pages [] [] in
  let self := get_bank_name_pdf self in
  let! self := lift (get_account_nr_pdf self) in
  let! self := lift (get_account_start_balance_pdf self) in
  let! self := lift (get_account_end_balance_pdf self) in
  let! self := lift (get_statement_year_pdf self) in
  StatementAccount.get_transactions_pdf self.

End StatementAccountPdf.

(** The bank of the first marker of [bank_names] a line holds. *)
Definition bank_of_line (line : pystr) : option pystr :=
  snd <$> List.find (fun '(key, _) => str_in key line) StatementAccountPdf.bank_names.

(** A page of a Revolut statement. *)
Definition sample_revolut_page : list pystr :=
  [ u "Revolut Bank UAB"; u "Výpis v CZK"; u "Transakce účtu od 1. ledna 2023" ].


(** * main.py: the run *)

Module main_py.

(** [s.endswith(suffix)] *)
Definition endswith (suffix s : pystr) : bool :=
  (length suffix <=? length s)%nat
  && str_eqb (drop (length s - length suffix) s) suffix.

(** [os.path.join(a, b)] on a POSIX system. *)
Definition path_join (a b : pystr) : pystr :=
  if startswith (u "/") b then b
  else match a with
       | [] => b
       | _ :: _ => if endswith (u "/") a then a ++ b else a ++ u "/" ++ b
       end.

(** [get_files_to_process], on what [os.walk(folder_path)] yields: the
    directories with the names of their files. *)
Definition get_files_to_process (walk : list (pystr * list pystr)) (suffixes : list pystr)
  : list pystr :=
  let suffixes := lower <$> suffixes in
  flat_map (fun '(dirpath, filenames) =>
              path_join dirpath <$>
                List.filter (fun f => existsb (fun suffix => endswith (lower suffix) f) suffixes)
                            filenames)
           walk.

Section run.

(** What the libraries read from a file: the lines of the pages of a
    pdf ([fitz]), the rows of a csv ([csv.DictReader]). *)
Variable pages_of : pystr -> list (list pystr).
Variable rows_of : pystr -> list csv_row.

(** [StatementAccount(file_path)]: [__post_init__].  A path has one
    ending, so that at most one of the two tests holds. *)
Definition StatementAccount_new (file_path : pystr) (p : main.Program)
  : result main.Program :=
  let? '(self, w) :=
    if endswith (u ".pdf") (lower file_path)
    then StatementAccountPdf.initialize_from_pdf file_path (pages_of file_path) (main.world p)
    else if endswith (u ".csv") (lower file_path)
    then StatementAccountCsv.initialize_from_csv file_path (rows_of file_path) (main.world p)
    else Ok (mk_StatementAccount file_path None None None None None [] [] [], main.world p) in
  Ok (main.mk_Program w (main.StatementAccount_all p ++ [self]) (main.stdout p)).

Fixpoint load_files (files : list pystr) (p : main.Program) : result main.Program :=
  match files with
  | [] => Ok p
  | f :: rest =>
    let? p := StatementAccount_new f p in
    load_files rest p
  end.

Definition load_pdfs (walk : list (pystr * list pystr)) : main.Program -> result main.Program :=
  load_files (get_files_to_process walk [u ".pdf"]).

Definition load_csvs (walk : list (pystr * list pystr)) : main.Program -> result main.Program :=
  load_files (get_files_to_process walk [u ".csv"]).

(** A class method of [Transaction] in a run. *)
Definition in_world (m : M unit) (p : main.Program) : result main.Program :=
  let? '(_, w) := m (main.world p) in
  Ok (main.mk_Program w (main.StatementAccount_all p) (main.stdout p)).

(** [str(x)] of a float and [s.lower()]: functions of the runtime. *)
Variable str_of_float : float -> pystr.
Variable str_lower : pystr -> pystr.

Definition save_transactions (p : main.Program) : result main.Program :=
  let? p := in_world Transaction.save_transactions_json p in
  in_world (Transaction.transactions_to_csv str_of_float) p.

(** [main(folder_path)]; [rules] is [RULES] of [src/transaction_rules.py]. *)
Definition main (rules : list TransactionRule) (walk : list (pystr * list pystr))
    (p : main.Program) : result main.Program :=
  let? p := load_pdfs walk p in
  let? p := load_csvs walk p in
  let? p := in_world (analyze_all_transactions str_lower rules) p in
  let? p := main.validate_all_transactions_extracted p in
  save_transactions p.

End run.

End main_py.

(** The state a run starts from. *)
Definition initial_Program : main.Program := main.mk_Program empty_World [] [].

(** ** What a transaction keeps of its statement *)

(** The instance carries the account number, the year and the path of
    the statement. *)
Definition carries (self : StatementAccount) (o : object) : Prop :=
  getattr o "statement_account" = Ok (str_or_none (account_number self))
  /\ getattr o "year" = Ok (str_or_none (year self))
  /\ getattr o "parent_statement" = Ok (VStr (file_path self)).

(** * Proofs *)

(** ** The two effect layers *)

Lemma mbind_lift {A B} (r : result A) (k : A -> M B) (w : World) :
  mbind (lift r) k w = match r with Ok a => k a w | Raise e => Raise e end.
Proof. unfold mbind, lift. destruct r; reflexivity. Qed.

Lemma mbind_ok {A B} (m : M A) (k : A -> M B) (w w' : World) (a : A) :
  m w = Ok (a, w') -> mbind m k w = k a w'.
Proof. unfold mbind. intros ->. reflexivity. Qed.

Lemma mbind_raise {A B} (m : M A) (k : A -> M B) (w : World) (e : exn) :
  m w = Raise e -> mbind m k w = Raise e.
Proof. unfold mbind. intros ->. reflexivity. Qed.

Lemma mbind_inv {A B} (m : M A) (k : A -> M B) (w w' : World) (b : B) :
  mbind m k w = Ok (b, w') ->
  exists a w1, m w = Ok (a, w1) /\ k a w1 = Ok (b, w').
Proof.
  unfold mbind. destruct (m w) as [[a w1]|e]; [|discriminate].
  intros H. exists a, w1. auto.
Qed.

Lemma is_raise_mbind {A B} (m : M A) (k : A -> M B) (w : World) :
  is_raise (m w) -> is_raise (mbind m k w).
Proof. unfold mbind. destruct (m w) as [[a w1]|e]; simpl; tauto. Qed.

Lemma is_raise_lift {A} (r : result A) (w : World) :
  is_raise r -> is_raise (lift r w).
Proof. destruct r; simpl; tauto. Qed.

Lemma lift_inv {A} (r : result A) (w w' : World) (a : A) :
  lift r w = Ok (a, w') -> r = Ok a /\ w' = w.
Proof. unfold lift. destruct r; [|discriminate]. intros [= -> ->]. auto. Qed.

(** ** Keyword arguments and fields *)

Lemma lookup_update_kw_eq k v kw : lookup_kw k (update_kw k v kw) = Some v.
Proof.
  induction kw as [|[k' v'] kw IH]; simpl.
  - rewrite String.eqb_refl. reflexivity.
  - destruct (String.eqb k' k) eqn:E; simpl.
    + rewrite String.eqb_refl. reflexivity.
    + rewrite E. exact IH.
Qed.

Lemma lookup_update_kw_ne k k' v kw :
  k <> k' -> lookup_kw k (update_kw k' v kw) = lookup_kw k kw.
Proof.
  intros Hne. induction kw as [|[k0 v0] kw IH]; simpl.
  - destruct (String.eqb k' k) eqn:E; [|reflexivity].
    apply String.eqb_eq in E. congruence.
  - destruct (String.eqb k0 k') eqn:E; simpl.
    + apply String.eqb_eq in E. subst k0.
      destruct (String.eqb k' k) eqn:E'; [|reflexivity].
      apply String.eqb_eq in E'. congruence.
    + destruct (String.eqb k0 k); [reflexivity|exact IH].
Qed.

Lemma update_kw_keys_present k v kw :
  is_Some (lookup_kw k kw) -> fst <$> update_kw k v kw = fst <$> kw.
Proof.
  induction kw as [|[k' v'] kw IH]; simpl.
  - intros [x Hx]. discriminate.
  - destruct (String.eqb k' k) eqn:E; simpl.
    + apply String.eqb_eq in E. subst. reflexivity.
    + intros H. f_equal. apply IH, H.
Qed.

Lemma bind_fields_keys fs kw a :
  bind_fields fs kw = Ok a -> fst <$> a = f_name <$> fs.
Proof.
  revert a. induction fs as [|f fs IH]; simpl; intros a.
  - intros [= <-]. reflexivity.
  - destruct (match (if f_init f then lookup_kw (f_name f) kw else None), f_default f with
              | Some v, _ => Ok v | None, Some d => Ok d | None, None => Raise TypeError
              end) as [v|e]; simpl; [|discriminate].
    destruct (bind_fields fs kw) as [rest|e]; simpl; [|discriminate].
    intros [= <-]. simpl. f_equal. apply IH. reflexivity.
Qed.

Lemma bind_fields_lookup fs kw a k :
  bind_fields fs kw = Ok a ->
  lookup_kw k a =
  (fun f => initial_value f kw) <$> List.find (fun f => String.eqb (f_name f) k) fs.
Proof.
  revert a. induction fs as [|f fs IH]; simpl; intros a.
  - intros [= <-]. reflexivity.
  - unfold initial_value at 1.
    destruct (if f_init f then lookup_kw (f_name f) kw else None) as [v|] eqn:E1;
      [|destruct (f_default f) as [d|] eqn:E2]; simpl; try discriminate;
      (destruct (bind_fields fs kw) as [rest|e]; simpl; [|discriminate]);
      intros [= <-]; simpl;
      (destruct (String.eqb (f_name f) k) eqn:E; simpl;
       [unfold initial_value; rewrite E1, ?E2; reflexivity | apply IH; reflexivity]).
Qed.

Lemma bind_fields_ok fs kw :
  Forall (fun f => f_default f = None ->
                   f_init f = true /\ is_Some (lookup_kw (f_name f) kw)) fs ->
  exists a, bind_fields fs kw = Ok a.
Proof.
  induction 1 as [|f fs Hf _ IH]; simpl.
  - eexists; reflexivity.
  - destruct IH as [rest ->].
    destruct (f_default f) as [d|] eqn:E2.
    + destruct (if f_init f then lookup_kw (f_name f) kw else None); simpl; eauto.
    + destruct (Hf eq_refl) as [-> [v ->]]. simpl. eauto.
Qed.

(** The only field without a default is [statement_account]. *)
Lemma bind_fields_class c kw :
  is_Some (lookup_kw "statement_account" kw) ->
  exists a, bind_fields (fields c) kw = Ok a.
Proof.
  intros H. apply bind_fields_ok.
  destruct c; vm_compute fields;
    repeat (constructor; [simpl; first [discriminate | intros _; split; [reflexivity|exact H]]|]);
    constructor.
Qed.

(** ** The constructor *)

Lemma new_unfold c kw w :
  new c kw w =
  if forallb (fun '(k, _) => accepts_keyword c k) kw
  then let? a := bind_fields (fields c) kw in
       let? o := finished c a (fresh_id w) in
       Ok (length (heap w), registered o w)
  else Raise TypeError.
Proof.
  unfold new, post_init, dataclass_init, finished. rewrite mbind_lift.
  destruct (forallb _ kw); [|reflexivity].
  destruct (bind_fields (fields c) kw) as [a|e]; simpl; [|reflexivity].
  rewrite mbind_lift. unfold isinstance at 1. simpl cls.
  destruct (issubclass c CardPaymentDebit).
  - destruct (get_card_owner (mk_object c a)) as [owner|e]; simpl; reflexivity.
  - simpl. reflexivity.
Qed.

Lemma finished_cls c a n o : finished c a n = Ok o -> cls o = c.
Proof.
  unfold finished. destruct (issubclass c CardPaymentDebit).
  - destruct (get_card_owner _); simpl; [|discriminate]. intros [= <-]. reflexivity.
  - simpl. intros [= <-]. reflexivity.
Qed.

(** The fields other than the id and the card owner are those
    [__init__] has bound. *)
Lemma finished_lookup c a n o k :
  finished c a n = Ok o -> k <> "transaction_id" -> k <> "card_owner" ->
  lookup_kw k (attrs o) = lookup_kw k a.
Proof.
  unfold finished. intros H H1 H2. destruct (issubclass c CardPaymentDebit).
  - destruct (get_card_owner _); simpl in H; [|discriminate]. injection H as <-.
    simpl. rewrite !lookup_update_kw_ne by assumption. reflexivity.
  - simpl in H. injection H as <-. simpl.
    rewrite lookup_update_kw_ne by assumption. reflexivity.
Qed.

Lemma finished_id c a n o :
  finished c a n = Ok o -> getattr o "transaction_id" = Ok (VInt n).
Proof.
  unfold finished. intros H.
  destruct (issubclass c CardPaymentDebit);
    [destruct (get_card_owner _)|]; simpl in H; try discriminate;
    injection H as <-; unfold getattr, setattr; simpl;
    rewrite lookup_update_kw_eq; reflexivity.
Qed.

(** What a successful call of a class has done. *)
Lemma new_inv c kw w r w' :
  new c kw w = Ok (r, w') ->
  exists a o,
    bind_fields (fields c) kw = Ok a /\ finished c a (fresh_id w) = Ok o
    /\ r = length (heap w) /\ w' = registered o w.
Proof.
  rewrite new_unfold. destruct (forallb _ kw); [|discriminate].
  destruct (bind_fields (fields c) kw) as [a|e] eqn:Ea; simpl; [|discriminate].
  destruct (finished c a (fresh_id w)) as [o|e] eqn:Eo; simpl; [|discriminate].
  intros [= <- <-]. exists a, o. repeat split; assumption || reflexivity.
Qed.

Lemma registered_heap o w : heap (registered o w) = heap w ++ [o].
Proof. reflexivity. Qed.

Lemma registered_all o w c :
  all (registered o w) c =
  if isinstance o c then all w c ++ [length (heap w)] else all w c.
Proof. reflexivity. Qed.

Lemma registered_lookup o w : heap (registered o w) !! length (heap w) = Some o.
Proof. rewrite registered_heap. apply list_lookup_middle. reflexivity. Qed.

Lemma isinstance_Transaction o : isinstance o Transaction = true.
Proof. unfold isinstance, issubclass. destruct (cls o); reflexivity. Qed.

Lemma registered_all_Transaction o w :
  all (registered o w) Transaction = all w Transaction ++ [length (heap w)].
Proof. rewrite registered_all, isinstance_Transaction. reflexivity. Qed.

(** A call succeeds when its keywords are fields of the class and the
    account of the statement is among them. *)
Lemma new_ok c kw w :
  forallb (fun '(k, _) => accepts_keyword c k) kw = true ->
  is_Some (lookup_kw "statement_account" kw) ->
  exists a o,
    bind_fields (fields c) kw = Ok a /\ finished c a (fresh_id w) = Ok o
    /\ new c kw w = Ok (length (heap w), registered o w).
Proof.
  intros Hacc Hsa. rewrite new_unfold, Hacc.
  destruct (bind_fields_class c kw Hsa) as [a Ha]. rewrite Ha. simpl.
  assert (exists o, finished c a (fresh_id w) = Ok o) as [o Ho].
  { unfold finished.
    destruct (issubclass c CardPaymentDebit) eqn:E; simpl; [|eauto].
    unfold get_card_owner, getattr. simpl attrs.
    rewrite (bind_fields_lookup _ _ _ "card_identifier" Ha).
    destruct c; try discriminate E; simpl; eauto. }
  rewrite Ho. simpl. eauto.
Qed.

(** ** The csv path *)

Lemma apply_rule_skip key types negative t description currency ds dc amount fee self w :
  existsb (str_eqb (lower t)) types && Bool.eqb negative (flt amount (float_of_Z 0)) = false ->
  StatementAccount.apply_rule key types negative (Some t) description currency ds dc
    amount fee self w = Ok (self, w).
Proof.
  intros H. unfold StatementAccount.apply_rule. rewrite mbind_lift.
  destruct (existsb (str_eqb (lower t)) types); [|reflexivity].
  destruct (Bool.eqb negative (flt amount (float_of_Z 0))); [discriminate|reflexivity].
Qed.

Lemma rules_loop_all_skip rules t description currency ds dc amount fee self w :
  Forall (fun '(_, (types, negative)) =>
            existsb (str_eqb (lower t)) types
            && Bool.eqb negative (flt amount (float_of_Z 0)) = false) rules ->
  StatementAccount.rules_loop rules (Some t) description currency ds dc amount fee self w
  = Ok (self, w).
Proof.
  induction 1 as [|[key [types negative]] rules Hr _ IH]; simpl; [reflexivity|].
  rewrite (mbind_ok _ _ _ _ _ (apply_rule_skip _ _ _ _ _ _ _ _ _ _ _ _ Hr)). exact IH.
Qed.

(** When one rule only fits the row, the loop does what that rule does. *)
Lemma rules_loop_one_hit rules k key types negative t description currency ds dc
    amount fee self w :
  rules !! k = Some (key, (types, negative)) ->
  Forall (fun '(_, (types, negative)) =>
            existsb (str_eqb (lower t)) types
            && Bool.eqb negative (flt amount (float_of_Z 0)) = false)
         (take k rules ++ drop (S k) rules) ->
  StatementAccount.rules_loop rules (Some t) description currency ds dc amount fee self w
  = StatementAccount.apply_rule key types negative (Some t) description currency ds dc
      amount fee self w.
Proof.
  revert k. induction rules as [|[key' [types' negative']] rules IH]; intros k Hk Hskip.
  - destruct k; discriminate.
  - destruct k as [|k]; simpl in Hk, Hskip.
    + injection Hk as -> -> ->. rewrite drop_0 in Hskip. simpl.
      unfold mbind.
      destruct (StatementAccount.apply_rule _ _ _ _ _ _ _ _ _ _ _ _) as [[self' w']|e];
        [|reflexivity].
      apply rules_loop_all_skip, Hskip.
    + apply Forall_cons in Hskip as [Hr Hskip]. simpl.
      rewrite (mbind_ok _ _ _ _ _ (apply_rule_skip _ _ _ _ _ _ _ _ _ _ _ _ Hr)).
      apply (IH k); assumption.
Qed.

(** What a rule that fits the row does: the primary transaction, and
    the fee transaction when the fee is positive. *)
Lemma apply_rule_hit key types negative t description currency ds dc amount fee self w :
  In key [OutgoingPayment; IncomingPayment; CardPaymentDebit; CardPaymentIncoming;
          BankPayedService; CardAtmCashOut] ->
  existsb (str_eqb (lower t)) types = true ->
  Bool.eqb negative (flt amount (float_of_Z 0)) = true ->
  exists primary,
    cls primary = key /\ getattr primary "amount" = Ok (VFloat amount)
    /\ getattr primary "parent_statement" = Ok (VStr (file_path self))
    /\ let n := length (heap w) in
       if flt (float_of_Z 0) fee then
         exists fee_tx,
           StatementAccount.apply_rule key types negative (Some t) description currency
             ds dc amount fee self w
           = Ok (StatementAccount.set_all_transactions (all_transactions self ++ [n; S n]) self,
                 registered fee_tx (registered primary w))
           /\ cls fee_tx = BankPayedService
           /\ getattr fee_tx "amount" = Ok (VFloat (fmul fee (float_of_Z (- 1))))
           /\ getattr fee_tx "service_type" = Ok (VStr (u "transaction fee"))
       else
         StatementAccount.apply_rule key types negative (Some t) description currency
           ds dc amount fee self w
         = Ok (StatementAccount.set_all_transactions (all_transactions self ++ [n]) self,
               registered primary w).
Proof.
  intros Hkey Ht Hs. unfold StatementAccount.apply_rule. rewrite mbind_lift, Ht, Hs.
  assert (Hfee : forall w1 self1,
    account_number self1 = account_number self -> file_path self1 = file_path self ->
    year self1 = year self ->
    exists fee_tx,
      new BankPayedService
        [ ("statement_account", str_or_none (account_number self1));
          ("parent_statement", VStr (file_path self1));
          ("account_from", str_or_none (account_number self1));
          ("year", str_or_none (year self1));
          ("amount", VFloat (fmul fee (float_of_Z (- 1))));
          ("date_booked", VStr dc);
          ("currency", str_or_none currency);
          ("all_transaction_lines_text", str_or_none description);
          ("service_type", VStr (u "transaction fee")) ] w1
      = Ok (length (heap w1), registered fee_tx w1)
      /\ cls fee_tx = BankPayedService
      /\ getattr fee_tx "amount" = Ok (VFloat (fmul fee (float_of_Z (- 1))))
      /\ getattr fee_tx "service_type" = Ok (VStr (u "transaction fee"))).
  { intros w1 self1 _ _ _.
    edestruct (new_ok BankPayedService) as (a & o & Ha & Ho & Hnew);
      [| |exists o; split; [exact Hnew|]].
    - reflexivity.
    - simpl. eauto.
    - split; [exact (finished_cls _ _ _ _ Ho)|].
      unfold getattr.
      rewrite !(finished_lookup _ _ _ _ _ Ho) by discriminate.
      rewrite !(bind_fields_lookup _ _ _ _ Ha). split; reflexivity. }
  simpl in Hkey.
  destruct Hkey as [<-|[<-|[<-|[<-|[<-|[<-|[]]]]]]].
  all: match goal with
       | |- context [mbind (new ?c ?kw) _ _] =>
         destruct (new_ok c kw w) as (a & o & Ha & Ho & Hnew);
           [reflexivity | simpl; eauto |]
       end.
  all: exists o; split; [exact (finished_cls _ _ _ _ Ho)|].
  all: split; [unfold getattr; rewrite (finished_lookup _ _ _ _ _ Ho) by discriminate;
               rewrite (bind_fields_lookup _ _ _ _ Ha); reflexivity|].
  all: split; [unfold getattr; rewrite (finished_lookup _ _ _ _ _ Ho) by discriminate;
               rewrite (bind_fields_lookup _ _ _ _ Ha); reflexivity|].
  all: cbv zeta; rewrite (mbind_ok _ _ _ _ _ Hnew).
  all: destruct (flt (float_of_Z 0) fee); [|reflexivity].
  all: match goal with
       | |- context [mbind (new BankPayedService _) _ (registered ?o1 ?w0)] =>
         destruct (Hfee (registered o1 w0)
                     (StatementAccount.set_all_transactions
                        (all_transactions self ++ [length (heap w0)]) self)
                     eq_refl eq_refl eq_refl) as (fee_tx & Hnew2 & H1 & H2 & H3)
       end.
  all: exists fee_tx; split; [|auto].
  all: simpl in Hnew2; rewrite (mbind_ok _ _ _ _ _ Hnew2).
  all: unfold ret, StatementAccount.set_all_transactions; simpl.
  all: rewrite length_app, <- app_assoc; simpl.
  all: repeat f_equal; lia.
Qed.

Lemma existsb_str_eqb_In (t : pystr) (types : list pystr) :
  In t types -> existsb (str_eqb t) types = true.
Proof.
  intros H. apply existsb_exists. exists t. split; [exact H|].
  unfold str_eqb. apply bool_decide_eq_true. reflexivity.
Qed.

(** C7: a row whose state is not "completed", whatever the case of its
    letters, is skipped: when the row is processed without an error the
    statement and the shared state (the global registry with it) are
    what they were, no transaction is created, and the row is processed
    without an error as soon as its dates, amount and fee are read. *)
Theorem csv_row_not_completed_is_skipped
    (row : csv_row) (self : StatementAccount) (w : World) :
  (forall s, row_get "State" row = Some s -> lower s <> u "completed") ->
  match StatementAccount.process_row row self w with
  | Ok (self', w') => self' = self /\ w' = w
  | Raise _ => True
  end
  /\ (forall ds dc a f s,
        StatementAccount.date_or_missing (row_get "Started Date" row) = Ok ds ->
        StatementAccount.date_or_missing (row_get "Completed Date" row) = Ok dc ->
        StatementAccount.float_of (row_get "Amount" row) = Ok a ->
        StatementAccount.float_of (row_get "Fee" row) = Ok f ->
        row_get "State" row = Some s ->
        StatementAccount.process_row row self w = Ok (self, w)).
Proof.
  intros Hstate.
  assert (Hvalid : forall b,
    StatementAccount.is_transaction_valid (row_get "State" row) = Ok b -> b = false).
  { unfold StatementAccount.is_transaction_valid. intros b.
    destruct (row_get "State" row) as [s|] eqn:E; [|discriminate].
    intros [= <-]. unfold str_eqb. apply bool_decide_eq_false. auto. }
  split.
  - unfold StatementAccount.process_row. rewrite !mbind_lift.
    destruct (StatementAccount.date_or_missing _); [|exact I].
    rewrite !mbind_lift.
    destruct (StatementAccount.date_or_missing _); [|exact I].
    rewrite !mbind_lift.
    destruct (StatementAccount.float_of _); [|exact I].
    rewrite !mbind_lift.
    destruct (StatementAccount.float_of _); [|exact I].
    rewrite !mbind_lift.
    destruct (StatementAccount.is_transaction_valid _) as [b|] eqn:E; [|exact I].
    rewrite (Hvalid b eq_refl). simpl. auto.
  - intros ds dc a f s H1 H2 H3 H4 H5.
    unfold StatementAccount.process_row.
    rewrite !mbind_lift, H1, !mbind_lift, H2, !mbind_lift, H3, !mbind_lift, H4, !mbind_lift.
    destruct (StatementAccount.is_transaction_valid _) as [b|] eqn:E.
    + rewrite (Hvalid b eq_refl). reflexivity.
    + unfold StatementAccount.is_transaction_valid in E. rewrite H5 in E. discriminate.
Qed.

Lemma csv_row_not_completed_is_skipped_witness :
  (forall s, row_get "State" sample_reverted_row = Some s -> lower s <> u "completed")
  /\ StatementAccount.process_row sample_reverted_row sample_csv_statement empty_World
     = Ok (sample_csv_statement, empty_World).
Proof.
  assert (H : forall s, row_get "State" sample_reverted_row = Some s ->
                        lower s <> u "completed").
  { intros s [= <-]. vm_compute. discriminate. }
  split; [exact H|].
  destruct (csv_row_not_completed_is_skipped sample_reverted_row sample_csv_statement
              empty_World H) as [_ Hok].
  eapply Hok; vm_compute; reflexivity.
Defined.

(** C8, as the code has it: a completed row that fits a rule of the
    table produces the primary transaction of the rule, with the amount
    of the row, and, when its fee is greater than zero, one more
    transaction after it: a BankPayedService whose amount is the fee
    times -1 and whose service type is "transaction fee".  Both are
    appended to the list of the statement and to the global registry.
    A fee that is not greater than zero adds nothing. *)
Theorem csv_row_fee_transaction
    (row : csv_row) (self : StatementAccount) (w : World)
    (t ds dc state : pystr) (amount fee : float)
    (key : Class) (types : list pystr) (negative : bool) :
  row_get "Type" row = Some t ->
  StatementAccount.date_or_missing (row_get "Started Date" row) = Ok ds ->
  StatementAccount.date_or_missing (row_get "Completed Date" row) = Ok dc ->
  StatementAccount.float_of (row_get "Amount" row) = Ok amount ->
  StatementAccount.float_of (row_get "Fee" row) = Ok fee ->
  row_get "State" row = Some state ->
  lower state = u "completed" ->
  In (key, (types, negative)) StatementAccount.revolut_rules ->
  In (lower t) types ->
  negative = flt amount (float_of_Z 0) ->
  exists primary,
    cls primary = key /\ getattr primary "amount" = Ok (VFloat amount)
    /\ let n := length (heap w) in
       if flt (float_of_Z 0) fee then
         exists fee_tx w',
           StatementAccount.process_row row self w
           = Ok (StatementAccount.set_all_transactions
                   (all_transactions self ++ [n; S n]) self, w')
           /\ heap w' = heap w ++ [primary; fee_tx]
           /\ all w' Transaction = all w Transaction ++ [n; S n]
           /\ cls fee_tx = BankPayedService
           /\ getattr fee_tx "amount" = Ok (VFloat (fmul fee (float_of_Z (- 1))))
           /\ getattr fee_tx "service_type" = Ok (VStr (u "transaction fee"))
       else
         exists w',
           StatementAccount.process_row row self w
           = Ok (StatementAccount.set_all_transactions (all_transactions self ++ [n]) self, w')
           /\ heap w' = heap w ++ [primary]
           /\ all w' Transaction = all w Transaction ++ [n].
Proof.
  intros Htype Hds Hdc Hamount Hfee Hstate Hcompleted Hrule Htypes Hneg.
  assert (Hloop :
    StatementAccount.process_row row self w
    = StatementAccount.apply_rule key types negative (Some t)
        (row_get "Description" row) (row_get "Currency" row) ds dc amount fee self w).
  { unfold StatementAccount.process_row.
    rewrite !mbind_lift, Hds, !mbind_lift, Hdc, !mbind_lift, Hamount, !mbind_lift, Hfee,
      !mbind_lift.
    unfold StatementAccount.is_transaction_valid. rewrite Hstate, Hcompleted.
    change (str_eqb (u "completed") (u "completed")) with true. cbv iota. simpl negb.
    cbv iota. rewrite Htype.
    simpl in Hrule.
    destruct Hrule as [H|[H|[H|[H|[H|[H|[]]]]]]]; injection H as <- <- <-;
      simpl in Htypes;
      repeat (destruct Htypes as [Htypes|Htypes]; [|]); try contradiction.
    all: match goal with
         | |- _ = StatementAccount.apply_rule ?k _ _ _ _ _ _ _ _ _ _ _ =>
           first [ apply (rules_loop_one_hit _ 0%nat k); [reflexivity|]
                 | apply (rules_loop_one_hit _ 1%nat k); [reflexivity|]
                 | apply (rules_loop_one_hit _ 2%nat k); [reflexivity|]
                 | apply (rules_loop_one_hit _ 3%nat k); [reflexivity|]
                 | apply (rules_loop_one_hit _ 4%nat k); [reflexivity|]
                 | apply (rules_loop_one_hit _ 5%nat k); [reflexivity|] ]
         end.
    all: rewrite <- Htypes, <- Hneg; simpl take; simpl drop; simpl app.
    all: repeat (constructor; [vm_compute; reflexivity|]); constructor. }
  rewrite Hloop.
  destruct (apply_rule_hit key types negative t (row_get "Description" row)
              (row_get "Currency" row) ds dc amount fee self w)
    as (primary & Hcls & Ham & _ & Hres).
  - simpl in Hrule.
    destruct Hrule as [H|[H|[H|[H|[H|[H|[]]]]]]]; injection H as <- _ _; simpl; tauto.
  - apply existsb_str_eqb_In, Htypes.
  - rewrite Hneg. apply Bool.eqb_reflx.
  - exists primary. split; [exact Hcls|]. split; [exact Ham|].
    cbv zeta in Hres |- *.
    destruct (flt (float_of_Z 0) fee).
    + destruct Hres as (fee_tx & Heq & H1 & H2 & H3).
      exists fee_tx, (registered fee_tx (registered primary w)).
      split; [exact Heq|].
      rewrite !registered_heap, !registered_all_Transaction, registered_heap, length_app,
        <- !app_assoc.
      simpl. replace (length (heap w) + 1)%nat with (S (length (heap w))) by lia. auto.
    + exists (registered primary w).
      rewrite registered_heap, registered_all_Transaction. auto.
Qed.

Lemma csv_row_fee_transaction_witness :
  let amount := S754_finite true 8444249301319680 (-46) in
  let fee := S754_finite false 6755399441055744 (-52) in
  (row_get "Type" sample_fee_row = Some (u "card_payment")
   /\ StatementAccount.date_or_missing (row_get "Started Date" sample_fee_row)
      = Ok (u "ERROR - MISSING DATE")
   /\ StatementAccount.date_or_missing (row_get "Completed Date" sample_fee_row)
      = Ok (u "ERROR - MISSING DATE")
   /\ StatementAccount.float_of (row_get "Amount" sample_fee_row) = Ok amount
   /\ StatementAccount.float_of (row_get "Fee" sample_fee_row) = Ok fee
   /\ row_get "State" sample_fee_row = Some (u "Completed")
   /\ lower (u "Completed") = u "completed"
   /\ In (CardPaymentDebit, ([u "card_payment"], true)) StatementAccount.revolut_rules
   /\ In (lower (u "card_payment")) [u "card_payment"]
   /\ true = flt amount (float_of_Z 0))
  /\ exists primary fee_tx w',
       StatementAccount.process_row sample_fee_row sample_csv_statement empty_World
       = Ok (StatementAccount.set_all_transactions [0; 1]%nat sample_csv_statement, w')
       /\ heap w' = [primary; fee_tx]
       /\ all w' Transaction = [0; 1]%nat
       /\ cls primary = CardPaymentDebit
       /\ getattr primary "amount" = Ok (VFloat amount)
       /\ cls fee_tx = BankPayedService
       /\ getattr fee_tx "amount" = Ok (VFloat (S754_finite true 6755399441055744 (-52)))
       /\ getattr fee_tx "service_type" = Ok (VStr (u "transaction fee")).
Proof.
  intros amount fee.
  assert (H1 : row_get "Type" sample_fee_row = Some (u "card_payment")) by reflexivity.
  assert (H2 : StatementAccount.date_or_missing (row_get "Started Date" sample_fee_row)
               = Ok (u "ERROR - MISSING DATE")) by reflexivity.
  assert (H3 : StatementAccount.date_or_missing (row_get "Completed Date" sample_fee_row)
               = Ok (u "ERROR - MISSING DATE")) by reflexivity.
  assert (H4 : StatementAccount.float_of (row_get "Amount" sample_fee_row) = Ok amount)
    by (vm_compute; reflexivity).
  assert (H5 : StatementAccount.float_of (row_get "Fee" sample_fee_row) = Ok fee)
    by (vm_compute; reflexivity).
  assert (H6 : row_get "State" sample_fee_row = Some (u "Completed")) by reflexivity.
  assert (H7 : lower (u "Completed") = u "completed") by (vm_compute; reflexivity).
  assert (H8 : In (CardPaymentDebit, ([u "card_payment"], true))
                  StatementAccount.revolut_rules)
    by (right; right; left; reflexivity).
  assert (H9 : In (lower (u "card_payment")) [u "card_payment"])
    by (left; vm_compute; reflexivity).
  assert (H10 : true = flt amount (float_of_Z 0)) by reflexivity.
  split; [repeat split; assumption|].
  destruct (csv_row_fee_transaction sample_fee_row sample_csv_statement empty_World
              _ _ _ _ _ _ _ _ _ H1 H2 H3 H4 H5 H6 H7 H8 H9 H10)
    as (primary & Hc & Ha & Hres).
  cbv zeta in Hres.
  change (flt (float_of_Z 0) fee) with true in Hres. cbv iota in Hres.
  destruct Hres as (fee_tx & w' & Heq & Hh & Hall & Hf1 & Hf2 & Hf3).
  exists primary, fee_tx, w'. repeat split; assumption.
Defined.

(** The row of the specification, evaluated: two transactions, a
    CardPaymentDebit of -120.00 and a BankPayedService of -1.50 with the
    service type "transaction fee". *)
Example csv_row_fee_example :
  exists primary fee_tx w' amount fee_amount,
    StatementAccount.process_row sample_fee_row sample_csv_statement empty_World
    = Ok (StatementAccount.set_all_transactions [0; 1]%nat sample_csv_statement, w')
    /\ heap w' = [primary; fee_tx] /\ all w' Transaction = [0; 1]%nat
    /\ cls primary = CardPaymentDebit
    /\ getattr primary "amount" = Ok (VFloat amount)
    /\ float_of_str (u "-120.00") = Ok amount
    /\ cls fee_tx = BankPayedService
    /\ getattr fee_tx "amount" = Ok (VFloat fee_amount)
    /\ float_of_str (u "-1.50") = Ok fee_amount
    /\ getattr fee_tx "service_type" = Ok (VStr (u "transaction fee")).
Proof.
  destruct (StatementAccount.process_row sample_fee_row sample_csv_statement empty_World)
    as [[s w']|e] eqn:E; [|vm_compute in E; discriminate].
  vm_compute in E. injection E as <- <-.
  do 5 eexists. repeat split; vm_compute; reflexivity.
Qed.

(** C8 as stated fails: a fee of -1.50 is not zero, the row produces its
    primary transaction, and no fee transaction is synthesized. *)
Lemma csv_row_negative_fee_counterexample :
  exists fee s w,
    StatementAccount.float_of (row_get "Fee" sample_negative_fee_row) = Ok fee
    /\ feq fee (float_of_Z 0) = false
    /\ StatementAccount.process_row sample_negative_fee_row sample_csv_statement empty_World
       = Ok (s, w)
    /\ all_transactions s = [0%nat]
    /\ length (heap w) = 1%nat
    /\ all w Transaction = [0%nat]
    /\ all w BankPayedService = [].
Proof.
  destruct (StatementAccount.process_row sample_negative_fee_row sample_csv_statement
              empty_World) as [[s w]|e] eqn:E; [|vm_compute in E; discriminate].
  vm_compute in E. injection E as <- <-.
  do 3 eexists. repeat split; vm_compute; reflexivity.
Qed.

(** ** Reconciliation *)

Lemma statement_wf_amounts w s :
  statement_wf w s -> exists xs, main.amounts w s = Ok xs.
Proof.
  unfold statement_wf, main.amounts.
  induction 1 as [|r l (t & a & x & Ht & Ha & Hx) _ [xs IH]]; simpl.
  - eexists; reflexivity.
  - rewrite Ht, Ha. simpl. rewrite Hx. simpl. rewrite IH. simpl. eexists; reflexivity.
Qed.

Lemma validate_one_report w s out :
  statement_wf w s -> is_Some (start_balance s) -> is_Some (end_balance s) ->
  main.validate_one w s out = Ok (out ++ statement_report w s).
Proof.
  intros Hwf [b Hb] [e He]. destruct (statement_wf_amounts w s Hwf) as [xs Hxs].
  unfold main.validate_one, statement_report, main.balance_delta, reconciliation_report.
  rewrite Hb, He, Hxs. simpl.
  destruct (fne (round2 (fsub e b)) (round2 (sum xs))); simpl.
  - rewrite <- app_assoc. reflexivity.
  - reflexivity.
Qed.

Lemma validate_loop_report w l out :
  Forall (fun s => statement_wf w s /\ is_Some (start_balance s) /\ is_Some (end_balance s)) l ->
  main.validate_loop w l out = Ok (out ++ flat_map (statement_report w) l).
Proof.
  intros H. revert out.
  induction H as [|s l (Hwf & Hb & He) _ IH]; intros out; simpl.
  - rewrite app_nil_r. reflexivity.
  - rewrite (validate_one_report w s out Hwf Hb He). simpl.
    rewrite IH, <- app_assoc. reflexivity.
Qed.

(** C6, as the code has it: when the opening and the closing balance of
    every statement are present, the check ends without an exception
    and leaves the registries as they were; for each statement it
    prints the path, and it prints the warning exactly when the balance
    delta and the sum of the amounts differ once rounded to two
    decimals; the warning carries the delta minus the sum, rounded to
    two decimals. *)
Theorem reconciliation_warns_iff_mismatch (p : main.Program) :
  Forall (fun s => statement_wf (main.world p) s
                   /\ is_Some (start_balance s) /\ is_Some (end_balance s))
         (main.StatementAccount_all p) ->
  main.validate_all_transactions_extracted p
  = Ok (main.mk_Program (main.world p) (main.StatementAccount_all p)
          (main.stdout p
           ++ flat_map (statement_report (main.world p)) (main.StatementAccount_all p))).
Proof.
  intros H. unfold main.validate_all_transactions_extracted.
  rewrite (validate_loop_report _ _ _ H). reflexivity.
Qed.

(** The example of the specification: opening 1000.00 and closing
    1500.00; the sum 480.00 gives the warning with 20.00, the sum 500.00
    gives none. *)
Lemma reconciliation_warns_iff_mismatch_witness :
  Forall (fun s => statement_wf (main.world sample_reconciliation_program) s
                   /\ is_Some (start_balance s) /\ is_Some (end_balance s))
         (main.StatementAccount_all sample_reconciliation_program)
  /\ main.validate_all_transactions_extracted sample_reconciliation_program
     = Ok (main.mk_Program (main.world sample_reconciliation_program)
             (main.StatementAccount_all sample_reconciliation_program)
             [ main.Printed (u "a.pdf"); main.Warning (float_of_Z 20);
               main.Printed (u "b.pdf") ]).
Proof.
  assert (H : Forall (fun s => statement_wf (main.world sample_reconciliation_program) s
                               /\ is_Some (start_balance s) /\ is_Some (end_balance s))
                     (main.StatementAccount_all sample_reconciliation_program)).
  { repeat constructor; simpl; eauto;
      do 3 eexists; (split; [|split]); vm_compute; reflexivity. }
  split; [exact H|].
  rewrite (reconciliation_warns_iff_mismatch _ H). vm_compute. reflexivity.
Defined.

(** C6 as stated fails: a csv file without rows gives a statement
    without balances, and the check raises on it. *)
Lemma reconciliation_without_balances_counterexample :
  exists p,
    main.load_csvs [(u "revolut/czk_2301.csv", [])] (main.mk_Program empty_World [] [])
    = Ok p
    /\ main.validate_all_transactions_extracted p = Raise TypeError.
Proof.
  eexists. split; [vm_compute; reflexivity|]. vm_compute. reflexivity.
Qed.

(** ** The extraction rules *)

#[local] Arguments u : simpl never.
#[local] Arguments str_in : simpl never.
#[local] Arguments getitem : simpl never.

Lemma getitem_out_of_range {A} (l : list A) (j : Z) :
  Z.of_nat (length l) <= j -> getitem l j = Raise IndexError.
Proof.
  intros H. unfold getitem.
  destruct (j <? 0) eqn:E; [lia|].
  destruct (0 <=? j) eqn:E1; simpl; [|reflexivity].
  destruct (j <? Z.of_nat (length l)) eqn:E2; [lia|reflexivity].
Qed.

Lemma getitem_lookup {A} (l : list A) (j : Z) (x : A) :
  0 <= j -> getitem l j = Ok x -> l !! Z.to_nat j = Some x.
Proof.
  intros Hj. unfold getitem.
  destruct (j <? 0) eqn:E; [lia|].
  destruct ((0 <=? j) && (j <? Z.of_nat (length l))); [|discriminate].
  destruct (l !! Z.to_nat j) as [y|] eqn:En; [|discriminate].
  intros [= <-]. reflexivity.
Qed.

Lemma getitem_line_at (page : list pystr) (i k : nat) (x : pystr) :
  getitem page (Z.of_nat i + Z.of_nat k) = Ok x -> line_at page i k = x.
Proof.
  intros H. apply getitem_lookup in H; [|lia].
  replace (Z.to_nat (Z.of_nat i + Z.of_nat k)) with (i + k)%nat in H by lia.
  unfold line_at. exact (f_equal (default []) H).
Qed.

Lemma getitem_last {A} (l : list A) (x : A) : getitem (l ++ [x]) (- 1) = Ok x.
Proof.
  unfold getitem. change (- 1 <? 0) with true. cbv iota.
  rewrite length_app. simpl length.
  replace (-1 + Z.of_nat (length l + 1)) with (Z.of_nat (length l)) by lia.
  rewrite (proj2 (Z.leb_le 0 _)), (proj2 (Z.ltb_lt _ _)) by lia.
  simpl. rewrite Nat2Z.id, list_lookup_middle by reflexivity. reflexivity.
Qed.

(** One step of an extraction: the first read of the chain fails, or
    the chain goes on. *)
Ltac chain_step :=
  match goal with
  | |- is_raise (Raise _) => exact I
  | |- is_raise (rbind (getitem ?l ?j) _) =>
    rewrite (getitem_out_of_range l j) by (simpl; lia); exact I
  | |- is_raise (rbind ?r _) =>
    let E := fresh "E" in
    destruct r eqn:E; [unfold rbind at 1; cbv beta iota zeta|exact I]
  end.

Ltac chain_raises := cbv zeta; repeat chain_step.

Lemma is_our_bank_atm_inv (i : nat) (page : list pystr) (b : bool) :
  CardAtmCashOut.is_our_bank_atm i page = Ok b ->
  b = negb (str_in (u "jiné banky v ČR") (line_at page i 1)).
Proof.
  unfold CardAtmCashOut.is_our_bank_atm. cbv zeta.
  destruct (getitem page (Z.of_nat i + 1)) as [l1|e] eqn:E; [|discriminate].
  rewrite (getitem_line_at page i 1 l1 E). unfold rbind.
  destruct (str_in (u "jiné banky v ČR") l1); intros [= <-]; reflexivity.
Qed.

Lemma is_our_bank_atm_past_end (i : nat) (page : list pystr) :
  (length page <= i + 1)%nat -> is_raise (CardAtmCashOut.is_our_bank_atm i page).
Proof.
  intros H. unfold CardAtmCashOut.is_our_bank_atm. chain_raises.
Qed.

Lemma subtype_loop_past_end (value : list pystr) (page : list pystr) (j : Z) (s : pystr) :
  value <> [] -> Z.of_nat (length page) <= j ->
  is_raise (BankPayedService.subtype_loop value page j s).
Proof.
  destruct value as [|v value]; [congruence|]. intros _ H.
  cbn [BankPayedService.subtype_loop].
  rewrite (getitem_out_of_range page j H). exact I.
Qed.

Lemma get_cs_bank_service_type_past_end (i k : nat) (page : list pystr) :
  In k (if str_in (u "Cena za výběr hotovosti z bankomatu") (line_at page i 1)
        then [1; 2]%nat
        else if str_in (u "Cena za vedení účtu") (line_at page i 1) then [1]%nat
        else if str_in (u "Poplatek") (line_at page i 1) then [1; 2]%nat
        else [1]%nat) ->
  (length page <= i + k)%nat ->
  is_raise (BankPayedService.get_cs_bank_service_type i page).
Proof.
  intros Hk Hlen.
  unfold BankPayedService.get_cs_bank_service_type, BankPayedService.cs_service_types.
  destruct (getitem page (Z.of_nat i + 1)) as [l1|e] eqn:E.
  2:{ cbn [BankPayedService.cs_service_type_loop]. rewrite E. exact I. }
  rewrite (getitem_line_at page i 1 l1 E) in Hk.
  assert (Hin : (i + 1 < length page)%nat).
  { apply getitem_lookup in E; [|lia]. apply lookup_lt_Some in E. lia. }
  cbn [BankPayedService.cs_service_type_loop]. rewrite E. unfold rbind at 1.
  destruct (str_in (u "Cena za výběr hotovosti z bankomatu") l1).
  { destruct Hk as [<-|[<-|[]]]; [lia|]. apply subtype_loop_past_end; [discriminate|lia]. }
  unfold rbind at 1.
  destruct (str_in (u "Cena za vedení účtu") l1).
  { destruct Hk as [<-|[]]. lia. }
  unfold rbind at 1.
  destruct (str_in (u "Poplatek") l1).
  { destruct Hk as [<-|[<-|[]]]; [lia|]. apply subtype_loop_past_end; [discriminate|lia]. }
  destruct Hk as [<-|[]]. lia.
Qed.

(** When a fixed offset of the rule is past the end of the page, the
    rule raises. *)
Lemma create_rule_offset_past_end (c : Class) (bank year account : value) (i k : nat)
    (page : list pystr) (w : World) :
  In k (fixed_offsets c bank i page) ->
  (length page <= i + k)%nat ->
  is_raise (create_rule c bank year account i page w).
Proof.
  unfold fixed_offsets. intros Hk Hlen.
  destruct (is_str bank "cs") eqn:Ecs; [|destruct (is_str bank "csob") eqn:Ecsob].
  - destruct c; try contradiction;
      unfold create_rule, IncomingPayment.create, OutgoingPayment.create,
        CardPaymentDebit.create, CardPaymentIncoming.create, CardAtmCashOut.create,
        CardAtmDeposit.create, BankPayedService.create;
      rewrite Ecs; apply is_raise_mbind, is_raise_lift.
    + (* IncomingPayment *)
      simpl in Hk. destruct Hk as [<-|[]]. chain_raises.
    + (* OutgoingPayment *)
      cbv zeta. do 2 chain_step.
      destruct (getitem page (Z.of_nat i + 1)) as [l1|e] eqn:E1; [|exact I].
      rewrite (getitem_line_at page i 1 l1 E1) in Hk.
      unfold rbind at 1. cbv beta iota.
      destruct (str_in (u "okamžitá") l1); simpl in Hk;
        destruct Hk as [<-|[<-|[]]]; solve [chain_raises | apply getitem_lookup in E1; [apply lookup_lt_Some in E1; lia | lia]].
    + (* CardPaymentDebit *)
      simpl in Hk. destruct Hk as [<-|[<-|[<-|[<-|[<-|[]]]]]]; chain_raises.
    + (* CardPaymentIncoming *)
      simpl in Hk. destruct Hk as [<-|[<-|[<-|[<-|[<-|[]]]]]]; chain_raises.
    + (* CardAtmCashOut *)
      cbv zeta. do 2 chain_step.
      destruct (CardAtmCashOut.is_our_bank_atm i page) as [b|e] eqn:Eb; [|exact I].
      rewrite (is_our_bank_atm_inv i page b Eb). unfold rbind at 1. cbv beta iota.
      destruct (str_in (u "jiné banky v ČR") (line_at page i 1)); simpl in Hk |- *.
      * destruct Hk as [<-|[<-|[<-|[<-|[<-|[<-|[]]]]]]]; chain_raises.
      * destruct Hk as [<-|[<-|[<-|[<-|[<-|[]]]]]]; chain_raises.
    + (* CardAtmDeposit *)
      simpl in Hk. destruct Hk as [<-|[<-|[]]]; chain_raises.
    + (* BankPayedService *)
      cbv zeta. do 4 chain_step.
      pose proof (get_cs_bank_service_type_past_end i k page Hk Hlen) as Hr.
      destruct (BankPayedService.get_cs_bank_service_type i page); [destruct Hr|exact I].
  - destruct c; try contradiction;
      unfold create_rule, CardPaymentDebit.create, CardPaymentIncoming.create,
        InterestPositive.create;
      rewrite Ecs, Ecsob; apply is_raise_mbind, is_raise_lift.
    + simpl in Hk. destruct Hk as [<-|[<-|[<-|[<-|[<-|[<-|[]]]]]]]; chain_raises.
    + simpl in Hk. destruct Hk as [<-|[<-|[<-|[<-|[<-|[<-|[<-|[]]]]]]]]; chain_raises.
    + simpl in Hk. destruct Hk as [<-|[]]. chain_raises.
  - contradiction.
Qed.

(** The shape every rule has: the fields are read from the page, then
    the class is called. *)
Lemma create_shape_inv (C : Class) (chain : result kwargs) (w w1 : World)
    (res : option ref) :
  (let! kw := lift chain in let! r := new C kw in ret (Some r)) w = Ok (res, w1) ->
  exists kw a o,
    chain = Ok kw /\ bind_fields (fields C) kw = Ok a
    /\ finished C a (fresh_id w) = Ok o
    /\ res = Some (length (heap w)) /\ w1 = registered o w.
Proof.
  rewrite mbind_lift. destruct chain as [kw|e]; [|discriminate].
  intros H. apply mbind_inv in H as (r & w0 & Hnew & Hret).
  injection Hret as <- <-.
  apply new_inv in Hnew as (a & o & Ha & Ho & -> & ->).
  exists kw, a, o. auto.
Qed.

Ltac unfold_create :=
  unfold create_rule, IncomingPayment.create, OutgoingPayment.create,
    OutgoingPaymentPeriodic.create, CardPaymentDebit.create, CardPaymentIncoming.create,
    CardAtmCashOut.create, CardAtmDeposit.create, BankPayedService.create,
    InterestPositive.create, TaxInterest.create, ElectronicBankingTransfer.create,
    DirectDebit.create.

Ltac unfold_create_in H :=
  unfold create_rule, IncomingPayment.create, OutgoingPayment.create,
    OutgoingPaymentPeriodic.create, CardPaymentDebit.create, CardPaymentIncoming.create,
    CardAtmCashOut.create, CardAtmDeposit.create, BankPayedService.create,
    InterestPositive.create, TaxInterest.create, ElectronicBankingTransfer.create,
    DirectDebit.create in H.

(** A rule that returns a transaction has created it: the instance is
    the newest object of the store and is registered. *)
Lemma create_rule_inv (c : Class) (bank year account : value) (i : nat)
    (page : list pystr) (w w1 : World) (r : ref) :
  create_rule c bank year account i page w = Ok (Some r, w1) ->
  exists o, r = length (heap w) /\ w1 = registered o w.
Proof.
  intros H.
  assert (Hshape : exists C chain,
    (let! kw := lift chain in let! r := new C kw in ret (Some r)) w = Ok (Some r, w1)).
  { destruct c; revert H; unfold_create;
      repeat match goal with
             | |- (if ?b then _ else _) w = _ -> _ => destruct b
             end;
      intros H; first [discriminate H | do 2 eexists; exact H]. }
  destruct Hshape as (C & chain & Hs).
  apply create_shape_inv in Hs as (kw & a & o & _ & _ & _ & Hr & ->).
  injection Hr as ->. exists o. auto.
Qed.

(** ** The segmentation engine *)

Lemma is_str_inv (v : value) (s : string) : is_str v s = true -> v = VStr (u s).
Proof.
  unfold is_str. destruct v; simpl; try discriminate.
  unfold str_eqb. intros H. apply bool_decide_eq_true in H. congruence.
Qed.

(** For the two banks the markers are written for, the test of a class
    is the search of its markers in the line. *)
Lemma any_identifier_in_marker (c : Class) (bank : value) (line : pystr) :
  bank = VStr (u "cs") \/ bank = VStr (u "csob") ->
  c <> Transaction ->
  StatementAccount.any_identifier_in (text_identifiers_of c) bank line
  = Ok (marker_in c bank line).
Proof.
  intros Hbank Hc. unfold StatementAccount.any_identifier_in, marker_in.
  destruct Hbank as [-> | ->]; destruct c; try congruence; reflexivity.
Qed.

Lemma append_created_ok (self : StatementAccount) (r : ref) (o : object) (w : World) :
  heap w !! r = Some o ->
  StatementAccount.append_created self (Some r) w
  = Ok (StatementAccount.set_all_transactions (all_transactions self ++ [r]) self,
        set_heap (<[r := setattr o "parent_statement" (VStr (file_path self))]> (heap w)) w).
Proof.
  intros H. unfold StatementAccount.append_created.
  unfold mbind at 1. unfold deref. rewrite H. reflexivity.
Qed.

(** The chain of tests of [process_line] is the search of the first
    class of [precedence] with a marker in the line. *)
Lemma process_line_dispatch
    (self : StatementAccount) (active : bool) (page : list pystr) (i : nat)
    (line : pystr) (w : World) (c : Class) :
  bank_name self = Some (u "cs") \/ bank_name self = Some (u "csob") ->
  List.find (fun c => marker_in c (str_or_none (bank_name self)) line) precedence = Some c ->
  StatementAccount.process_line page i line (self, active) w
  = (let! tx := create_rule c (str_or_none (bank_name self)) (str_or_none (year self))
                  (str_or_none (account_number self)) i page in
     let! self' := StatementAccount.append_created self tx in
     ret (self', true)) w.
Proof.
  intros Hbank Hfind.
  set (bank := str_or_none (bank_name self)) in *.
  assert (Hb : bank = VStr (u "cs") \/ bank = VStr (u "csob")).
  { subst bank. destruct Hbank as [-> | ->]; auto. }
  unfold StatementAccount.process_line. cbv beta iota zeta.
  fold bank.
  unfold precedence in Hfind. cbn [List.find] in Hfind.
  repeat (
    rewrite mbind_lift;
    match goal with
    | |- context [StatementAccount.any_identifier_in ?ti bank line] =>
      match type of Hfind with
      | (if marker_in ?k bank line then _ else _) = _ =>
        change ti with (text_identifiers_of k);
        rewrite (any_identifier_in_marker k bank line Hb) by discriminate;
        destruct (marker_in k bank line);
        [injection Hfind as <-; reflexivity|]
      end
    end).
  discriminate Hfind.
Qed.

(** C1: for a statement of one of the two banks, the classes are tested
    in the order of [precedence]; the rule of the first class with a
    marker in the line is called with the index of the line and the
    page, what it returns is appended to the list of the statement, and
    the flag is set.  When the rule returns a transaction, that
    transaction is the one the constructor has appended to the global
    registry, it is the last of the list of the statement, so the lines
    that follow are added to it, and the engine is accumulating. *)
Theorem pdf_line_first_marker_wins
    (self : StatementAccount) (active : bool) (page : list pystr) (i : nat)
    (line : pystr) (w : World) (c : Class) :
  let bank := str_or_none (bank_name self) in
  let year := str_or_none (year self) in
  let account := str_or_none (account_number self) in
  bank_name self = Some (u "cs") \/ bank_name self = Some (u "csob") ->
  List.find (fun c => marker_in c bank line) precedence = Some c ->
  StatementAccount.process_line page i line (self, active) w
  = (let! tx := create_rule c bank year account i page in
     let! self' := StatementAccount.append_created self tx in
     ret (self', true)) w
  /\ forall r w1,
       create_rule c bank year account i page w = Ok (Some r, w1) ->
       exists w2 o,
         StatementAccount.process_line page i line (self, active) w
         = Ok ((StatementAccount.set_all_transactions (all_transactions self ++ [r]) self,
                true), w2)
         /\ all w1 Transaction = all w Transaction ++ [r]
         /\ all w2 = all w1
         /\ heap w2 !! r = Some o
         /\ getattr o "parent_statement" = Ok (VStr (file_path self))
         /\ getitem (all_transactions self ++ [r]) (- 1) = Ok r.
Proof.
  intros bank year account Hbank Hfind.
  pose proof (process_line_dispatch self active page i line w c Hbank Hfind) as Hdispatch.
  split; [exact Hdispatch|].
  intros r w1 Hcreate.
  destruct (create_rule_inv _ _ _ _ _ _ _ _ _ Hcreate) as (o & -> & ->).
  rewrite Hdispatch.
  rewrite (mbind_ok _ _ _ _ _ Hcreate).
  rewrite (mbind_ok _ _ _ _ _ (append_created_ok self _ o _ (registered_lookup o w))).
  eexists. exists (setattr o "parent_statement" (VStr (file_path self))).
  split; [reflexivity|].
  split; [apply registered_all_Transaction|].
  split; [reflexivity|].
  split.
  { simpl heap. rewrite list_lookup_insert_eq; [reflexivity|].
    rewrite length_app. simpl. lia. }
  split.
  { unfold getattr, setattr. simpl. rewrite lookup_update_kw_eq. reflexivity. }
  apply getitem_last.
Qed.

Lemma same_header_refl s : same_header s s.
Proof. unfold same_header. auto. Qed.

Lemma same_header_trans s1 s2 s3 :
  same_header s1 s2 -> same_header s2 s3 -> same_header s1 s3.
Proof. unfold same_header. intros (?&?&?&?) (?&?&?&?). repeat split; congruence. Qed.

Lemma append_created_header self tx w self' w' :
  StatementAccount.append_created self tx w = Ok (self', w') -> same_header self self'.
Proof.
  unfold StatementAccount.append_created. destruct tx as [r|]; [|discriminate].
  intros H. apply mbind_inv in H as (o & w1 & _ & H).
  apply mbind_inv in H as (x & w2 & _ & H).
  injection H as <- _. unfold same_header. auto.
Qed.

(** A line changes the list of transactions of the statement only. *)
Lemma process_line_header page i line self active w self' active' w' :
  StatementAccount.process_line page i line (self, active) w = Ok ((self', active'), w') ->
  same_header self self'.
Proof.
  unfold StatementAccount.process_line. cbv beta iota zeta.
  repeat (
    rewrite mbind_lift;
    match goal with
    | |- context [StatementAccount.any_identifier_in ?ti ?b ?l] =>
      destruct (StatementAccount.any_identifier_in ti b l) as [[|]|]; [| |discriminate];
      [intros H; apply mbind_inv in H as (tx & w1 & _ & H);
       apply mbind_inv in H as (s1 & w2 & Ha & H);
       injection H as <- _ _; exact (append_created_header _ _ _ _ _ Ha)|]
    end).
  destruct (existsb _ _).
  { intros [= <- _ _]. apply same_header_refl. }
  destruct (active && _).
  - intros H. repeat (apply mbind_inv in H as (? & ? & _ & H)).
    injection H as <- _ _. apply same_header_refl.
  - intros [= <- _ _]. apply same_header_refl.
Qed.

Lemma lines_loop_header page lines st w st' w' :
  StatementAccount.lines_loop page lines st w = Ok (st', w') ->
  same_header (fst st) (fst st').
Proof.
  revert st w. induction lines as [|[i line] lines IH]; intros st w; simpl.
  - intros [= <- _]. apply same_header_refl.
  - intros H. apply mbind_inv in H as ([s1 a1] & w1 & Hp & H).
    destruct st as [s a]. apply process_line_header in Hp.
    apply IH in H. exact (same_header_trans _ _ _ Hp H).
Qed.

(** A line on which the engine raises, whatever the transactions found
    so far, makes the loop over the page raise. *)
Lemma lines_loop_raises page lines i line st w :
  In (i, line) lines ->
  (forall st' w', same_header (fst st) (fst st') ->
                  is_raise (StatementAccount.process_line page i line st' w')) ->
  is_raise (StatementAccount.lines_loop page lines st w).
Proof.
  revert st w. induction lines as [|[j l] lines IH]; intros st w Hin Hr; [destruct Hin|].
  simpl. destruct Hin as [[= -> ->]|Hin].
  - apply is_raise_mbind, Hr, same_header_refl.
  - unfold mbind.
    destruct (StatementAccount.process_line page j l st w) as [[st1 w1]|e] eqn:E; [|exact I].
    apply IH; [exact Hin|].
    intros st' w' Hh. apply Hr.
    destruct st as [s a], st1 as [s1 a1]. apply process_line_header in E.
    exact (same_header_trans _ _ _ E Hh).
Qed.

Lemma pages_loop_raises pages page st w :
  In page pages ->
  (forall st' w', same_header (fst st) (fst st') ->
                  is_raise (StatementAccount.lines_loop page (enumerate page) st' w')) ->
  is_raise (StatementAccount.pages_loop pages st w).
Proof.
  revert st w. induction pages as [|p pages IH]; intros st w Hin Hr; [destruct Hin|].
  simpl. destruct Hin as [->|Hin].
  - apply is_raise_mbind, Hr, same_header_refl.
  - unfold mbind.
    destruct (StatementAccount.lines_loop p (enumerate p) st w) as [[st1 w1]|e] eqn:E;
      [|exact I].
    apply IH; [exact Hin|].
    intros st' w' Hh. apply Hr.
    apply lines_loop_header in E. exact (same_header_trans _ _ _ E Hh).
Qed.

Lemma enumerate_from_lookup {A} (l : list A) (n i : nat) (x : A) :
  l !! i = Some x -> In ((n + i)%nat, x) (combine (seq n (length l)) l).
Proof.
  revert n i. induction l as [|y l IH]; intros n i H; [destruct i; discriminate|].
  destruct i as [|i]; simpl in *.
  - injection H as ->. left. f_equal. lia.
  - right. replace (n + S i)%nat with (S n + i)%nat by lia. apply IH, H.
Qed.

Lemma enumerate_lookup {A} (l : list A) (i : nat) (x : A) :
  l !! i = Some x -> In (i, x) (enumerate l).
Proof. intros H. exact (enumerate_from_lookup l 0 i x H). Qed.

(** ** The rules, field by field *)

#[local] Arguments u : simpl never.
#[local] Arguments str_in : simpl never.
#[local] Arguments getitem : simpl never.

(** The reads of a successful extraction, one after the other. *)
Ltac chain_inv H :=
  repeat match type of H with
         | rbind (Ok _) _ = Ok _ => unfold rbind at 1 in H; cbv beta iota zeta in H
         | rbind ?r _ = Ok _ =>
           let x := fresh "x" in
           let E := fresh "E" in
           destruct r as [x|] eqn:E;
           [unfold rbind at 1 in H; cbv beta iota zeta in H|discriminate H]
         end.

Ltac lookup_of E k :=
  apply getitem_lookup in E; [|lia];
  match type of E with
  | _ !! Z.to_nat (Z.of_nat ?i + ?z) = _ =>
    replace (Z.to_nat (Z.of_nat i + z)) with (i + k)%nat in E by lia
  end.

Ltac field_of Ha Ho :=
  unfold getattr; rewrite (finished_lookup _ _ _ _ _ Ho) by discriminate;
  rewrite (bind_fields_lookup _ _ _ _ Ha); reflexivity.

(** C2: a csob card payment, debit or incoming, that the rule extracts
    has its variable symbol read from line i+4, its constant symbol from
    line i+5, its specific symbol from line i+6, the last four
    characters of line i+6, stripped, as card identifier, and the
    stripped lines i+7 and i+9, one after the other, as vendor text. *)
Theorem csob_card_payment_offsets
    (c : Class) (year account : value) (i : nat) (page : list pystr)
    (w w' : World) (res : option ref) :
  c = CardPaymentDebit \/ c = CardPaymentIncoming ->
  create_rule c (VStr (u "csob")) year account i page w = Ok (res, w') ->
  exists r o l4 l5 l6 l7 l9 variable_symbol constant_symbol specific_symbol,
    res = Some r /\ heap w' !! r = Some o
    /\ page !! (i + 4)%nat = Some l4 /\ page !! (i + 5)%nat = Some l5
    /\ page !! (i + 6)%nat = Some l6 /\ page !! (i + 7)%nat = Some l7
    /\ page !! (i + 9)%nat = Some l9
    /\ int (strip l4) = Ok variable_symbol
    /\ int (strip l5) = Ok constant_symbol
    /\ int (strip l6) = Ok specific_symbol
    /\ getattr o "variable_symbol" = Ok (VInt variable_symbol)
    /\ getattr o "constant_symbol" = Ok (VInt constant_symbol)
    /\ getattr o "specific_symbol" = Ok (VInt specific_symbol)
    /\ getattr o "card_identifier" = Ok (VStr (last_chars 4 (strip l6)))
    /\ getattr o "vendor_text" = Ok (VStr (strip l7 ++ strip l9)).
Proof.
  intros [-> | ->] H; unfold_create_in H;
    change (is_str (VStr (u "csob")) "cs") with false in H;
    change (is_str (VStr (u "csob")) "csob") with true in H;
    cbv iota zeta in H;
    apply create_shape_inv in H as (kw & a & o & Hkw & Ha & Ho & -> & ->);
    chain_inv Hkw; injection Hkw as <-.
  all: repeat match goal with
              | E : getitem _ (Z.of_nat _ + 4) = Ok _ |- _ => lookup_of E 4%nat
              | E : getitem _ (Z.of_nat _ + 5) = Ok _ |- _ => lookup_of E 5%nat
              | E : getitem _ (Z.of_nat _ + 6) = Ok _ |- _ => lookup_of E 6%nat
              | E : getitem _ (Z.of_nat _ + 7) = Ok _ |- _ => lookup_of E 7%nat
              | E : getitem _ (Z.of_nat _ + 9) = Ok _ |- _ => lookup_of E 9%nat
              end.
  all: do 10 eexists.
  all: split; [reflexivity|].
  all: split; [apply registered_lookup|].
  all: do 5 (split; [eassumption|]).
  all: do 3 (split; [eassumption|]).
  all: repeat split; field_of Ha Ho.
Qed.

Lemma csob_card_payment_offsets_witness :
  (CardPaymentDebit = CardPaymentDebit \/ CardPaymentDebit = CardPaymentIncoming)
  /\ exists o w',
       create_rule CardPaymentDebit (VStr (u "csob")) (VStr (u "2023"))
         (VStr (u "123456789/0300")) 1 sample_csob_page empty_World = Ok (Some 0%nat, w')
       /\ heap w' !! 0%nat = Some o
       /\ getattr o "variable_symbol" = Ok (VInt 1111)
       /\ getattr o "constant_symbol" = Ok (VInt 2222)
       /\ getattr o "specific_symbol" = Ok (VInt 12345678)
       /\ getattr o "card_identifier" = Ok (VStr (u "5678"))
       /\ getattr o "vendor_text" = Ok (VStr (u "ALBERTPRAHA")).
Proof.
  split; [left; reflexivity|].
  destruct (create_rule CardPaymentDebit (VStr (u "csob")) (VStr (u "2023"))
              (VStr (u "123456789/0300")) 1 sample_csob_page empty_World)
    as [[res w']|e] eqn:E; [|vm_compute in E; discriminate E].
  destruct (csob_card_payment_offsets _ _ _ _ _ _ _ _ (or_introl eq_refl) E)
    as (r & o & l4 & l5 & l6 & l7 & l9 & vs & cs & ss & Hres & Hheap
        & H4 & H5 & H6 & H7 & H9 & Hv & Hc & Hs & Gv & Gc & Gs & Gi & Gt).
  pose proof E as E'. vm_compute in E'. injection E' as <- _.
  injection Hres as <-.
  vm_compute in H4, H5, H6, H7, H9.
  injection H4 as <-. injection H5 as <-. injection H6 as <-.
  injection H7 as <-. injection H9 as <-.
  vm_compute in Hv, Hc, Hs.
  injection Hv as <-. injection Hc as <-. injection Hs as <-.
  exists o, w'. repeat split; assumption.
Defined.

(** No field is called "type". *)
Lemma fields_not_type (c : Class) : Forall (fun f => f_name f <> "type") (fields c).
Proof. destruct c; vm_compute fields; repeat constructor; discriminate. Qed.

Lemma fold_update_lookup_ne (k : string) (d init : kwargs) :
  Forall (fun kv => fst kv <> k) d ->
  lookup_kw k (fold_left (fun d '(k, v) => update_kw k v d) d init) = lookup_kw k init.
Proof.
  intros H. revert init. induction H as [|[k' v'] d Hk _ IH]; intros init; simpl.
  - reflexivity.
  - rewrite IH. apply lookup_update_kw_ne. simpl in Hk. congruence.
Qed.

Lemma asdict_keys (o : object) :
  Forall (fun kv => In (fst kv) (f_name <$> fields (cls o))) (asdict o).
Proof.
  unfold asdict. generalize (fields (cls o)) as fs.
  induction fs as [|f fs IH]; simpl; [constructor|].
  destruct (lookup_kw (f_name f) (attrs o)); simpl.
  - constructor; [left; reflexivity|].
    eapply Forall_impl; [exact IH|]. simpl. intros kv H. right. exact H.
  - eapply Forall_impl; [exact IH|]. simpl. intros kv H. right. exact H.
Qed.

(** The record of the structured export carries the name of the class
    under "type". *)
Lemma json_record_type (o : object) :
  lookup_kw "type" (Transaction.json_record o) = Some (VStr (class_name (cls o))).
Proof.
  unfold Transaction.json_record. rewrite fold_update_lookup_ne; [reflexivity|].
  eapply Forall_impl; [apply asdict_keys|].
  intros [k v] Hin Hk. simpl in Hin, Hk. subst k.
  pose proof (fields_not_type (cls o)) as Hf.
  rewrite Forall_forall in Hf.
  apply in_map_iff in Hin as (f & Hname & Hin).
  apply list_elem_of_In in Hin.
  exact (Hf f Hin Hname).
Qed.

(** C10: a line of a cs statement with the marker "Vratka platby kartou"
    is handled by the rule of CardPaymentIncoming, and the transaction
    that rule returns is an instance of CardPaymentDebit: it is appended
    to the registry of CardPaymentDebit and not to the registry of
    CardPaymentIncoming, the account passed to the rule is not kept
    (account_to is None), and its record in the structured export has
    the type "CardPaymentDebit". *)
Theorem cs_card_refund_is_a_debit
    (self self' : StatementAccount) (active active' : bool) (page : list pystr)
    (i : nat) (line : pystr) (w w' : World) :
  bank_name self = Some (u "cs") ->
  str_in (u "Vratka platby kartou") line = true ->
  StatementAccount.process_line page i line (self, active) w = Ok ((self', active'), w') ->
  exists r o w1,
    CardPaymentIncoming.create (VStr (u "cs")) (str_or_none (year self))
      (str_or_none (account_number self)) (str_or_none (account_number self)) i page w
    = Ok (Some r, w1)
    /\ all_transactions self' = all_transactions self ++ [r]
    /\ heap w' !! r = Some o
    /\ cls o = CardPaymentDebit
    /\ getattr o "account_to" = Ok VNone
    /\ lookup_kw "type" (Transaction.json_record o) = Some (VStr (u "CardPaymentDebit"))
    /\ all w' CardPaymentDebit = all w CardPaymentDebit ++ [r]
    /\ all w' CardPaymentIncoming = all w CardPaymentIncoming.
Proof.
  intros Hbank Hmarker Hline.
  assert (Hfind :
    List.find (fun c => marker_in c (str_or_none (bank_name self)) line) precedence
    = Some CardPaymentIncoming).
  { rewrite Hbank. unfold precedence. cbn [List.find].
    replace (marker_in CardPaymentIncoming (str_or_none (Some (u "cs"))) line) with true;
      [reflexivity|].
    symmetry. change (str_in (u "Vratka platby kartou") line || false = true).
    rewrite Hmarker. reflexivity. }
  rewrite (process_line_dispatch self active page i line w _ (or_introl Hbank) Hfind)
    in Hline.
  apply mbind_inv in Hline as (tx & w1 & Hcreate & Hline).
  apply mbind_inv in Hline as (s1 & w2 & Happend & Hret).
  injection Hret as <- <- <-.
  rewrite Hbank in Hcreate.
  change (create_rule CardPaymentIncoming (str_or_none (Some (u "cs")))
            (str_or_none (year self)) (str_or_none (account_number self)) i page w)
    with (CardPaymentIncoming.create (VStr (u "cs")) (str_or_none (year self))
            (str_or_none (account_number self)) (str_or_none (account_number self))
            i page w) in Hcreate.
  pose proof Hcreate as Hshape.
  unfold CardPaymentIncoming.create in Hshape.
  change (is_str (VStr (u "cs")) "cs") with true in Hshape. cbv iota zeta in Hshape.
  apply create_shape_inv in Hshape as (kw & a & o & Hkw & Ha & Ho & -> & ->).
  chain_inv Hkw. injection Hkw as <-.
  pose proof (eq_trans (eq_sym (append_created_ok self _ o _ (registered_lookup o w)))
                Happend) as Heq.
  injection Heq as <- <-.
  exists (length (heap w)), (setattr o "parent_statement" (VStr (file_path self))),
    (registered o w).
  split; [exact Hcreate|].
  split; [reflexivity|].
  split.
  { simpl heap. rewrite list_lookup_insert_eq; [reflexivity|].
    rewrite length_app. simpl. lia. }
  pose proof (finished_cls _ _ _ _ Ho) as Hcls.
  split; [exact Hcls|].
  split.
  { unfold getattr, setattr. simpl attrs.
    rewrite lookup_update_kw_ne by discriminate.
    rewrite (finished_lookup _ _ _ _ _ Ho) by discriminate.
    rewrite (bind_fields_lookup _ _ _ _ Ha). reflexivity. }
  split.
  { rewrite json_record_type. simpl cls. rewrite Hcls. reflexivity. }
  simpl all. unfold isinstance. rewrite Hcls. split; reflexivity.
Qed.

Lemma cs_card_refund_is_a_debit_witness :
  bank_name (sample_cs_statement [sample_refund_page]) = Some (u "cs")
  /\ str_in (u "Vratka platby kartou") (u "Vratka platby kartou") = true
  /\ exists self' w' o,
       StatementAccount.process_line sample_refund_page 1 (u "Vratka platby kartou")
         (sample_cs_statement [sample_refund_page], false) empty_World
       = Ok ((self', true), w')
       /\ all_transactions self' = [0%nat]
       /\ heap w' !! 0%nat = Some o
       /\ cls o = CardPaymentDebit
       /\ getattr o "account_to" = Ok VNone
       /\ lookup_kw "type" (Transaction.json_record o) = Some (VStr (u "CardPaymentDebit"))
       /\ all w' CardPaymentDebit = [0%nat]
       /\ all w' CardPaymentIncoming = [].
Proof.
  assert (H1 : bank_name (sample_cs_statement [sample_refund_page]) = Some (u "cs"))
    by reflexivity.
  assert (H2 : str_in (u "Vratka platby kartou") (u "Vratka platby kartou") = true)
    by (vm_compute; reflexivity).
  split; [exact H1|]. split; [exact H2|].
  destruct (StatementAccount.process_line sample_refund_page 1 (u "Vratka platby kartou")
              (sample_cs_statement [sample_refund_page], false) empty_World)
    as [[[self' active'] w']|e] eqn:E; [|vm_compute in E; discriminate E].
  destruct (cs_card_refund_is_a_debit _ _ _ _ _ _ _ _ _ H1 H2 E)
    as (r & o & w1 & Hcreate & Hall & Hheap & Hcls & Hto & Htype & Hd & Hi).
  assert (active' = true /\ r = 0%nat) as [-> ->].
  { vm_compute in E. injection E as _ <- _.
    vm_compute in Hcreate. injection Hcreate as <- _. auto. }
  exists self', w', o. repeat split; assumption.
Defined.

Lemma pdf_line_first_marker_wins_witness :
  (bank_name (sample_cs_statement [sample_cs_page]) = Some (u "cs")
   \/ bank_name (sample_cs_statement [sample_cs_page]) = Some (u "csob"))
  /\ List.find (fun c => marker_in c (VStr (u "cs")) (u "Platba kartou")) precedence
     = Some CardPaymentDebit
  /\ exists w1 w2 o,
       create_rule CardPaymentDebit (VStr (u "cs")) (VStr (u "2023"))
         (VStr (u "1234567890/0800")) 1 sample_cs_page empty_World = Ok (Some 0%nat, w1)
       /\ StatementAccount.process_line sample_cs_page 1 (u "Platba kartou")
            (sample_cs_statement [sample_cs_page], false) empty_World
          = Ok ((StatementAccount.set_all_transactions [0%nat]
                   (sample_cs_statement [sample_cs_page]), true), w2)
       /\ all w2 Transaction = [0%nat]
       /\ heap w2 !! 0%nat = Some o
       /\ cls o = CardPaymentDebit.
Proof.
  assert (Hbank : bank_name (sample_cs_statement [sample_cs_page]) = Some (u "cs")
                  \/ bank_name (sample_cs_statement [sample_cs_page]) = Some (u "csob"))
    by (left; reflexivity).
  assert (Hfind : List.find (fun c => marker_in c (VStr (u "cs")) (u "Platba kartou"))
                    precedence = Some CardPaymentDebit)
    by (vm_compute; reflexivity).
  split; [exact Hbank|]. split; [exact Hfind|].
  destruct (pdf_line_first_marker_wins (sample_cs_statement [sample_cs_page]) false
              sample_cs_page 1 (u "Platba kartou") empty_World CardPaymentDebit Hbank Hfind)
    as [_ Hstep].
  destruct (create_rule CardPaymentDebit (VStr (u "cs")) (VStr (u "2023"))
              (VStr (u "1234567890/0800")) 1 sample_cs_page empty_World)
    as [[res w1]|e] eqn:E; [|vm_compute in E; discriminate E].
  assert (res = Some 0%nat) as ->.
  { vm_compute in E. injection E as <- _. reflexivity. }
  destruct (Hstep 0%nat w1 E) as (w2 & o & Hline & Hall1 & Hall2 & Hheap & _ & _).
  exists w1, w2, o. split; [reflexivity|]. split; [exact Hline|].
  split; [rewrite Hall2; exact Hall1|]. split; [exact Hheap|].
  vm_compute in Hline. injection Hline as <-. vm_compute in Hheap.
  injection Hheap as <-. reflexivity.
Defined.

(** C3: when a fixed offset a rule reads from the marker line lies past
    the end of the page, the rule raises, whatever the year, the account
    and the state of the store, so no transaction is returned; and when
    the line is the one the engine dispatches to that rule, the
    extraction of the whole statement raises. *)
Theorem offset_past_end_raises
    (c : Class) (bank : value) (i k : nat) (page : list pystr) :
  In k (fixed_offsets c bank i page) ->
  (length page <= i + k)%nat ->
  (forall year account w, is_raise (create_rule c bank year account i page w))
  /\ (forall self line w,
        str_or_none (bank_name self) = bank ->
        In page (pages_content_pdf self) ->
        page !! i = Some line ->
        List.find (fun c => marker_in c bank line) precedence = Some c ->
        is_raise (StatementAccount.get_transactions_pdf self w)).
Proof.
  intros Hk Hlen.
  assert (Hrule : forall year account w,
            is_raise (create_rule c bank year account i page w)).
  { intros year account w. exact (create_rule_offset_past_end c bank year account i k
                                    page w Hk Hlen). }
  split; [exact Hrule|].
  intros self line w Hbank Hpage Hline Hfind.
  assert (Hb : bank_name self = Some (u "cs") \/ bank_name self = Some (u "csob")).
  { unfold fixed_offsets in Hk.
    destruct (is_str bank "cs") eqn:E1; [|destruct (is_str bank "csob") eqn:E2].
    - left. apply is_str_inv in E1. rewrite E1 in Hbank.
      destruct (bank_name self); simpl in Hbank; congruence.
    - right. apply is_str_inv in E2. rewrite E2 in Hbank.
      destruct (bank_name self); simpl in Hbank; congruence.
    - destruct Hk. }
  unfold StatementAccount.get_transactions_pdf. apply is_raise_mbind.
  apply (pages_loop_raises _ page); [exact Hpage|].
  intros st1 w1 H1.
  apply (lines_loop_raises page _ i line); [apply enumerate_lookup, Hline|].
  intros [s2 a2] w2 H2.
  pose proof (same_header_trans _ _ _ H1 H2) as (Hf & Hbn & Han & Hy). simpl in Hbn, Han, Hy.
  rewrite process_line_dispatch with (c := c).
  - apply is_raise_mbind. rewrite Hbn, Hbank. apply Hrule.
  - rewrite Hbn. exact Hb.
  - rewrite Hbn, Hbank. exact Hfind.
Qed.

Lemma offset_past_end_raises_witness :
  In 4%nat (fixed_offsets CardPaymentDebit (VStr (u "cs")) 1 sample_cut_page)
  /\ (length sample_cut_page <= 1 + 4)%nat
  /\ create_rule CardPaymentDebit (VStr (u "cs")) (VStr (u "2023"))
       (VStr (u "1234567890/0800")) 1 sample_cut_page empty_World = Raise IndexError
  /\ StatementAccount.get_transactions_pdf (sample_cs_statement [sample_cut_page])
       empty_World = Raise IndexError.
Proof.
  assert (Hk : In 4%nat (fixed_offsets CardPaymentDebit (VStr (u "cs")) 1 sample_cut_page))
    by (vm_compute; tauto).
  assert (Hlen : (length sample_cut_page <= 1 + 4)%nat) by (vm_compute; lia).
  split; [exact Hk|]. split; [exact Hlen|].
  destruct (offset_past_end_raises _ _ _ _ _ Hk Hlen) as [Hrule Hrun].
  split.
  - specialize (Hrule (VStr (u "2023")) (VStr (u "1234567890/0800")) empty_World).
    destruct (create_rule _ _ _ _ _ _ _) as [x|e] eqn:E; [destruct Hrule|].
    vm_compute in E. injection E as <-. reflexivity.
  - assert (Hr : is_raise (StatementAccount.get_transactions_pdf
                             (sample_cs_statement [sample_cut_page]) empty_World)).
    { apply (Hrun _ (u "Platba kartou")).
      - reflexivity.
      - left. reflexivity.
      - reflexivity.
      - vm_compute. reflexivity. }
    destruct (StatementAccount.get_transactions_pdf _ _) as [x|e] eqn:E; [destruct Hr|].
    vm_compute in E. injection E as <-. reflexivity.
Defined.

(** ** Sorting and renumbering *)

Lemma lex_compare_eq (a b : list Z) : lex_compare a b = Eq -> a = b.
Proof.
  revert b. induction a as [|x a IH]; intros [|y b]; simpl; try discriminate; auto.
  destruct (x ?= y) eqn:E; try discriminate.
  apply Z.compare_eq in E. intros H. f_equal; auto.
Qed.

Lemma lex_compare_refl (a : list Z) : lex_compare a a = Eq.
Proof. induction a as [|x a IH]; simpl; [reflexivity|]. rewrite Z.compare_refl. exact IH. Qed.

Lemma lex_compare_antisym (a b : list Z) : lex_compare b a = CompOpp (lex_compare a b).
Proof.
  revert b. induction a as [|x a IH]; intros [|y b]; simpl; try reflexivity.
  rewrite (Z.compare_antisym x y). destruct (x ?= y); simpl; auto.
Qed.

Lemma lex_compare_lt_trans (a b c : list Z) :
  lex_compare a b = Lt -> lex_compare b c = Lt -> lex_compare a c = Lt.
Proof.
  revert b c. induction a as [|x a IH]; intros [|y b] [|z c]; simpl; try discriminate; auto.
  destruct (x ?= y) eqn:E1; destruct (y ?= z) eqn:E2; intros H1 H2; try discriminate.
  - apply Z.compare_eq in E1, E2. subst. rewrite Z.compare_refl. eauto.
  - apply Z.compare_eq in E1. subst. rewrite E2. reflexivity.
  - apply Z.compare_eq in E2. subst. rewrite E1. reflexivity.
  - rewrite (proj2 (Z.compare_lt_iff x z)); [reflexivity|].
    assert (x < y) by exact E1. assert (y < z) by exact E2. lia.
Qed.

Lemma datetime_key_inj (a b : datetime) : datetime_key a = datetime_key b -> a = b.
Proof. destruct a, b. unfold datetime_key. simpl. intros [= -> -> -> -> -> ->]. reflexivity. Qed.

(** The order of the keys. *)
Lemma key_lt_false_iff (a b : datetime * Z) : Transaction.key_lt b a = false <-> key_before a b.
Proof.
  unfold Transaction.key_lt, key_before, datetime_compare.
  rewrite (lex_compare_antisym (datetime_key (fst a)) (datetime_key (fst b))).
  destruct (lex_compare (datetime_key (fst a)) (datetime_key (fst b))); simpl.
  - rewrite Z.ltb_ge. split; [intros H; right; auto|intros [H|[_ H]]; [discriminate|auto]].
  - split; auto.
  - split; [discriminate|intros [H|[H _]]; discriminate].
Qed.

Lemma key_before_trans (a b c : datetime * Z) :
  key_before a b -> key_before b c -> key_before a c.
Proof.
  unfold key_before, datetime_compare.
  intros [H1|[H1 L1]] [H2|[H2 L2]].
  - left. eapply lex_compare_lt_trans; eauto.
  - left. apply lex_compare_eq in H2. rewrite <- H2. exact H1.
  - left. apply lex_compare_eq in H1. rewrite H1. exact H2.
  - right. apply lex_compare_eq in H1. apply lex_compare_eq in H2.
    rewrite H1, H2, lex_compare_refl. split; [reflexivity|lia].
Qed.

Lemma key_before_total (a b : datetime * Z) :
  Transaction.key_lt a b = true -> key_before a b.
Proof.
  unfold Transaction.key_lt, key_before.
  destruct (datetime_compare (fst a) (fst b)); [|auto|discriminate].
  rewrite Z.ltb_lt. intros H. right. split; [reflexivity|lia].
Qed.

(** The sort: a permutation, in order. *)
Section stable_sort.
Context {A : Type} (lt : A -> A -> bool) (le : A -> A -> Prop).
Hypothesis le_of_not_lt : forall a b, lt b a = false -> le a b.
Hypothesis le_of_lt : forall a b, lt a b = true -> le a b.
Hypothesis le_trans : forall a b c, le a b -> le b c -> le a c.

Lemma insert_sorted_perm (x : A) (l : list A) : Permutation (insert_sorted lt x l) (x :: l).
Proof.
  induction l as [|y l IH]; simpl; [reflexivity|].
  destruct (lt y x); [|reflexivity].
  rewrite IH. apply perm_swap.
Qed.

Lemma stable_sort_perm (l : list A) : Permutation (stable_sort lt l) l.
Proof.
  induction l as [|x l IH]; simpl; [reflexivity|].
  rewrite insert_sorted_perm, IH. reflexivity.
Qed.

Lemma insert_sorted_sorted (x : A) (l : list A) :
  StronglySorted le l -> StronglySorted le (insert_sorted lt x l).
Proof.
  induction 1 as [|y l Hs IH Hy]; simpl.
  - constructor; constructor.
  - destruct (lt y x) eqn:E.
    + constructor; [exact IH|].
      rewrite (insert_sorted_perm x l). constructor; [apply le_of_lt, E|exact Hy].
    + constructor; [constructor; assumption|].
      constructor; [apply le_of_not_lt, E|].
      eapply Forall_impl; [exact Hy|]. intros z Hz.
      eapply le_trans; [apply le_of_not_lt, E|exact Hz].
Qed.

Lemma stable_sort_sorted (l : list A) : StronglySorted le (stable_sort lt l).
Proof.
  induction l as [|x l IH]; simpl; [constructor|].
  apply insert_sorted_sorted, IH.
Qed.
End stable_sort.

Lemma mapM_Forall2 {A B} (f : A -> result B) (l : list A) (ys : list B) :
  mapM f l = Ok ys -> Forall2 (fun x y => f x = Ok y) l ys.
Proof.
  revert ys. induction l as [|x l IH]; simpl; intros ys.
  - intros [= <-]. constructor.
  - destruct (f x) as [y|e] eqn:E; simpl; [|discriminate].
    destruct (mapM f l) as [ys'|e]; simpl; [|discriminate].
    intros [= <-]. constructor; auto.
Qed.

Lemma mapM_ok {A B} (f : A -> result B) (l : list A) :
  Forall (fun x => exists y, f x = Ok y) l -> exists ys, mapM f l = Ok ys.
Proof.
  induction 1 as [|x l [y Hy] _ [ys IH]]; simpl.
  - eexists; reflexivity.
  - rewrite Hy, IH. simpl. eexists; reflexivity.
Qed.

Lemma StronglySorted_map {A B} (R : A -> A -> Prop) (R' : B -> B -> Prop) (P : A -> Prop)
    (f : A -> B) (l : list A) :
  (forall a b, P a -> P b -> R a b -> R' (f a) (f b)) ->
  Forall P l -> StronglySorted R l -> StronglySorted R' (f <$> l).
Proof.
  intros HR HP HS. induction HS as [|a l HS IH Ha]; simpl; [constructor|].
  apply Forall_cons in HP as [Pa HP].
  constructor; [apply IH, HP|].
  apply Forall_fmap. rewrite Forall_forall in Ha, HP |- *.
  intros b Hb. simpl. apply HR; auto.
Qed.

(** The key of a reference, when [sort_transactions] reads it. *)
Lemma keyed_sort_key (w : World) (r : ref) (kr : datetime * Z * ref) :
  match heap w !! r with
  | Some tx => let? k := Transaction.get_sort_key tx in Ok (k, r)
  | None => Raise IndexError
  end = Ok kr ->
  snd kr = r /\ sort_key w r = Some (fst kr).
Proof.
  unfold sort_key. destruct (heap w !! r) as [tx|]; [|discriminate].
  destruct (Transaction.get_sort_key tx) as [k|e]; simpl; [|discriminate].
  intros [= <-]. auto.
Qed.

(** [sort_transactions] puts the registry in chronological order. *)
Lemma sort_transactions_spec (w : World) :
  Forall (fun r => is_Some (sort_key w r)) (all w Transaction) ->
  exists sorted,
    Transaction.sort_transactions w
    = Ok (tt, set_all (fun c => if bool_decide (c = Transaction) then sorted else all w c) w)
    /\ Permutation sorted (all w Transaction)
    /\ chronological w sorted.
Proof.
  intros Hkeys. unfold Transaction.sort_transactions.
  destruct (mapM_ok (fun r => match heap w !! r with
                              | Some tx => let? k := Transaction.get_sort_key tx in Ok (k, r)
                              | None => Raise IndexError
                              end) (all w Transaction)) as [keyed Hkeyed].
  { eapply Forall_impl; [exact Hkeys|]. intros r [k Hk]. unfold sort_key in Hk.
    destruct (heap w !! r) as [tx|]; [|discriminate].
    destruct (Transaction.get_sort_key tx) as [k'|]; [|discriminate].
    simpl. eexists; reflexivity. }
  rewrite Hkeyed. simpl.
  apply mapM_Forall2 in Hkeyed.
  assert (Hsnd : snd <$> keyed = all w Transaction).
  { clear Hkeys. induction Hkeyed as [|r kr l ks H _ IH]; simpl; [reflexivity|].
    apply keyed_sort_key in H as [-> _]. f_equal. exact IH. }
  assert (Hkey : Forall (fun kr => sort_key w (snd kr) = Some (fst kr)) keyed).
  { clear Hkeys Hsnd. induction Hkeyed as [|r kr l ks H _ IH]; constructor; [|exact IH].
    apply keyed_sort_key in H as [-> H]. exact H. }
  set (lt := fun a b : datetime * Z * ref => Transaction.key_lt (fst a) (fst b)).
  exists (snd <$> stable_sort lt keyed).
  split; [reflexivity|]. split.
  - rewrite <- Hsnd. apply Permutation_map, stable_sort_perm.
  - unfold chronological.
    apply (StronglySorted_map (fun a b => key_before (fst a) (fst b)) _
             (fun kr => sort_key w (snd kr) = Some (fst kr))).
    + intros a b Ha Hb Hab. exists (fst a), (fst b). auto.
    + rewrite (stable_sort_perm lt keyed). exact Hkey.
    + apply (stable_sort_sorted lt).
      * intros a b H. apply key_lt_false_iff, H.
      * intros a b H. apply key_before_total, H.
      * intros a b c. apply key_before_trans.
Qed.

(** The renumbering loop: the object at position [i] of the list
    receives the id [n + i + 1]; nothing else changes. *)
Lemma renumber_spec (l : list ref) (n : nat) (w : World) :
  NoDup l -> Forall (fun r => is_Some (heap w !! r)) l ->
  exists w',
    forM (combine (seq n (length l)) l)
      (fun '(i, r) =>
         let! transaction := deref r in
         store r (setattr transaction "transaction_id" (VInt (Z.of_nat i + 1)))) w
    = Ok (tt, w')
    /\ all w' = all w /\ transactions_json w' = transactions_json w
    /\ transactions_csv w' = transactions_csv w /\ generator_id w' = generator_id w
    /\ length (heap w') = length (heap w)
    /\ (forall r, ~ In r l -> heap w' !! r = heap w !! r)
    /\ (forall i r, l !! i = Some r ->
          exists o, heap w !! r = Some o
                    /\ heap w' !! r
                       = Some (setattr o "transaction_id" (VInt (Z.of_nat (n + i) + 1)))).
Proof.
  revert n w. induction l as [|r l IH]; intros n w Hnd Hv.
  - exists w. simpl. repeat split; auto. intros i r H. destruct i; discriminate.
  - apply NoDup_cons in Hnd as [Hr Hnd]. apply Forall_cons in Hv as [[o Ho] Hv].
    set (o' := setattr o "transaction_id" (VInt (Z.of_nat n + 1))).
    set (w1 := set_heap (<[r := o']> (heap w)) w).
    destruct (IH (S n) w1 Hnd) as (w' & Hrun & Hall & Hj & Hc & Hg & Hlen & Hout & Hin).
    { eapply Forall_impl; [exact Hv|]. intros r' [x Hx]. simpl.
      destruct (decide (r = r')) as [<-|Hne].
      - rewrite list_lookup_insert_eq; [eauto|]. apply lookup_lt_Some in Ho. exact Ho.
      - rewrite list_lookup_insert_ne by exact Hne. eauto. }
    exists w'. simpl.
    unfold mbind at 1. unfold mbind at 1. unfold deref. rewrite Ho.
    unfold store. fold o'. fold w1.
    split; [exact Hrun|].
    split; [exact Hall|]. split; [exact Hj|]. split; [exact Hc|]. split; [exact Hg|].
    split; [rewrite Hlen; simpl; apply length_insert|].
    split.
    + intros r' Hr'. rewrite Hout by tauto. simpl.
      apply list_lookup_insert_ne. intros ->. apply Hr'. left. reflexivity.
    + intros i r' Hi. destruct i as [|i]; simpl in Hi.
      * injection Hi as <-. exists o. split; [exact Ho|].
        rewrite Hout by (rewrite <- list_elem_of_In; exact Hr). simpl.
        rewrite list_lookup_insert_eq by (apply lookup_lt_Some in Ho; exact Ho).
        unfold o'. replace (n + 0)%nat with n by lia. reflexivity.
      * destruct (Hin i r' Hi) as (o1 & Ho1 & Ho1').
        assert (r <> r') as Hne.
        { intros ->. apply Hr. apply list_elem_of_lookup. eauto. }
        simpl in Ho1. rewrite list_lookup_insert_ne in Ho1 by exact Hne.
        exists o1. split; [exact Ho1|]. rewrite Ho1'.
        replace (S n + i)%nat with (n + S i)%nat by lia. reflexivity.
Qed.

(** What [save_transactions_json] leaves behind: the registry in the
    order of the keys, the ids renumbered along it, and one record per
    transaction in the document. *)
Lemma save_transactions_json_spec (w : World) :
  NoDup (all w Transaction) ->
  Forall (fun r => is_Some (sort_key w r)) (all w Transaction) ->
  exists (w2 : World) (data : list kwargs),
    Transaction.save_transactions_json w = Ok (tt, set_transactions_json (Some data) w2)
    /\ Permutation (all w2 Transaction) (all w Transaction)
    /\ chronological w (all w2 Transaction)
    /\ length data = length (all w2 Transaction)
    /\ forall i r, all w2 Transaction !! i = Some r ->
         exists tx,
           let tx' := setattr tx "transaction_id" (VInt (Z.of_nat i + 1)) in
           heap w !! r = Some tx
           /\ heap w2 !! r = Some tx'
           /\ data !! i = Some (Transaction.json_record tx').
Proof.
  intros Hnd Hkeys.
  destruct (sort_transactions_spec w Hkeys) as (sorted & Hsort & Hperm & Hchron).
  set (w1 := set_all (fun c => if bool_decide (c = Transaction) then sorted else all w c) w)
    in Hsort.
  assert (Hvalid : Forall (fun r => is_Some (heap w1 !! r)) sorted).
  { rewrite Hperm. eapply Forall_impl; [exact Hkeys|]. intros r [k Hk].
    unfold sort_key in Hk. simpl. destruct (heap w !! r); [eauto|discriminate]. }
  destruct (renumber_spec sorted 0 w1) as (w2 & Hrun & Hall & _ & _ & _ & Hlen & _ & Hin);
    [rewrite Hperm; exact Hnd|exact Hvalid|].
  assert (Hreg : all w2 Transaction = sorted).
  { rewrite Hall. reflexivity. }
  destruct (mapM_ok (fun r => match heap w2 !! r with
                              | Some t => Ok (Transaction.json_record t)
                              | None => Raise IndexError
                              end) (all w2 Transaction)) as [data Hdata].
  { rewrite Hreg. apply Forall_lookup. intros i r Hi.
    destruct (Hin i r Hi) as (o & _ & ->). eexists; reflexivity. }
  exists w2, data. split.
  - unfold Transaction.save_transactions_json.
    rewrite (mbind_ok _ _ _ _ _ Hsort).
    unfold mbind at 1.
    change (all w1 Transaction) with sorted.
    unfold enumerate. rewrite (mbind_ok _ _ _ _ _ Hrun).
    rewrite Hdata. reflexivity.
  - apply mapM_Forall2 in Hdata. rewrite Hreg in *.
    split; [exact Hperm|]. split; [exact Hchron|].
    split; [symmetry; eapply Forall2_length; exact Hdata|].
    intros i r Hi. destruct (Hin i r Hi) as (tx & Htx & Htx').
    exists tx. simpl in Htx. simpl. split; [exact Htx|]. split; [exact Htx'|].
    destruct (Forall2_lookup_l _ _ _ _ _ Hdata Hi) as (d & Hd & Hfd).
    rewrite Htx' in Hfd. simpl in Hfd. injection Hfd as <-. exact Hd.
Qed.


(** The sample registry: created on 15.03., 02.01. and 15.03.; saved, the
    second transaction comes first and the two of 15.03. keep the order
    of their ids. *)
Example sort_then_renumber_example :
  match Transaction.save_transactions_json sample_unsorted_world with
  | Ok (_, w') =>
    Some (all w' Transaction,
          omap (fun r => match heap w' !! r with
                         | Some tx => match getattr tx "transaction_id" with
                                      | Ok v => Some v
                                      | Raise _ => None
                                      end
                         | None => None
                         end) (all w' Transaction))
  | Raise _ => None
  end = Some ([1; 0; 2]%nat, [VInt 1; VInt 2; VInt 3]).
Proof. vm_compute. reflexivity. Qed.


(** ** Re-import of the structured export *)

(** No generated [__init__] takes the id: the field is [init=False]. *)
Lemma accepts_keyword_transaction_id (c : Class) :
  accepts_keyword c "transaction_id" = false.
Proof. destruct c; vm_compute; reflexivity. Qed.

Lemma has_field_transaction_id (c : Class) :
  exists f, In f (fields c) /\ f_name f = "transaction_id".
Proof.
  destruct c; vm_compute fields;
    (eexists; split; [right; right; left; reflexivity|reflexivity]).
Qed.

Lemma lookup_kw_In (k : string) (kw : kwargs) :
  is_Some (lookup_kw k kw) -> exists v, In (k, v) kw.
Proof.
  induction kw as [|[k' v'] kw IH]; simpl; intros [v H]; [discriminate|].
  destruct (String.eqb k' k) eqn:E.
  - apply String.eqb_eq in E. subst k'. exists v'. left. reflexivity.
  - destruct IH as [v0 H0]; [eauto|]. exists v0. right. exact H0.
Qed.

Lemma In_lookup_kw (k : string) (v : value) (kw : kwargs) :
  In (k, v) kw -> is_Some (lookup_kw k kw).
Proof.
  induction kw as [|[k' v'] kw IH]; simpl; intros H; [contradiction|].
  destruct (String.eqb k' k) eqn:E; [eauto|].
  destruct H as [H|H]; [|exact (IH H)].
  injection H as -> _. rewrite String.eqb_refl in E. discriminate.
Qed.

(** A call with the keyword [transaction_id] is a type error. *)
Lemma dataclass_init_rejects_id (c : Class) (kw : kwargs) :
  is_Some (lookup_kw "transaction_id" kw) -> dataclass_init c kw = Raise TypeError.
Proof.
  intros H. apply lookup_kw_In in H as [v H].
  unfold dataclass_init.
  destruct (forallb (fun '(k, _) => accepts_keyword c k) kw) eqn:E; [|reflexivity].
  rewrite forallb_forall in E. specialize (E _ H). simpl in E.
  rewrite accepts_keyword_transaction_id in E. discriminate.
Qed.

Lemma fold_update_lookup_present (k : string) (d init : kwargs) :
  (exists v, In (k, v) d) \/ is_Some (lookup_kw k init) ->
  is_Some (lookup_kw k (fold_left (fun d '(k, v) => update_kw k v d) d init)).
Proof.
  revert init. induction d as [|[k' v'] d IH]; intros init H; simpl.
  - destruct H as [[v []]|H]. exact H.
  - apply IH. destruct (String.eqb k' k) eqn:E.
    + apply String.eqb_eq in E. subst k'. right.
      rewrite lookup_update_kw_eq. eauto.
    + assert (k <> k') as Hne.
      { intros ->. rewrite String.eqb_refl in E. discriminate. }
      destruct H as [[v [H|H]]|H].
      * congruence.
      * left. eauto.
      * right. rewrite lookup_update_kw_ne by exact Hne. exact H.
Qed.

Lemma remove_kw_lookup_ne (k k' : string) (kw : kwargs) :
  k <> k' -> lookup_kw k (remove_kw k' kw) = lookup_kw k kw.
Proof.
  intros Hne. induction kw as [|[k0 v0] kw IH]; simpl; [reflexivity|].
  destruct (String.eqb k0 k') eqn:E; simpl.
  - apply String.eqb_eq in E. subst k0.
    destruct (String.eqb k' k) eqn:E'; [|reflexivity].
    apply String.eqb_eq in E'. congruence.
  - rewrite IH. reflexivity.
Qed.

(** The record of an instance carries its id. *)
Lemma json_record_transaction_id (o : object) :
  is_Some (lookup_kw "transaction_id" (attrs o)) ->
  is_Some (lookup_kw "transaction_id" (remove_kw "type" (Transaction.json_record o))).
Proof.
  intros [v Hv]. rewrite remove_kw_lookup_ne by discriminate.
  unfold Transaction.json_record. apply fold_update_lookup_present. left.
  exists v. unfold asdict. rewrite <- list_elem_of_In, list_elem_of_omap.
  destruct (has_field_transaction_id (cls o)) as (f & Hf & Hname).
  exists f. split; [apply list_elem_of_In, Hf|]. rewrite Hname, Hv. reflexivity.
Qed.

(** The re-import of the record of an instance of a class the dispatch
    knows is a type error. *)
Lemma load_one_rejects_record (o : object) (w : World) :
  In (cls o) reimport_kinds ->
  is_Some (lookup_kw "transaction_id" (attrs o)) ->
  Transaction.load_one (Transaction.json_record o) w = Raise TypeError.
Proof.
  intros Hkind Hid. apply json_record_transaction_id in Hid.
  unfold Transaction.load_one. rewrite mbind_lift.
  unfold pop_kw. rewrite json_record_type.
  set (kw := remove_kw "type" _) in *. clearbody kw.
  assert (Hnew : forall c, mbind (new c kw) (fun _ => ret tt) w = Raise TypeError).
  { intros c. apply mbind_raise. unfold new. rewrite mbind_lift.
    rewrite (dataclass_init_rejects_id c kw Hid). reflexivity. }
  destruct o as [c a]. simpl in Hkind |- *.
  repeat (destruct Hkind as [<-|Hkind]; [vm_compute is_str; apply Hnew|]).
  destruct Hkind.
Qed.

(** No export of a registry that is not empty can be read back: the
    first record already makes the constructor raise. *)
Lemma reimport_rejects_every_export (w : World) :
  all w Transaction <> [] ->
  NoDup (all w Transaction) ->
  Forall (fun r => is_Some (sort_key w r)) (all w Transaction) ->
  Forall (fun r => exists tx, heap w !! r = Some tx /\ In (cls tx) reimport_kinds)
         (all w Transaction) ->
  export_then_reimport w = Raise TypeError.
Proof.
  intros Hne Hnd Hkeys Hkinds.
  destruct (save_transactions_json_spec w Hnd Hkeys)
    as (w2 & data & Hrun & Hperm & _ & Hlen & Hids).
  unfold export_then_reimport. rewrite Hrun. simpl.
  destruct (all w2 Transaction) as [|r sorted] eqn:Hreg.
  { apply Permutation_nil in Hperm. congruence. }
  destruct (Hids 0%nat r eq_refl) as (tx & Htx & _ & Hd).
  destruct data as [|d data]; [discriminate|]. injection Hd as ->.
  unfold Transaction.load_transactions_json. simpl.
  apply mbind_raise. apply load_one_rejects_record.
  - simpl. rewrite Forall_forall in Hkinds.
    destruct (Hkinds r) as (tx0 & Htx0 & Hin).
    + rewrite <- Hperm. left.
    + assert (tx0 = tx) as -> by congruence. exact Hin.
  - simpl. rewrite lookup_update_kw_eq. eauto.
Qed.


(** ** Amount texts *)



Lemma digit_chr_range (d : Z) : is_digit d -> (48 <= digit_chr d <= 57)%N.
Proof.
  unfold is_digit, digit_chr. intros H.
  rewrite Z.mod_small by lia. lia.
Qed.

Lemma digit_val_digit_chr (d : Z) : is_digit d -> digit_val (digit_chr d) = Some d.
Proof.
  intros H. pose proof (digit_chr_range d H) as Hr.
  unfold digit_val, isdecimal.
  rewrite (proj2 (N.leb_le _ _)), (proj2 (N.leb_le _ _)) by lia. simpl.
  f_equal. unfold digit_chr, is_digit in *. rewrite Z.mod_small by lia. lia.
Qed.










Lemma fold_digits_shift (ds : list Z) (acc : Z) :
  fold_left (fun acc d => 10 * acc + d) ds acc
  = acc * 10 ^ Z.of_nat (length ds) + digits_value ds.
Proof.
  unfold digits_value. revert acc. induction ds as [|d ds IH]; intros acc.
  - simpl. lia.
  - cbn [fold_left length]. rewrite IH, (IH (10 * 0 + d)).
    rewrite Nat2Z.inj_succ, Z.pow_succ_r by lia. lia.
Qed.


Lemma scaled_digits (a : amount) :
  scaled a = digits_value (integer_digits a ++ decimal_digits a).
Proof.
  unfold scaled, decimals, digits_value at 3.
  rewrite fold_left_app, fold_digits_shift. reflexivity.
Qed.







(** Both separators, both decimal marks and both signs. *)
Example pdf_amount_to_float_examples :
  helper_functions.pdf_amount_to_float (u "+30 000,00") = Ok (float_of_ratio false 30000 1)
  /\ helper_functions.pdf_amount_to_float (u "-30 000.00") = Ok (float_of_ratio true 30000 1)
  /\ helper_functions.pdf_amount_to_float (1%N :: nil) = Raise ValueError
  /\ helper_functions.pdf_amount_to_float ([49; 160; 50; 51; 52; 44; 53]%N)
     = Ok (float_of_ratio false 12345 10).
Proof. repeat split; vm_compute; reflexivity. Qed.

(** ** The searches of the helpers *)






(** ** The date in a line *)





(** ** The two date formats *)

Lemma m_digit_range (lo hi : Z) (s r : pystr) (d : Z) :
  In (d, r) (m_digit lo hi s) -> lo <= d <= hi.
Proof.
  unfold m_digit. destruct s as [|c s']; [intros []|].
  destruct (digit_val c) as [v|]; [|intros []].
  destruct ((lo <=? v) && (v <=? hi)) eqn:E; [|intros []].
  intros [[= <- _]|[]]. apply andb_true_iff in E as [E1 E2]. lia.
Qed.

Lemma m_two_range (lo1 hi1 lo2 hi2 : Z) (s r : pystr) (v : Z) :
  In (v, r) (m_two lo1 hi1 lo2 hi2 s) ->
  10 * lo1 + lo2 <= v <= 10 * hi1 + hi2.
Proof.
  unfold m_two, m_bind, m_ret. intros H.
  apply in_flat_map in H as ([a r1] & Ha & H).
  apply in_flat_map in H as ([b r2] & Hb & H).
  destruct H as [[= <- _]|[]].
  apply m_digit_range in Ha, Hb. lia.
Qed.

Lemma m_Y_range (s r : pystr) (y : Z) : In (y, r) (m_Y s) -> 0 <= y <= 9999.
Proof.
  unfold m_Y, m_bind, m_ret. intros H.
  apply in_flat_map in H as ([a r1] & Ha & H).
  apply in_flat_map in H as ([b r2] & Hb & H).
  destruct H as [[= <- _]|[]].
  apply m_two_range in Ha, Hb. lia.
Qed.

Lemma m_m_range (s r : pystr) (m : Z) : In (m, r) (m_m s) -> 1 <= m <= 12.
Proof.
  unfold m_m, m_alt. intros H.
  apply in_app_or in H as [H|H]; [apply m_two_range in H; lia|].
  apply in_app_or in H as [H|H]; [apply m_two_range in H; lia|].
  apply m_digit_range in H. lia.
Qed.

Lemma m_d_range (s r : pystr) (d : Z) : In (d, r) (m_d s) -> 1 <= d <= 31.
Proof.
  unfold m_d, m_alt. intros H.
  apply in_app_or in H as [H|H]; [apply m_two_range in H; lia|].
  apply in_app_or in H as [H|H]; [apply m_two_range in H; lia|].
  apply in_app_or in H as [H|H]; [apply m_two_range in H; lia|].
  apply in_app_or in H as [H|H]; [apply m_digit_range in H; lia|].
  unfold m_bind in H. apply in_flat_map in H as ([[] r1] & _ & H).
  apply m_digit_range in H. lia.
Qed.

Lemma strptime_finish_inv (found : list (datetime * pystr)) (d : datetime) :
  strptime_finish found = Ok d ->
  In (d, []) found /\ 1 <= dt_year d /\ dt_day d <= days_in_month (dt_year d) (dt_month d).
Proof.
  unfold strptime_finish. destruct found as [|[d0 [|c r]] l]; try discriminate.
  destruct ((1 <=? dt_year d0) && (dt_day d0 <=? days_in_month (dt_year d0) (dt_month d0))
            && (dt_second d0 <=? 59)) eqn:E; [|discriminate].
  intros [= <-]. apply andb_true_iff in E as [E _]. apply andb_true_iff in E as [E1 E2].
  split; [left; reflexivity|]. lia.
Qed.

(** What [strptime] accepts with "%Y-%m-%d %H:%M:%S" is a calendar date. *)
Lemma strptime_Ymd_HMS_valid (s : pystr) (d : datetime) :
  strptime_Ymd_HMS s = Ok d ->
  1 <= dt_year d <= 9999 /\ 1 <= dt_month d <= 12
  /\ 1 <= dt_day d <= days_in_month (dt_year d) (dt_month d).
Proof.
  unfold strptime_Ymd_HMS. intros H.
  apply strptime_finish_inv in H as (H & Hy & Hd).
  unfold m_bind at 1 in H. apply in_flat_map in H as ([y r1] & Hy' & H).
  unfold m_bind at 1 in H. apply in_flat_map in H as ([[] r2] & _ & H).
  unfold m_bind at 1 in H. apply in_flat_map in H as ([m r3] & Hm' & H).
  unfold m_bind at 1 in H. apply in_flat_map in H as ([[] r4] & _ & H).
  unfold m_bind at 1 in H. apply in_flat_map in H as ([dd r5] & Hd' & H).
  unfold m_bind at 1 in H. apply in_flat_map in H as ([[] r6] & _ & H).
  unfold m_bind at 1 in H. apply in_flat_map in H as ([hh r7] & _ & H).
  unfold m_bind at 1 in H. apply in_flat_map in H as ([[] r8] & _ & H).
  unfold m_bind at 1 in H. apply in_flat_map in H as ([mm r9] & _ & H).
  unfold m_bind at 1 in H. apply in_flat_map in H as ([[] r10] & _ & H).
  unfold m_bind at 1 in H. apply in_flat_map in H as ([ss r11] & _ & H).
  destruct H as [[= <- _]|[]]. simpl in *.
  apply m_Y_range in Hy'. apply m_m_range in Hm'. apply m_d_range in Hd'. lia.
Qed.

Lemma m_d_two_digits (d : Z) (r : pystr) :
  1 <= d <= 31 -> exists l, m_d (two_digits d ++ r) = (d, r) :: l.
Proof.
  intros H.
  assert (d = 1 \/ d = 2 \/ d = 3 \/ d = 4 \/ d = 5 \/ d = 6 \/ d = 7 \/ d = 8 \/ d = 9
          \/ d = 10 \/ d = 11 \/ d = 12 \/ d = 13 \/ d = 14 \/ d = 15 \/ d = 16 \/ d = 17
          \/ d = 18 \/ d = 19 \/ d = 20 \/ d = 21 \/ d = 22 \/ d = 23 \/ d = 24 \/ d = 25
          \/ d = 26 \/ d = 27 \/ d = 28 \/ d = 29 \/ d = 30 \/ d = 31) as Hcases by lia.
  repeat (destruct Hcases as [->|Hcases]; [eexists; vm_compute; reflexivity|]).
  subst d. eexists; vm_compute; reflexivity.
Qed.

Lemma m_m_two_digits (m : Z) (r : pystr) :
  1 <= m <= 12 -> exists l, m_m (two_digits m ++ r) = (m, r) :: l.
Proof.
  intros H.
  assert (m = 1 \/ m = 2 \/ m = 3 \/ m = 4 \/ m = 5 \/ m = 6 \/ m = 7 \/ m = 8 \/ m = 9
          \/ m = 10 \/ m = 11 \/ m = 12) as Hcases by lia.
  repeat (destruct Hcases as [->|Hcases]; [eexists; vm_compute; reflexivity|]).
  subst m. eexists; vm_compute; reflexivity.
Qed.

Lemma m_digit_digit_chr (x : Z) (r : pystr) :
  m_digit 0 9 (digit_chr x :: r) = [(x mod 10, r)].
Proof.
  assert (Hx : is_digit (x mod 10)) by (unfold is_digit; pose proof (Z.mod_pos_bound x 10); lia).
  assert (Hc : digit_chr x = digit_chr (x mod 10)).
  { unfold digit_chr. rewrite Z.mod_mod by lia. reflexivity. }
  unfold m_digit. rewrite Hc, (digit_val_digit_chr _ Hx).
  unfold is_digit in Hx.
  rewrite (proj2 (Z.leb_le 0 _)), (proj2 (Z.leb_le _ 9)) by lia. reflexivity.
Qed.

Lemma m_Y_four_digits (y : Z) (r : pystr) :
  0 <= y <= 9999 ->
  m_Y (two_digits (y / 100) ++ two_digits y ++ r) = [(y, r)].
Proof.
  intros H. unfold m_Y, m_two, m_bind, m_ret, two_digits. cbn [app].
  rewrite m_digit_digit_chr. cbn [flat_map app].
  rewrite m_digit_digit_chr. cbn [flat_map app].
  rewrite m_digit_digit_chr. cbn [flat_map app].
  rewrite m_digit_digit_chr. cbn [flat_map app].
  do 2 f_equal. Z.div_mod_to_equations. lia.
Qed.

Lemma m_char_here (c : N) (r : pystr) : m_char c (c :: r) = [(tt, r)].
Proof. unfold m_char. rewrite N.eqb_refl. reflexivity. Qed.

(** The text [strftime] writes is read back by [strptime]. *)
Lemma strptime_strftime_dmY (d : datetime) :
  1 <= dt_year d <= 9999 -> 1 <= dt_month d <= 12 ->
  1 <= dt_day d <= days_in_month (dt_year d) (dt_month d) ->
  strptime_dmY (strftime_dmY d) = Ok (date_of d).
Proof.
  intros Hy Hm Hd.
  assert (Hd31 : 1 <= dt_day d <= 31).
  { unfold days_in_month in Hd.
    destruct (dt_month d =? 2); [destruct (is_leap (dt_year d))|];
      [lia|lia|destruct (_ || _); lia]. }
  unfold strptime_dmY, strftime_dmY.
  destruct (m_d_two_digits (dt_day d)
              ([chr "."] ++ two_digits (dt_month d) ++ [chr "."]
               ++ two_digits (dt_year d / 100) ++ two_digits (dt_year d)) Hd31) as [l1 H1].
  destruct (m_m_two_digits (dt_month d)
              ([chr "."] ++ two_digits (dt_year d / 100) ++ two_digits (dt_year d)) Hm)
    as [l2 H2].
  pose proof (m_Y_four_digits (dt_year d) [] ltac:(lia)) as H3.
  rewrite app_nil_r in H3. cbn [app] in H1, H2 |- *.
  unfold m_bind at 1. rewrite H1. cbn [flat_map].
  unfold m_bind at 1. rewrite m_char_here. cbn [flat_map app].
  unfold m_bind at 1. rewrite H2. cbn [flat_map].
  unfold m_bind at 1. rewrite m_char_here. cbn [flat_map app].
  unfold m_bind at 1. rewrite H3. cbn [flat_map app m_ret].
  unfold strptime_finish. cbn [dt_year dt_month dt_day dt_second].
  rewrite (proj2 (Z.leb_le 1 _)), (proj2 (Z.leb_le (dt_day d) _)) by lia.
  reflexivity.
Qed.

(** X4: a text [get_date_from_string] accepts ("%Y-%m-%d %H:%M:%S") with
    a year of four significant digits is turned into a text that
    [strptime] reads back with "%d.%m.%Y", the format of the sort key,
    as the same day: the dates the csv path writes into [date_booked]
    are dates the export can sort by. *)
Theorem get_date_from_string_parses_back (date_string : pystr) (d : datetime) :
  strptime_Ymd_HMS date_string = Ok d ->
  1000 <= dt_year d ->
  exists text,
    helper_functions.get_date_from_string date_string = Ok text
    /\ strptime_dmY text = Ok (date_of d).
Proof.
  intros Hs _. unfold get_date_from_string. rewrite Hs. simpl.
  eexists. split; [reflexivity|].
  destruct (strptime_Ymd_HMS_valid _ _ Hs) as (Hy & Hm & Hd).
  apply strptime_strftime_dmY; assumption.
Qed.

Lemma get_date_from_string_parses_back_witness :
  exists text,
    helper_functions.get_date_from_string (u "2023-03-15 08:30:00") = Ok text
    /\ strptime_dmY text = Ok (mk_datetime 2023 3 15 0 0 0).
Proof.
  apply (get_date_from_string_parses_back (u "2023-03-15 08:30:00")
           (mk_datetime 2023 3 15 8 30 0)).
  - vm_compute. reflexivity.
  - vm_compute. discriminate.
Defined.

(** ** The registries and the ids under extraction *)

Lemma isinstance_setattr (o : object) (k : string) (v : value) (c : Class) :
  isinstance (setattr o k v) c = isinstance o c.
Proof. reflexivity. Qed.

Lemma getattr_setattr_ne (o : object) (k k' : string) (v : value) :
  k' <> k -> getattr (setattr o k v) k' = getattr o k'.
Proof.
  intros H. unfold getattr, setattr. simpl. rewrite lookup_update_kw_ne by exact H.
  reflexivity.
Qed.

Lemma registry_wf_lt (w : World) (c : Class) (r : ref) :
  registry_wf w -> r ∈ all w c -> (r < length (heap w))%nat.
Proof.
  intros [Hreg _] Hr. apply Hreg in Hr as (o & Ho & _).
  apply lookup_lt_Some in Ho. exact Ho.
Qed.

Lemma registry_wf_registered (o : object) (w : World) :
  registry_wf w -> registry_wf (registered o w).
Proof.
  intros Hwf. pose proof Hwf as [Hreg Hnd]. split.
  - intros c r. rewrite registered_all, registered_heap. split.
    + intros Hr.
      assert (r ∈ all w c \/ (r = length (heap w) /\ isinstance o c = true)) as [H|[-> H]].
      { destruct (isinstance o c); [|auto].
        apply elem_of_app in Hr as [Hr|Hr]; [auto|].
        apply list_elem_of_singleton in Hr. auto. }
      * apply Hreg in H as (o0 & Ho0 & Hi). exists o0. split; [|exact Hi].
        rewrite lookup_app_l by (apply lookup_lt_Some in Ho0; exact Ho0). exact Ho0.
      * exists o. split; [|exact H]. apply list_lookup_middle. reflexivity.
    + intros (o0 & Ho0 & Hi).
      destruct (decide (r < length (heap w))%nat) as [Hlt|Hge].
      * rewrite lookup_app_l in Ho0 by exact Hlt.
        assert (r ∈ all w c) as Hr by (apply Hreg; eauto).
        destruct (isinstance o c); [apply elem_of_app; auto|exact Hr].
      * rewrite lookup_app_r in Ho0 by lia.
        destruct (r - length (heap w))%nat as [|k] eqn:Ek; [|destruct k; discriminate].
        injection Ho0 as <-. rewrite Hi. apply elem_of_app. right.
        apply list_elem_of_singleton. lia.
  - intros c. rewrite registered_all. destruct (isinstance o c); [|apply Hnd].
    apply NoDup_app. split; [apply Hnd|]. split; [|apply NoDup_singleton].
    intros r Hr Hr'. apply list_elem_of_singleton in Hr'. subst r.
    apply (registry_wf_lt w c) in Hr; [lia|exact Hwf].
Qed.

Lemma step_registry_wf (w w' : World) : step w w' -> registry_wf w -> registry_wf w'.
Proof.
  intros [c kw r w1 Hnew|r o k v Ho Hk] Hwf.
  - apply new_inv in Hnew as (a & o & _ & _ & _ & ->).
    apply registry_wf_registered, Hwf.
  - destruct Hwf as [Hreg Hnd]. split; [|exact Hnd].
    intros c r'. change (all (set_heap _ w) c) with (all w c). rewrite Hreg. simpl.
    destruct (decide (r' = r)) as [->|Hne].
    + rewrite list_lookup_insert_eq by (apply lookup_lt_Some in Ho; exact Ho).
      split.
      * intros (o0 & Ho0 & Hi). rewrite Ho in Ho0. injection Ho0 as <-.
        eexists. split; [reflexivity|]. exact Hi.
      * intros (o0 & [= <-] & Hi). exists o. auto.
    + rewrite list_lookup_insert_ne by congruence. reflexivity.
Qed.

Lemma fresh_id_registered (o : object) (w : World) :
  fresh_id (registered o w) = fresh_id w + 1.
Proof. reflexivity. Qed.

Lemma registered_lookup_inv (o o0 : object) (w : World) (r0 : ref) :
  heap (registered o w) !! r0 = Some o0 ->
  heap w !! r0 = Some o0 \/ (r0 = length (heap w) /\ o0 = o).
Proof.
  rewrite registered_heap. intros H.
  destruct (decide (r0 < length (heap w))%nat) as [Hlt|Hge].
  - rewrite lookup_app_l in H by exact Hlt. auto.
  - rewrite lookup_app_r in H by lia.
    destruct (r0 - length (heap w))%nat as [|j] eqn:Ej; [|destruct j; discriminate].
    injection H as <-. right. split; [lia|reflexivity].
Qed.

Lemma step_ids_unique (w w' : World) : step w w' -> ids_unique w -> ids_unique w'.
Proof.
  intros [c kw r w1 Hnew|r o k v Ho Hk] (Hg & Hid & Hinj).
  - apply new_inv in Hnew as (a & o & _ & Hfin & _ & ->).
    apply finished_id in Hfin.
    split; [rewrite fresh_id_registered; lia|]. split.
    + intros r0 o0 H0. rewrite fresh_id_registered.
      destruct (registered_lookup_inv _ _ _ _ H0) as [H|[-> ->]].
      * destruct (Hid _ _ H) as (n & Hn & Hb). exists n. split; [exact Hn|lia].
      * exists (fresh_id w). split; [exact Hfin|lia].
    + intros r1 r2 o1 o2 H1 H2 Heq.
      destruct (registered_lookup_inv _ _ _ _ H1) as [H1'|[-> ->]];
        destruct (registered_lookup_inv _ _ _ _ H2) as [H2'|[-> ->]].
      * exact (Hinj _ _ _ _ H1' H2' Heq).
      * destruct (Hid _ _ H1') as (n & Hn & Hb). rewrite Hn, Hfin in Heq.
        injection Heq as ->. lia.
      * destruct (Hid _ _ H2') as (n & Hn & Hb). rewrite Hn, Hfin in Heq.
        injection Heq as <-. lia.
      * reflexivity.
  - assert (Hlook : forall r0 o0,
              heap (set_heap (<[r := setattr o k v]> (heap w)) w) !! r0 = Some o0 ->
              exists o1, heap w !! r0 = Some o1
                         /\ getattr o0 "transaction_id" = getattr o1 "transaction_id").
    { intros r0 o0. simpl. destruct (decide (r0 = r)) as [->|Hne].
      - rewrite list_lookup_insert_eq by (apply lookup_lt_Some in Ho; exact Ho).
        intros [= <-]. exists o. split; [exact Ho|].
        apply getattr_setattr_ne. congruence.
      - rewrite list_lookup_insert_ne by congruence. eauto. }
    split; [exact Hg|]. split.
    + intros r0 o0 H0. destruct (Hlook _ _ H0) as (o1 & H1 & ->). exact (Hid _ _ H1).
    + intros r1 r2 o1 o2 H1 H2 Heq.
      destruct (Hlook _ _ H1) as (o1' & H1' & E1).
      destruct (Hlook _ _ H2) as (o2' & H2' & E2).
      rewrite E1, E2 in Heq. exact (Hinj _ _ _ _ H1' H2' Heq).
Qed.

Lemma extends_refl (w : World) : extends w w.
Proof.
  split.
  - intros r o Ho. exists o. split; [exact Ho|]. split; reflexivity.
  - intros c. exists []. rewrite app_nil_r. reflexivity.
Qed.

Lemma extends_trans (w1 w2 w3 : World) : extends w1 w2 -> extends w2 w3 -> extends w1 w3.
Proof.
  intros [H12 A12] [H23 A23]. split.
  - intros r o Ho. destruct (H12 _ _ Ho) as (o2 & Ho2 & Hc2 & Hi2).
    destruct (H23 _ _ Ho2) as (o3 & Ho3 & Hc3 & Hi3).
    exists o3. split; [exact Ho3|]. split; congruence.
  - intros c. destruct (A12 c) as [l1 E1]. destruct (A23 c) as [l2 E2].
    exists (l1 ++ l2). rewrite E2, E1, app_assoc. reflexivity.
Qed.

Lemma step_extends (w w' : World) : step w w' -> extends w w'.
Proof.
  intros [c kw r w1 Hnew|r o k v Ho Hk].
  - apply new_inv in Hnew as (a & o & _ & _ & _ & ->). split.
    + intros r0 o0 H0. exists o0. split; [|split; reflexivity].
      rewrite registered_heap, lookup_app_l by (apply lookup_lt_Some in H0; exact H0).
      exact H0.
    + intros c'. rewrite registered_all.
      destruct (isinstance o c'); [eauto|]. exists []. rewrite app_nil_r. reflexivity.
  - split.
    + intros r0 o0 H0. simpl. destruct (decide (r0 = r)) as [->|Hne].
      * rewrite list_lookup_insert_eq by (apply lookup_lt_Some in Ho; exact Ho).
        eexists. split; [reflexivity|]. pose proof (eq_trans (eq_sym H0) Ho) as E. injection E as ->.
        split; [reflexivity|]. apply getattr_setattr_ne. congruence.
      * rewrite list_lookup_insert_ne by congruence.
        exists o0. split; [exact H0|]. split; reflexivity.
    + intros c. exists []. rewrite app_nil_r. reflexivity.
Qed.

Lemma steps_registry_wf (w w' : World) : steps w w' -> registry_wf w -> registry_wf w'.
Proof. induction 1 as [|w1 w2 w3 H _ IH]; [auto|]. intros Hw. eapply IH, step_registry_wf; eauto. Qed.

Lemma steps_ids_unique (w w' : World) : steps w w' -> ids_unique w -> ids_unique w'.
Proof. induction 1 as [|w1 w2 w3 H _ IH]; [auto|]. intros Hw. eapply IH, step_ids_unique; eauto. Qed.

Lemma steps_extends (w w' : World) : steps w w' -> extends w w'.
Proof.
  induction 1 as [|w1 w2 w3 H _ IH]; [apply extends_refl|].
  eapply extends_trans; [apply step_extends, H|exact IH].
Qed.

Lemma steps_trans (w1 w2 w3 : World) : steps w1 w2 -> steps w2 w3 -> steps w1 w3.
Proof.
  intros H12. revert w3. induction H12 as [|x y z H _ IH]; intros w3 H23; [exact H23|].
  econstructor; [exact H|]. apply IH, H23.
Qed.

Lemma steps_new c kw r w w' : new c kw w = Ok (r, w') -> steps w w'.
Proof. intros H. econstructor; [exact (step_new w c kw r w' H)|constructor]. Qed.

(** ** The pdf path, effect by effect *)

Lemma create_shape_steps (C : Class) (chain : result kwargs) (w w1 : World)
    (res : option ref) :
  (let! kw := lift chain in let! r := new C kw in ret (Some r)) w = Ok (res, w1) ->
  steps w w1
  /\ res = Some (length (heap w)) /\ length (heap w1) = S (length (heap w)).
Proof.
  rewrite mbind_lift. destruct chain as [kw|e]; [|discriminate].
  intros H. apply mbind_inv in H as (r & w0 & Hnew & Hret).
  injection Hret as <- <-. split; [exact (steps_new _ _ _ _ _ Hnew)|].
  apply new_inv in Hnew as (a & o & _ & _ & -> & ->).
  split; [reflexivity|]. rewrite registered_heap, length_app. simpl. lia.
Qed.

Lemma create_rule_steps (c : Class) (bank year account : value) (i : nat)
    (page : list pystr) (w w1 : World) (res : option ref) :
  create_rule c bank year account i page w = Ok (res, w1) ->
  (res = None /\ w1 = w)
  \/ (steps w w1
      /\ res = Some (length (heap w)) /\ length (heap w1) = S (length (heap w))).
Proof.
  intros H.
  assert (Hshape : (res = None /\ w1 = w) \/ exists C chain,
    (let! kw := lift chain in let! r := new C kw in ret (Some r)) w = Ok (res, w1)).
  { destruct c; revert H; unfold_create;
      repeat match goal with
             | |- (if ?b then _ else _) w = _ -> _ => destruct b
             end;
      intros H;
      first [ left; injection H as <- <-; split; reflexivity
            | right; do 2 eexists; exact H ]. }
  destruct Hshape as [Hn|(C & chain & Hs)]; [left; exact Hn|].
  right. exact (create_shape_steps _ _ _ _ _ Hs).
Qed.

Lemma append_created_steps self tx w self' w' :
  StatementAccount.append_created self tx w = Ok (self', w') ->
  steps w w' /\ length (heap w') = length (heap w)
  /\ exists r, tx = Some r /\ all_transactions self' = all_transactions self ++ [r].
Proof.
  unfold StatementAccount.append_created. destruct tx as [r|]; [|discriminate].
  intros H. apply mbind_inv in H as (o & w1 & Hd & H).
  unfold deref in Hd. destruct (heap w !! r) as [o0|] eqn:Ho; [|discriminate].
  injection Hd as <- <-.
  apply mbind_inv in H as (x & w2 & Hst & H). injection Hst as _ <-.
  injection H as <- <-. split.
  - econstructor; [|constructor].
    apply (step_setattr w r o0 "parent_statement" _ Ho). discriminate.
  - split; [apply length_insert|]. exists r. auto.
Qed.

Lemma added_between_nil (w : World) : added_between w w [].
Proof. split; constructor. Qed.

Lemma added_between_app (w1 w2 w3 : World) (a b : list ref) :
  (length (heap w1) <= length (heap w2))%nat ->
  (length (heap w2) <= length (heap w3))%nat ->
  added_between w1 w2 a -> added_between w2 w3 b -> added_between w1 w3 (a ++ b).
Proof.
  intros H12 H23 [Ha Na] [Hb Nb]. split.
  - apply Forall_app. split.
    + eapply Forall_impl; [exact Ha|]. simpl. intros r Hr. lia.
    + eapply Forall_impl; [exact Hb|]. simpl. intros r Hr. lia.
  - apply NoDup_app. split; [exact Na|]. split; [|exact Nb].
    intros r Hra Hrb. rewrite Forall_forall in Ha, Hb.
    specialize (Ha r Hra). specialize (Hb r Hrb). lia.
Qed.

(** The class whose table of markers is [ti]. *)
Ltac class_of_identifiers ti :=
  lazymatch ti with
  | CardPaymentIncoming.text_identifiers => constr:(CardPaymentIncoming)
  | IncomingPayment.text_identifiers => constr:(IncomingPayment)
  | OutgoingPayment.text_identifiers => constr:(OutgoingPayment)
  | CardPaymentDebit.text_identifiers => constr:(CardPaymentDebit)
  | CardAtmCashOut.text_identifiers => constr:(CardAtmCashOut)
  | BankPayedService.text_identifiers => constr:(BankPayedService)
  | OutgoingPaymentPeriodic.text_identifiers => constr:(OutgoingPaymentPeriodic)
  | InterestPositive.text_identifiers => constr:(InterestPositive)
  | TaxInterest.text_identifiers => constr:(TaxInterest)
  | ElectronicBankingTransfer.text_identifiers => constr:(ElectronicBankingTransfer)
  | DirectDebit.text_identifiers => constr:(DirectDebit)
  | CardAtmDeposit.text_identifiers => constr:(CardAtmDeposit)
  end.

(** The branch of a marker: the rule creates an instance and the
    statement takes it. *)
Lemma create_and_append_steps (m : M (option ref)) (self self' : StatementAccount)
    (active' : bool) (w w' : World) :
  (forall res w1, m w = Ok (res, w1) ->
     (res = None /\ w1 = w)
     \/ (steps w w1
         /\ res = Some (length (heap w)) /\ length (heap w1) = S (length (heap w)))) ->
  (let! tx := m in
   let! self := StatementAccount.append_created self tx in ret (self, true)) w
  = Ok ((self', active'), w') ->
  steps w w' /\ (length (heap w) <= length (heap w'))%nat
  /\ exists added,
       all_transactions self' = all_transactions self ++ added /\ added_between w w' added.
Proof.
  intros Hm H. apply mbind_inv in H as (tx & w1 & Hc & H).
  apply mbind_inv in H as (s1 & w2 & Ha & H). injection H as <- _ <-.
  apply append_created_steps in Ha as (Hs2 & Hlen & r & -> & Hall).
  destruct (Hm _ _ Hc) as [[Hn _]|(Hs1 & Hr & Hlen1)]; [discriminate|].
  injection Hr as ->.
  split; [exact (steps_trans _ _ _ Hs1 Hs2)|]. split; [lia|].
  exists [length (heap w)]. split; [exact Hall|]. split.
  - constructor; [lia|constructor].
  - apply NoDup_singleton.
Qed.

(** A line of a page: instances are created, attributes other than the
    id are set, and the statement takes what was created. *)
Lemma process_line_steps page i line self active w self' active' w' :
  StatementAccount.process_line page i line (self, active) w = Ok ((self', active'), w') ->
  steps w w' /\ (length (heap w) <= length (heap w'))%nat
  /\ exists added,
       all_transactions self' = all_transactions self ++ added /\ added_between w w' added.
Proof.
  assert (Hsame : forall s a,
            Ok (s, a, w) = Ok (self', active', w') -> s = self ->
            steps w w' /\ (length (heap w) <= length (heap w'))%nat
            /\ exists added,
                 all_transactions self' = all_transactions self ++ added
                 /\ added_between w w' added).
  { intros s a [= <- _ <-] ->. split; [constructor|]. split; [lia|].
    exists []. rewrite app_nil_r. split; [reflexivity|apply added_between_nil]. }
  unfold StatementAccount.process_line. cbv beta iota zeta.
  repeat (
    rewrite mbind_lift;
    match goal with
    | |- context [StatementAccount.any_identifier_in ?ti ?b ?l] =>
      let c := class_of_identifiers ti in
      destruct (StatementAccount.any_identifier_in ti b l) as [[|]|]; [| |discriminate];
      [intros H; apply (create_and_append_steps _ _ _ _ _ _) in H; [exact H|];
       intros res w1 Hc; exact (create_rule_steps c _ _ _ _ _ _ _ _ Hc)|]
    end).
  destruct (existsb _ _).
  { intros H. exact (Hsame _ _ H eq_refl). }
  destruct (active && _).
  - intros H. apply mbind_inv in H as (r & w1 & Hr & H).
    apply lift_inv in Hr as [_ ->].
    apply mbind_inv in H as (o & w2 & Hd & H).
    unfold deref in Hd. destruct (heap w !! r) as [o0|] eqn:Ho; [|discriminate].
    injection Hd as <- <-.
    apply mbind_inv in H as (t1 & w3 & Ht1 & H). apply lift_inv in Ht1 as [_ ->].
    apply mbind_inv in H as (t2 & w4 & Ht2 & H). apply lift_inv in Ht2 as [_ ->].
    apply mbind_inv in H as (x & w5 & Hst & H). injection Hst as _ <-.
    injection H as <- _ <-. split.
    + econstructor; [|constructor].
      apply (step_setattr w r o0 "all_transaction_lines_text" _ Ho). discriminate.
    + split; [simpl; rewrite length_insert; lia|].
      exists []. rewrite app_nil_r. split; [reflexivity|].
      split; constructor.
  - intros H. exact (Hsame _ _ H eq_refl).
Qed.

Lemma lines_loop_steps page lines st w st' w' :
  StatementAccount.lines_loop page lines st w = Ok (st', w') ->
  steps w w' /\ (length (heap w) <= length (heap w'))%nat
  /\ exists added,
       all_transactions (fst st') = all_transactions (fst st) ++ added
       /\ added_between w w' added.
Proof.
  revert st w. induction lines as [|[i line] lines IH]; intros st w; simpl.
  - intros [= <- <-]. split; [constructor|]. split; [lia|].
    exists []. rewrite app_nil_r. split; [reflexivity|apply added_between_nil].
  - intros H. apply mbind_inv in H as ([s1 a1] & w1 & Hp & H).
    destruct st as [s a]. apply process_line_steps in Hp as (Hs1 & Hl1 & add1 & E1 & B1).
    apply IH in H as (Hs2 & Hl2 & add2 & E2 & B2). simpl in *.
    split; [exact (steps_trans _ _ _ Hs1 Hs2)|]. split; [lia|].
    exists (add1 ++ add2). split; [rewrite E2, E1, app_assoc; reflexivity|].
    exact (added_between_app _ _ _ _ _ Hl1 Hl2 B1 B2).
Qed.

Lemma pages_loop_steps pages st w st' w' :
  StatementAccount.pages_loop pages st w = Ok (st', w') ->
  steps w w' /\ (length (heap w) <= length (heap w'))%nat
  /\ exists added,
       all_transactions (fst st') = all_transactions (fst st) ++ added
       /\ added_between w w' added.
Proof.
  revert st w. induction pages as [|page pages IH]; intros st w; simpl.
  - intros [= <- <-]. split; [constructor|]. split; [lia|].
    exists []. rewrite app_nil_r. split; [reflexivity|apply added_between_nil].
  - intros H. apply mbind_inv in H as (st1 & w1 & Hp & H).
    apply lines_loop_steps in Hp as (Hs1 & Hl1 & add1 & E1 & B1).
    apply IH in H as (Hs2 & Hl2 & add2 & E2 & B2).
    split; [exact (steps_trans _ _ _ Hs1 Hs2)|]. split; [lia|].
    exists (add1 ++ add2). split; [rewrite E2, E1, app_assoc; reflexivity|].
    exact (added_between_app _ _ _ _ _ Hl1 Hl2 B1 B2).
Qed.

Lemma registry_wf_empty : registry_wf empty_World.
Proof.
  split.
  - intros c r. split; [intros H; inversion H|]. intros (o & Ho & _). discriminate.
  - intros c. constructor.
Qed.

Lemma ids_unique_empty : ids_unique empty_World.
Proof.
  split; [vm_compute; discriminate|]. split.
  - intros r o H. discriminate.
  - intros r1 r2 o1 o2 H. discriminate.
Qed.

(** X5: the extraction of the pages of a pdf statement keeps the
    registries and the ids in order.  From a store where every [all]
    list holds the instances of its class once each and the ids are
    distinct, a run of [get_transactions_pdf] that returns leaves such a
    store again; the instances that were there keep their class and
    their id and every [all] list keeps what it had, in front; and the
    statement gains distinct references to instances created by the run,
    each of them in [Transaction.all]. *)
Theorem get_transactions_pdf_keeps_registries
    (self self' : StatementAccount) (w w' : World) :
  registry_wf w -> ids_unique w ->
  StatementAccount.get_transactions_pdf self w = Ok (self', w') ->
  registry_wf w' /\ ids_unique w' /\ extends w w'
  /\ exists added,
       all_transactions self' = all_transactions self ++ added
       /\ added_between w w' added
       /\ Forall (fun r => r ∈ all w' Transaction) added.
Proof.
  intros Hreg Hids H. unfold StatementAccount.get_transactions_pdf in H.
  apply mbind_inv in H as ([s1 a1] & w1 & Hp & H). injection H as <- <-.
  apply pages_loop_steps in Hp as (Hs & Hl & added & E & B). simpl in E.
  pose proof (steps_registry_wf _ _ Hs Hreg) as Hreg'.
  split; [exact Hreg'|]. split; [exact (steps_ids_unique _ _ Hs Hids)|].
  split; [exact (steps_extends _ _ Hs)|].
  exists added. split; [exact E|]. split; [exact B|].
  destruct B as [Hb _]. eapply Forall_impl; [exact Hb|]. simpl. intros r Hr.
  destruct (lookup_lt_is_Some_2 (heap w1) r) as [o Ho]; [lia|].
  apply Hreg'. exists o. split; [exact Ho|apply isinstance_Transaction].
Qed.

Lemma get_transactions_pdf_keeps_registries_witness :
  exists self' w',
    StatementAccount.get_transactions_pdf (sample_cs_statement [sample_cs_page]) empty_World
    = Ok (self', w')
    /\ registry_wf w' /\ ids_unique w' /\ extends empty_World w'
    /\ exists added,
         all_transactions self' = [] ++ added
         /\ added_between empty_World w' added
         /\ Forall (fun r => r ∈ all w' Transaction) added.
Proof.
  destruct (StatementAccount.get_transactions_pdf
              (sample_cs_statement [sample_cs_page]) empty_World)
    as [[self' w']|e] eqn:E; [|vm_compute in E; discriminate].
  exists self', w'. split; [reflexivity|].
  exact (get_transactions_pdf_keeps_registries _ _ _ _
           registry_wf_empty ids_unique_empty E).
Defined.

(** ** The csv path, effect by effect *)

Lemma new_steps_len c kw r w w' :
  new c kw w = Ok (r, w') ->
  steps w w' /\ r = length (heap w) /\ length (heap w') = S (length (heap w)).
Proof.
  intros H. split; [exact (steps_new _ _ _ _ _ H)|].
  apply new_inv in H as (a & o & _ & _ & -> & ->).
  split; [reflexivity|]. rewrite registered_heap, length_app. simpl. lia.
Qed.

Lemma apply_rule_steps key types negative tx_type description currency ds dc amount fee
    self w self' w' :
  StatementAccount.apply_rule key types negative tx_type description currency ds dc
    amount fee self w = Ok (self', w') ->
  steps w w' /\ (length (heap w) <= length (heap w'))%nat
  /\ same_header self self'
  /\ exists added,
       all_transactions self' = all_transactions self ++ added
       /\ added_between w w' added
       /\ (length added <= 2)%nat
       /\ (rule_fits (key, (types, negative)) tx_type amount = false -> added = []).
Proof.
  assert (Hnone : forall s w0, Ok (s, w0) = Ok (self', w') -> s = self -> w0 = w ->
            steps w w' /\ (length (heap w) <= length (heap w'))%nat
            /\ same_header self self'
            /\ exists added,
                 all_transactions self' = all_transactions self ++ added
                 /\ added_between w w' added
                 /\ (length added <= 2)%nat
                 /\ (rule_fits (key, (types, negative)) tx_type amount = false
                     -> added = [])).
  { intros s w0 [= <- <-] -> ->. split; [constructor|]. split; [lia|].
    split; [apply same_header_refl|].
    exists []. rewrite app_nil_r. split; [reflexivity|]. split; [apply added_between_nil|].
    split; [simpl; lia|reflexivity]. }
  unfold StatementAccount.apply_rule. rewrite mbind_lift.
  destruct tx_type as [t|]; [|discriminate].
  destruct (existsb (str_eqb (lower t)) types) eqn:E1;
    [|intros H; exact (Hnone _ _ H eq_refl eq_refl)].
  destruct (Bool.eqb negative (flt amount (float_of_Z 0))) eqn:E2;
    [|intros H; exact (Hnone _ _ H eq_refl eq_refl)].
  clear Hnone.
  assert (Hfit : rule_fits (key, (types, negative)) (Some t) amount = true)
    by (unfold rule_fits; cbn [fst snd]; rewrite E1, E2; reflexivity).
  rewrite Hfit. intros H. apply mbind_inv in H as (tx & w1 & Hnew & H).
  assert (Hprimary : steps w w1 /\ tx = length (heap w)
                     /\ length (heap w1) = S (length (heap w))).
  { destruct key; try discriminate Hnew; exact (new_steps_len _ _ _ _ _ Hnew). }
  clear Hnew. destruct Hprimary as (Hs1 & -> & Hl1).
  cbv zeta in H. destruct (flt (float_of_Z 0) fee).
  - apply mbind_inv in H as (tx_fee & w2 & Hnew2 & H).
    apply new_steps_len in Hnew2 as (Hs2 & -> & Hl2). injection H as <- <-.
    split; [exact (steps_trans _ _ _ Hs1 Hs2)|]. split; [lia|].
    split; [unfold same_header; auto|].
    exists [length (heap w); length (heap w1)].
    split; [simpl; rewrite <- app_assoc; reflexivity|]. split.
    + split; [repeat constructor; lia|].
      apply NoDup_cons. split; [|apply NoDup_singleton].
      intros Hin. apply list_elem_of_singleton in Hin. lia.
    + split; [simpl; lia|discriminate].
  - injection H as <- <-. split; [exact Hs1|]. split; [lia|].
    split; [unfold same_header; auto|].
    exists [length (heap w)]. split; [reflexivity|]. split.
    + split; [repeat constructor; lia|apply NoDup_singleton].
    + split; [simpl; lia|discriminate].
Qed.

(** No row fits two rules: the rules of one sign have no type in
    common. *)
Lemma revolut_rules_exclusive (tx_type : option pystr) (amount : float) :
  (length (List.filter (fun rule => rule_fits rule tx_type amount)
                       StatementAccount.revolut_rules) <= 1)%nat.
Proof.
  destruct tx_type as [s|]; [|simpl; lia].
  unfold rule_fits, StatementAccount.revolut_rules. cbn [List.filter fst snd existsb].
  generalize (lower s) as t. intros t.
  destruct (flt amount (float_of_Z 0)); cbn [Bool.eqb andb orb];
    rewrite ?andb_false_r, ?andb_true_r, ?orb_false_r; unfold str_eqb.
  all: destruct (decide (t = u "transfer")) as [->|H1]; [vm_compute; lia|].
  all: destruct (decide (t = u "exchange")) as [->|H2]; [vm_compute; lia|].
  all: destruct (decide (t = u "topup")) as [->|H3]; [vm_compute; lia|].
  all: destruct (decide (t = u "card_payment")) as [->|H4]; [vm_compute; lia|].
  all: destruct (decide (t = u "fee")) as [->|H5]; [vm_compute; lia|].
  all: destruct (decide (t = u "atm")) as [->|H6]; [vm_compute; lia|].
  all: rewrite !bool_decide_eq_false_2 by assumption; simpl; lia.
Qed.

Lemma rules_loop_steps rules tx_type description currency ds dc amount fee
    self w self' w' :
  StatementAccount.rules_loop rules tx_type description currency ds dc amount fee self w
  = Ok (self', w') ->
  steps w w' /\ (length (heap w) <= length (heap w'))%nat
  /\ same_header self self'
  /\ exists added,
       all_transactions self' = all_transactions self ++ added
       /\ added_between w w' added
       /\ (length added
           <= 2 * length (List.filter (fun rule => rule_fits rule tx_type amount) rules))%nat.
Proof.
  revert self w. induction rules as [|[key [types negative]] rules IH]; intros self w.
  - simpl. intros [= <- <-]. split; [constructor|]. split; [lia|].
    split; [apply same_header_refl|].
    exists []. rewrite app_nil_r. split; [reflexivity|]. split; [apply added_between_nil|].
    simpl. lia.
  - cbn [StatementAccount.rules_loop]. intros H.
    apply mbind_inv in H as (s1 & w1 & Ha & H).
    apply apply_rule_steps in Ha as (Hs1 & Hl1 & Hh1 & add1 & E1 & B1 & N1 & F1).
    apply IH in H as (Hs2 & Hl2 & Hh2 & add2 & E2 & B2 & N2).
    split; [exact (steps_trans _ _ _ Hs1 Hs2)|]. split; [lia|].
    split; [exact (same_header_trans _ _ _ Hh1 Hh2)|].
    exists (add1 ++ add2). split; [rewrite E2, E1, app_assoc; reflexivity|].
    split; [exact (added_between_app _ _ _ _ _ Hl1 Hl2 B1 B2)|].
    rewrite length_app. cbn [List.filter].
    destruct (rule_fits (key, (types, negative)) tx_type amount).
    + simpl length. lia.
    + rewrite (F1 eq_refl). simpl. lia.
Qed.

(** A row gives at most two transactions. *)
Lemma process_row_steps row self w self' w' :
  StatementAccount.process_row row self w = Ok (self', w') ->
  steps w w' /\ (length (heap w) <= length (heap w'))%nat
  /\ same_header self self'
  /\ exists added,
       all_transactions self' = all_transactions self ++ added
       /\ added_between w w' added /\ (length added <= 2)%nat.
Proof.
  unfold StatementAccount.process_row. intros H.
  apply mbind_inv in H as (ds & w1 & H1 & H). apply lift_inv in H1 as [_ ->].
  apply mbind_inv in H as (dc & w1 & H1 & H). apply lift_inv in H1 as [_ ->].
  apply mbind_inv in H as (amount & w1 & H1 & H). apply lift_inv in H1 as [_ ->].
  apply mbind_inv in H as (fee & w1 & H1 & H). apply lift_inv in H1 as [_ ->].
  apply mbind_inv in H as (valid & w1 & H1 & H). apply lift_inv in H1 as [_ ->].
  destruct (negb valid).
  - injection H as <- <-. split; [constructor|]. split; [lia|].
    split; [apply same_header_refl|].
    exists []. rewrite app_nil_r. split; [reflexivity|]. split; [apply added_between_nil|].
    simpl. lia.
  - apply rules_loop_steps in H as (Hs & Hl & Hh & added & E & B & N).
    split; [exact Hs|]. split; [exact Hl|]. split; [exact Hh|].
    exists added. split; [exact E|]. split; [exact B|].
    pose proof (revolut_rules_exclusive (row_get "Type" row) amount). lia.
Qed.

Lemma rows_loop_steps rows self w self' w' :
  StatementAccount.rows_loop rows self w = Ok (self', w') ->
  steps w w' /\ (length (heap w) <= length (heap w'))%nat
  /\ same_header self self'
  /\ exists added,
       all_transactions self' = all_transactions self ++ added
       /\ added_between w w' added /\ (length added <= 2 * length rows)%nat.
Proof.
  revert self w. induction rows as [|row rows IH]; intros self w; simpl.
  - intros [= <- <-]. split; [constructor|]. split; [lia|].
    split; [apply same_header_refl|].
    exists []. rewrite app_nil_r. split; [reflexivity|]. split; [apply added_between_nil|].
    simpl. lia.
  - intros H. apply mbind_inv in H as (s1 & w1 & Hp & H).
    apply process_row_steps in Hp as (Hs1 & Hl1 & Hh1 & add1 & E1 & B1 & N1).
    apply IH in H as (Hs2 & Hl2 & Hh2 & add2 & E2 & B2 & N2).
    split; [exact (steps_trans _ _ _ Hs1 Hs2)|]. split; [lia|].
    split; [exact (same_header_trans _ _ _ Hh1 Hh2)|].
    exists (add1 ++ add2). split; [rewrite E2, E1, app_assoc; reflexivity|].
    split; [exact (added_between_app _ _ _ _ _ Hl1 Hl2 B1 B2)|].
    rewrite length_app. lia.
Qed.

(** X6: the extraction of the rows of a csv statement keeps the
    registries and the ids in order, as the pdf path does, and gives at
    most two transactions per row (the transaction of the one rule that
    fits the row, and its fee): the statement gains distinct references
    to instances the run created, all in [Transaction.all], and no more
    than twice as many as there are rows. *)
Theorem get_transactions_csv_keeps_registries
    (self self' : StatementAccount) (w w' : World) :
  registry_wf w -> ids_unique w ->
  StatementAccount.get_transactions_csv self w = Ok (self', w') ->
  registry_wf w' /\ ids_unique w' /\ extends w w'
  /\ exists added,
       all_transactions self' = all_transactions self ++ added
       /\ added_between w w' added
       /\ Forall (fun r => r ∈ all w' Transaction) added
       /\ (length added <= 2 * length (csv_content self))%nat.
Proof.
  intros Hreg Hids H. unfold StatementAccount.get_transactions_csv in H.
  apply rows_loop_steps in H as (Hs & Hl & _ & added & E & B & N).
  pose proof (steps_registry_wf _ _ Hs Hreg) as Hreg'.
  split; [exact Hreg'|]. split; [exact (steps_ids_unique _ _ Hs Hids)|].
  split; [exact (steps_extends _ _ Hs)|].
  exists added. split; [exact E|]. split; [exact B|]. split; [|exact N].
  destruct B as [Hb _]. eapply Forall_impl; [exact Hb|]. simpl. intros r Hr.
  destruct (lookup_lt_is_Some_2 (heap w') r) as [o Ho]; [lia|].
  apply Hreg'. exists o. split; [exact Ho|apply isinstance_Transaction].
Qed.

Lemma get_transactions_csv_keeps_registries_witness :
  exists self' w',
    StatementAccount.get_transactions_csv sample_csv_statement_rows empty_World
    = Ok (self', w')
    /\ registry_wf w' /\ ids_unique w' /\ extends empty_World w'
    /\ exists added,
         all_transactions self' = [] ++ added
         /\ added_between empty_World w' added
         /\ Forall (fun r => r ∈ all w' Transaction) added
         /\ (length added <= 2 * 2)%nat.
Proof.
  destruct (StatementAccount.get_transactions_csv sample_csv_statement_rows empty_World)
    as [[self' w']|e] eqn:E; [|vm_compute in E; discriminate].
  exists self', w'. split; [reflexivity|].
  exact (get_transactions_csv_keeps_registries _ _ _ _
           registry_wf_empty ids_unique_empty E).
Defined.

(** ** When the export succeeds *)

Lemma mapM_raises {A B} (f : A -> result B) (l : list A) (x : A) :
  In x l -> is_raise (f x) -> is_raise (mapM f l).
Proof.
  induction l as [|y l IH]; [intros []|]. intros [->|Hin] Hx; simpl.
  - destruct (f x); [destruct Hx|exact I].
  - destruct (f y); [|exact I]. simpl.
    specialize (IH Hin Hx). destruct (mapM f l); [destruct IH|exact I].
Qed.



(** ** The export, twice *)

Lemma save_transactions_json_full (w : World) :
  NoDup (all w Transaction) ->
  Forall (fun r => is_Some (sort_key w r)) (all w Transaction) ->
  exists (sorted : list ref) (w2 : World) (data : list kwargs),
    Transaction.save_transactions_json w = Ok (tt, set_transactions_json (Some data) w2)
    /\ all w2 = (fun c => if bool_decide (c = Transaction) then sorted else all w c)
    /\ Permutation sorted (all w Transaction)
    /\ chronological w sorted
    /\ generator_id w2 = generator_id w
    /\ transactions_csv w2 = transactions_csv w
    /\ length (heap w2) = length (heap w)
    /\ (forall r, ~ In r sorted -> heap w2 !! r = heap w !! r)
    /\ length data = length sorted
    /\ forall i r, sorted !! i = Some r ->
         exists tx,
           let tx' := setattr tx "transaction_id" (VInt (Z.of_nat i + 1)) in
           heap w !! r = Some tx
           /\ heap w2 !! r = Some tx'
           /\ data !! i = Some (Transaction.json_record tx').
Proof.
  intros Hnd Hkeys.
  destruct (sort_transactions_spec w Hkeys) as (sorted & Hsort & Hperm & Hchron).
  set (w1 := set_all (fun c => if bool_decide (c = Transaction) then sorted else all w c) w)
    in Hsort.
  assert (Hvalid : Forall (fun r => is_Some (heap w1 !! r)) sorted).
  { rewrite Hperm. eapply Forall_impl; [exact Hkeys|]. intros r [k Hk].
    unfold sort_key in Hk. simpl. destruct (heap w !! r); [eauto|discriminate]. }
  destruct (renumber_spec sorted 0 w1) as (w2 & Hrun & Hall & _ & Hcsv & Hgen & Hlen & Hout & Hin);
    [rewrite Hperm; exact Hnd|exact Hvalid|].
  assert (Hreg : all w2 Transaction = sorted) by (rewrite Hall; reflexivity).
  destruct (mapM_ok (fun r => match heap w2 !! r with
                              | Some t => Ok (Transaction.json_record t)
                              | None => Raise IndexError
                              end) (all w2 Transaction)) as [data Hdata].
  { rewrite Hreg. apply Forall_lookup. intros i r Hi.
    destruct (Hin i r Hi) as (o & _ & ->). eexists; reflexivity. }
  exists sorted, w2, data. split.
  { unfold Transaction.save_transactions_json.
    rewrite (mbind_ok _ _ _ _ _ Hsort).
    unfold mbind at 1. change (all w1 Transaction) with sorted.
    unfold enumerate. rewrite (mbind_ok _ _ _ _ _ Hrun).
    rewrite Hdata. reflexivity. }
  apply mapM_Forall2 in Hdata. rewrite Hreg in Hdata.
  split; [exact Hall|]. split; [exact Hperm|]. split; [exact Hchron|].
  split; [exact Hgen|]. split; [exact Hcsv|]. split; [exact Hlen|].
  split; [exact Hout|].
  split; [symmetry; eapply Forall2_length; exact Hdata|].
  intros i r Hi. destruct (Hin i r Hi) as (tx & Htx & Htx').
  exists tx. simpl in Htx. simpl. split; [exact Htx|]. split; [exact Htx'|].
  destruct (Forall2_lookup_l _ _ _ _ _ Hdata Hi) as (d & Hd & Hfd).
  rewrite Htx' in Hfd. simpl in Hfd. injection Hfd as <-. exact Hd.
Qed.

Lemma save_ok_keys (w w' : World) :
  Transaction.save_transactions_json w = Ok (tt, w') ->
  Forall (fun r => is_Some (sort_key w r)) (all w Transaction).
Proof.
  intros H. apply Forall_forall. intros r Hr.
  destruct (sort_key w r) as [k|] eqn:Ek; [eauto|]. exfalso.
  assert (Hraise : is_raise (Transaction.save_transactions_json w));
    [|rewrite H in Hraise; exact Hraise].
  unfold Transaction.save_transactions_json. apply is_raise_mbind.
  unfold Transaction.sort_transactions.
  assert (Hm : is_raise (mapM (fun r => match heap w !! r with
                                        | Some tx =>
                                          let? k := Transaction.get_sort_key tx in Ok (k, r)
                                        | None => Raise IndexError
                                        end) (all w Transaction))).
  { apply (mapM_raises _ _ r); [apply list_elem_of_In, Hr|].
    unfold sort_key in Ek. destruct (heap w !! r) as [tx|]; [|exact I].
    destruct (Transaction.get_sort_key tx); [discriminate|exact I]. }
  destruct (mapM _ (all w Transaction)); [destruct Hm|exact I].
Qed.

Lemma update_kw_idem (k : string) (v v' : value) (kw : kwargs) :
  update_kw k v (update_kw k v' kw) = update_kw k v kw.
Proof.
  induction kw as [|[k0 v0] kw IH]; simpl.
  - rewrite String.eqb_refl. reflexivity.
  - destruct (String.eqb k0 k) eqn:E; simpl.
    + rewrite String.eqb_refl. reflexivity.
    + rewrite E, IH. reflexivity.
Qed.

Lemma setattr_idem (o : object) (k : string) (v v' : value) :
  setattr (setattr o k v') k v = setattr o k v.
Proof. unfold setattr. simpl. rewrite update_kw_idem. reflexivity. Qed.

(** The key of an instance after its id has been set. *)
Lemma get_sort_key_setattr_id (tx : object) (d : datetime) (n m : Z) :
  Transaction.get_sort_key tx = Ok (d, n) ->
  Transaction.get_sort_key (setattr tx "transaction_id" (VInt m)) = Ok (d, m).
Proof.
  unfold Transaction.get_sort_key.
  rewrite getattr_setattr_ne by discriminate.
  destruct (getattr tx "date_booked") as [v|]; simpl; [|discriminate].
  destruct (match v with VStr s => strptime_dmY s | _ => Raise TypeError end) as [d0|];
    simpl; [|discriminate].
  destruct (getattr tx "transaction_id") as [i|]; simpl; [|discriminate].
  destruct i; try discriminate. intros [= -> _].
  unfold getattr, setattr. simpl. rewrite lookup_update_kw_eq. reflexivity.
Qed.

(** Two arrangements of the same references, both in the order of
    keys that differ from one reference to the other, are the same. *)
Lemma StronglySorted_perm_unique {A} (R : A -> A -> Prop) (l1 l2 : list A) :
  (forall a b, In a l1 -> In b l1 -> R a b -> R b a -> a = b) ->
  StronglySorted R l1 -> StronglySorted R l2 -> Permutation l1 l2 -> l1 = l2.
Proof.
  revert l2. induction l1 as [|x l1 IH]; intros l2 Hanti S1 S2 Hp.
  - apply Permutation_nil in Hp. congruence.
  - destruct l2 as [|y l2]; [apply Permutation_sym, Permutation_nil in Hp; discriminate|].
    apply StronglySorted_inv in S1 as [S1 F1]. apply StronglySorted_inv in S2 as [S2 F2].
    assert (x = y) as ->.
    { destruct (Permutation_in x Hp (or_introl eq_refl)) as [->|Hx]; [reflexivity|].
      destruct (Permutation_in y (Permutation_sym Hp) (or_introl eq_refl)) as [->|Hy];
        [reflexivity|].
      rewrite List.Forall_forall in F1, F2.
      apply Hanti; [left; reflexivity|right; exact Hy|exact (F1 y Hy)|exact (F2 x Hx)]. }
    f_equal. apply IH; [|exact S1|exact S2|exact (Permutation_cons_inv Hp)].
    intros a b Ha Hb. apply Hanti; right; assumption.
Qed.

Lemma StronglySorted_lookup_iff {A} (R : A -> A -> Prop) (l : list A) :
  StronglySorted R l
  <-> forall i j x y, (i < j)%nat -> l !! i = Some x -> l !! j = Some y -> R x y.
Proof.
  split.
  - induction 1 as [|a l HS IH Ha]; intros i j x y Hij Hi Hj.
    + destruct i; discriminate.
    + destruct j as [|j]; [lia|]. destruct i as [|i].
      * injection Hi as <-. rewrite List.Forall_forall in Ha. apply Ha.
        apply list_elem_of_In, list_elem_of_lookup. simpl in Hj. eauto.
      * apply (IH i j); [lia|exact Hi|exact Hj].
  - induction l as [|a l IH]; intros H; constructor.
    + apply IH. intros i j x y Hij Hi Hj. apply (H (S i) (S j)); [lia|exact Hi|exact Hj].
    + apply List.Forall_forall. intros y Hy.
      apply list_elem_of_In, list_elem_of_lookup in Hy as [j Hj].
      apply (H 0%nat (S j)); [lia|reflexivity|exact Hj].
Qed.

Lemma key_before_antisym (a b : datetime * Z) :
  key_before a b -> key_before b a -> snd a = snd b.
Proof.
  unfold key_before, datetime_compare.
  rewrite (lex_compare_antisym (datetime_key (fst a)) (datetime_key (fst b))).
  destruct (lex_compare (datetime_key (fst a)) (datetime_key (fst b))); simpl;
    intros [H1|[H1 L1]] [H2|[H2 L2]]; try discriminate. lia.
Qed.

(** X8: the export is idempotent.  After [save_transactions_json] has
    written the document, a second call right after it succeeds and
    leaves everything as it was: the same document, the same objects
    with the same ids, the same registries. *)
Theorem save_transactions_json_idempotent (w w1 : World) :
  NoDup (all w Transaction) ->
  Transaction.save_transactions_json w = Ok (tt, w1) ->
  exists w2,
    Transaction.save_transactions_json w1 = Ok (tt, w2)
    /\ transactions_json w2 = transactions_json w1
    /\ heap w2 = heap w1
    /\ (forall c, all w2 c = all w1 c)
    /\ generator_id w2 = generator_id w1.
Proof.
  intros Hnd Hsave. pose proof (save_ok_keys _ _ Hsave) as Hkeys.
  destruct (save_transactions_json_full w Hnd Hkeys)
    as (sorted & wa & data & Hrun & Hall & Hperm & Hchron & Hgen & _ & Hlen & Hout
        & Hdlen & Hin).
  rewrite Hrun in Hsave. injection Hsave as <-.
  set (w1 := set_transactions_json (Some data) wa).
  assert (Hreg1 : all w1 Transaction = sorted) by (simpl; rewrite Hall; reflexivity).
  assert (Hnd1 : NoDup sorted) by (rewrite Hperm; exact Hnd).
  (* the keys after the first export *)
  assert (Hkey1 : forall i r, sorted !! i = Some r ->
            exists d n, sort_key w r = Some (d, n)
                        /\ sort_key w1 r = Some (d, Z.of_nat i + 1)).
  { intros i r Hi. destruct (Hin i r Hi) as (tx & Htx & Htx' & _).
    assert (Hr : r ∈ all w Transaction).
    { rewrite <- Hperm. apply list_elem_of_lookup. eauto. }
    rewrite Forall_forall in Hkeys. destruct (Hkeys r Hr) as [[d n] Hk].
    exists d, n. split; [exact Hk|].
    assert (Hk0 : Transaction.get_sort_key tx = Ok (d, n)).
    { unfold sort_key in Hk. rewrite Htx in Hk.
      destruct (Transaction.get_sort_key tx) as [k|]; [|discriminate].
      injection Hk as ->. reflexivity. }
    unfold sort_key. change (heap w1) with (heap wa).
    destruct (heap wa !! r) as [o|] eqn:Eo; [|discriminate Htx'].
    injection Htx' as ->. rewrite (get_sort_key_setattr_id _ _ _ _ Hk0). reflexivity. }
  assert (Hkeys1 : Forall (fun r => is_Some (sort_key w1 r)) (all w1 Transaction)).
  { rewrite Hreg1. apply Forall_lookup. intros i r Hi.
    destruct (Hkey1 i r Hi) as (d & n & _ & ->). eauto. }
  destruct (save_transactions_json_full w1) as
    (sorted' & wb & data' & Hrun' & Hall' & Hperm' & Hchron' & Hgen' & _ & Hlen' & Hout'
     & Hdlen' & Hin'); [rewrite Hreg1; exact Hnd1|exact Hkeys1|].
  rewrite Hreg1 in Hperm'.
  (* the order is the same *)
  assert (Hchron1 : chronological w1 sorted).
  { unfold chronological in *. apply StronglySorted_lookup_iff.
    intros i j x y Hij Hi Hj.
    destruct (proj1 (StronglySorted_lookup_iff _ _) Hchron i j x y Hij Hi Hj)
      as (ka & kb & Ha & Hb & Hbefore).
    destruct (Hkey1 i x Hi) as (dx & nx & Hx & Hx1).
    destruct (Hkey1 j y Hj) as (dy & ny & Hy & Hy1).
    exists (dx, Z.of_nat i + 1), (dy, Z.of_nat j + 1).
    split; [exact Hx1|]. split; [exact Hy1|].
    rewrite Hx in Ha. injection Ha as <-. rewrite Hy in Hb. injection Hb as <-.
    unfold key_before in *. simpl in *. destruct Hbefore as [H|[H _]]; [auto|].
    right. split; [exact H|lia]. }
  assert (Hsame : sorted' = sorted).
  { apply (StronglySorted_perm_unique _ _ _) with (3 := Hchron1) (2 := Hchron');
      [|exact Hperm'].
    intros a b Ha Hb (ka & kb & Hka & Hkb & Hab) (kb' & ka' & Hkb' & Hka' & Hba).
    rewrite Hkb in Hkb'. injection Hkb' as <-. rewrite Hka in Hka'. injection Hka' as <-.
    pose proof (key_before_antisym _ _ Hab Hba) as Hid.
    apply (Permutation_in _ Hperm') in Ha, Hb.
    apply list_elem_of_In, list_elem_of_lookup in Ha as [i Hi].
    apply list_elem_of_In, list_elem_of_lookup in Hb as [j Hj].
    destruct (Hkey1 i a Hi) as (da & na & _ & Ha1).
    destruct (Hkey1 j b Hj) as (db & nb & _ & Hb1).
    rewrite Hka in Ha1. injection Ha1 as ->. rewrite Hkb in Hb1. injection Hb1 as ->.
    simpl in Hid. assert (i = j) as -> by lia.
    pose proof (eq_trans (eq_sym Hi) Hj) as E. injection E as ->. reflexivity. }
  subst sorted'.
  assert (Hobj : forall i r, sorted !! i = Some r ->
            exists tx', heap w1 !! r = Some tx' /\ heap wb !! r = Some tx'
                        /\ data !! i = Some (Transaction.json_record tx')
                        /\ data' !! i = Some (Transaction.json_record tx')).
  { intros i r Hi. destruct (Hin i r Hi) as (tx & _ & Htx' & Hd).
    destruct (Hin' i r Hi) as (tx1 & Htx1 & Htx1' & Hd').
    simpl in Htx1. pose proof (eq_trans (eq_sym Htx') Htx1) as E. injection E as <-.
    rewrite setattr_idem in Htx1', Hd'. eauto. }
  exists (set_transactions_json (Some data') wb). split; [exact Hrun'|].
  assert (Hdata : data' = data).
  { apply list_eq. intros i. destruct (sorted !! i) as [r|] eqn:Hi.
    - destruct (Hobj i r Hi) as (tx' & _ & _ & -> & ->). reflexivity.
    - apply lookup_ge_None in Hi.
      rewrite (proj2 (lookup_ge_None data i)), (proj2 (lookup_ge_None data' i)) by lia.
      reflexivity. }
  split; [simpl; rewrite Hdata; reflexivity|]. split.
  - simpl. apply list_eq. intros r.
    destruct (decide (r ∈ sorted)) as [Hr|Hr].
    + apply list_elem_of_lookup in Hr as [i Hi].
      destruct (Hobj i r Hi) as (tx' & H1 & H2 & _).
      exact (eq_trans H2 (eq_sym H1)).
    + apply Hout'. rewrite <- list_elem_of_In. exact Hr.
  - split; [|exact Hgen'].
    intros c. simpl. rewrite Hall'. destruct (bool_decide (c = Transaction)) eqn:E.
    + apply bool_decide_eq_true in E. subst c. symmetry. exact Hreg1.
    + reflexivity.
Qed.

Lemma save_transactions_json_idempotent_witness :
  exists w1 w2,
    Transaction.save_transactions_json sample_unsorted_world = Ok (tt, w1)
    /\ Transaction.save_transactions_json w1 = Ok (tt, w2)
    /\ transactions_json w2 = transactions_json w1
    /\ heap w2 = heap w1
    /\ (forall c, all w2 c = all w1 c)
    /\ generator_id w2 = generator_id w1.
Proof.
  destruct (Transaction.save_transactions_json sample_unsorted_world)
    as [[[] w1]|e] eqn:E; [|vm_compute in E; discriminate].
  assert (Hnd : NoDup (all sample_unsorted_world Transaction)).
  { apply (bool_decide_unpack _). vm_compute. exact I. }
  destruct (save_transactions_json_idempotent _ _ Hnd E) as (w2 & H).
  exists w1, w2. split; [reflexivity|exact H].
Defined.

(** ** What the re-import leaves out *)

(** X9: the record of an electronic banking transfer or of an ATM
    deposit, as [save_transactions_json] writes it, is skipped by the
    re-import without an error: the dispatch of [load_transactions_json]
    compares the type with "IncomingElectronicBankingTransfer", which is
    no class name, and has no branch for "CardAtmDeposit"; the world is
    left as it was. *)
Theorem load_one_skips_two_kinds (o : object) (w : World) :
  cls o = ElectronicBankingTransfer \/ cls o = CardAtmDeposit ->
  Transaction.load_one (Transaction.json_record o) w = Ok (tt, w).
Proof.
  intros H. unfold Transaction.load_one. rewrite mbind_lift.
  unfold pop_kw. rewrite json_record_type.
  set (kw := remove_kw "type" _). clearbody kw.
  destruct H as [-> | ->]; vm_compute is_str; reflexivity.
Qed.

Lemma load_one_skips_two_kinds_witness :
  Transaction.load_one
    (Transaction.json_record
       (mk_object CardAtmDeposit [("statement_account", VStr (u "111/0800"))]))
    empty_World
  = Ok (tt, empty_World).
Proof.
  apply (load_one_skips_two_kinds
           (mk_object CardAtmDeposit [("statement_account", VStr (u "111/0800"))])).
  right. reflexivity.
Defined.

(** ** Pages the engine cannot read, and pages with nothing to read *)

Lemma any_identifier_in_unknown_bank (c : Class) (bank : option pystr) (line : pystr) :
  c <> Transaction ->
  bank <> Some (u "cs") -> bank <> Some (u "csob") ->
  StatementAccount.any_identifier_in (text_identifiers_of c) (str_or_none bank) line
  = Raise TypeError.
Proof.
  intros Hc H1 H2. unfold StatementAccount.any_identifier_in, identifiers_get.
  destruct bank as [b|]; [|reflexivity]. cbn [str_or_none].
  assert (E1 : str_eqb (u "cs") b = false).
  { unfold str_eqb. apply bool_decide_eq_false_2. congruence. }
  assert (E2 : str_eqb (u "csob") b = false).
  { unfold str_eqb. apply bool_decide_eq_false_2. congruence. }
  destruct c; try congruence; cbn [text_identifiers_of];
    unfold IncomingPayment.text_identifiers, OutgoingPayment.text_identifiers,
      OutgoingPaymentPeriodic.text_identifiers, CardPaymentDebit.text_identifiers,
      CardPaymentIncoming.text_identifiers, CardAtmCashOut.text_identifiers,
      CardAtmDeposit.text_identifiers, BankPayedService.text_identifiers,
      InterestPositive.text_identifiers, TaxInterest.text_identifiers,
      ElectronicBankingTransfer.text_identifiers, DirectDebit.text_identifiers;
    cbn [List.find]; rewrite ?E1, ?E2; reflexivity.
Qed.

Lemma pages_loop_unknown_bank (self : StatementAccount) (w : World) :
  bank_name self <> Some (u "cs") -> bank_name self <> Some (u "csob") ->
  (exists page, In page (pages_content_pdf self) /\ page <> []) ->
  StatementAccount.pages_loop (pages_content_pdf self) (self, false) w = Raise TypeError.
Proof.
  intros H1 H2 (page & Hin & Hne).
  induction (pages_content_pdf self) as [|p pages IH]; [destruct Hin|].
  cbn [StatementAccount.pages_loop].
  destruct p as [|line p].
  - cbn [enumerate length seq combine StatementAccount.lines_loop].
    rewrite (mbind_ok _ _ w w (self, false)) by reflexivity.
    apply IH. destruct Hin as [<-|Hin]; [congruence|exact Hin].
  - apply mbind_raise. unfold enumerate.
    cbn [length seq combine StatementAccount.lines_loop].
    apply mbind_raise. unfold StatementAccount.process_line. cbv beta iota zeta.
    rewrite mbind_lift.
    change CardPaymentIncoming.text_identifiers
      with (text_identifiers_of CardPaymentIncoming).
    rewrite any_identifier_in_unknown_bank by (assumption || discriminate).
    reflexivity.
Qed.

(** X10: a statement whose bank is neither "cs" nor "csob" (no bank
    found in the pdf, or "revolut") cannot be read by
    [get_transactions_pdf]: as soon as a page has a line, the first
    test of that line looks the markers up under the bank, finds none,
    and iterating over [None] raises TypeError. *)
Theorem get_transactions_pdf_unknown_bank (self : StatementAccount) (w : World) :
  bank_name self <> Some (u "cs") -> bank_name self <> Some (u "csob") ->
  (exists page, In page (pages_content_pdf self) /\ page <> []) ->
  StatementAccount.get_transactions_pdf self w = Raise TypeError.
Proof.
  intros H1 H2 Hpage. unfold StatementAccount.get_transactions_pdf.
  apply mbind_raise. exact (pages_loop_unknown_bank self w H1 H2 Hpage).
Qed.

Lemma get_transactions_pdf_unknown_bank_witness :
  StatementAccount.get_transactions_pdf
    (mk_StatementAccount (u "revolut_2023_01.pdf") (Some (u "revolut")) None None None None
       [sample_plain_page] [] []) empty_World
  = Raise TypeError.
Proof.
  apply get_transactions_pdf_unknown_bank.
  - simpl. intros H. vm_compute in H. discriminate.
  - simpl. intros H. vm_compute in H. discriminate.
  - exists sample_plain_page. split; [left; reflexivity|discriminate].
Defined.

(** A line with no marker creates nothing and closes or keeps the
    state of the engine. *)
Lemma process_line_no_marker (self : StatementAccount) (page : list pystr) (i : nat)
    (line : pystr) (w : World) :
  bank_name self = Some (u "cs") \/ bank_name self = Some (u "csob") ->
  no_marker (str_or_none (bank_name self)) line ->
  StatementAccount.process_line page i line (self, false) w = Ok ((self, false), w).
Proof.
  intros Hbank Hno.
  set (bank := str_or_none (bank_name self)) in *.
  assert (Hb : bank = VStr (u "cs") \/ bank = VStr (u "csob")).
  { subst bank. destruct Hbank as [-> | ->]; auto. }
  unfold StatementAccount.process_line. cbv beta iota zeta. fold bank.
  unfold no_marker, precedence in Hno.
  repeat (
    rewrite mbind_lift;
    match goal with
    | |- context [StatementAccount.any_identifier_in ?ti bank line] =>
      match type of Hno with
      | Forall _ (?k :: _) =>
        change ti with (text_identifiers_of k);
        rewrite (any_identifier_in_marker k bank line Hb) by discriminate;
        apply Forall_cons in Hno as [Hk Hno]; rewrite Hk; clear Hk
      end
    end).
  destruct (existsb _ _); reflexivity.
Qed.

(** X11: pages on which no line holds a marker of the bank give no
    transaction: [get_transactions_pdf] returns the statement as it
    was and leaves the store untouched. *)
Theorem get_transactions_pdf_no_marker (self : StatementAccount) (w : World) :
  bank_name self = Some (u "cs") \/ bank_name self = Some (u "csob") ->
  Forall (Forall (no_marker (str_or_none (bank_name self)))) (pages_content_pdf self) ->
  StatementAccount.get_transactions_pdf self w = Ok (self, w).
Proof.
  intros Hbank Hpages. unfold StatementAccount.get_transactions_pdf.
  assert (Hlines : forall page lines,
            Forall (fun il => no_marker (str_or_none (bank_name self)) (snd il)) lines ->
            StatementAccount.lines_loop page lines (self, false) w = Ok ((self, false), w)).
  { intros page lines. induction 1 as [|[i line] lines Hl _ IH]; [reflexivity|].
    cbn [StatementAccount.lines_loop].
    rewrite (mbind_ok _ _ _ _ _ (process_line_no_marker self page i line w Hbank Hl)).
    exact IH. }
  assert (Hloop : StatementAccount.pages_loop (pages_content_pdf self) (self, false) w
                  = Ok ((self, false), w)).
  { induction Hpages as [|page pages Hp _ IH]; [reflexivity|].
    cbn [StatementAccount.pages_loop].
    rewrite (mbind_ok _ _ w w (self, false)); [exact IH|].
    apply Hlines. unfold enumerate.
    generalize 0%nat. induction Hp as [|line page Hl _ IHp]; intros n; [constructor|].
    simpl. constructor; [exact Hl|apply IHp]. }
  rewrite (mbind_ok _ _ _ _ _ Hloop). reflexivity.
Qed.

Lemma get_transactions_pdf_no_marker_witness :
  StatementAccount.get_transactions_pdf (sample_cs_statement [sample_plain_page]) empty_World
  = Ok (sample_cs_statement [sample_plain_page], empty_World).
Proof.
  apply get_transactions_pdf_no_marker.
  - left. reflexivity.
  - repeat constructor; vm_compute; reflexivity.
Defined.

(** ** The user rules *)

Section rules.

Variable str_lower : pystr -> pystr.

Lemma rules_before_fail (pre rest : list TransactionRule) (self : object) :
  Forall (fun r => TransactionRule.is_transaction_passes str_lower r self = Ok false) pre ->
  get_transaction_description_and_category str_lower (pre ++ rest) self
  = get_transaction_description_and_category str_lower rest self.
Proof.
  induction 1 as [|r pre Hr _ IH]; [reflexivity|].
  cbn [app get_transaction_description_and_category]. rewrite Hr. exact IH.
Qed.

(** X12: [get_transaction_description_and_category] applies the first
    rule the transaction passes, and that one only: the texts of the
    rule are appended to the description and to the category the
    transaction has, and the rules after it are not looked at, whatever
    they would do. *)
Theorem first_passing_rule_applies
    (pre post : list TransactionRule) (rule : TransactionRule) (self : object)
    (description category : pystr) :
  getattr self "user_description" = Ok (VStr description) ->
  getattr self "user_category" = Ok (VStr category) ->
  Forall (fun r => TransactionRule.is_transaction_passes str_lower r self = Ok false) pre ->
  TransactionRule.is_transaction_passes str_lower rule self = Ok true ->
  get_transaction_description_and_category str_lower (pre ++ rule :: post) self
  = Ok (setattr
          (setattr self "user_description"
             (VStr (description ++ r_transaction_about rule)))
          "user_category" (VStr (category ++ r_transaction_category rule))).
Proof.
  intros Hd Hc Hpre Hrule. rewrite (rules_before_fail _ _ _ Hpre).
  cbn [get_transaction_description_and_category]. rewrite Hrule. cbn [rbind].
  unfold iadd_str at 1. rewrite Hd. cbn [rbind].
  unfold iadd_str. rewrite getattr_setattr_ne by discriminate. rewrite Hc. reflexivity.
Qed.

End rules.

Lemma first_passing_rule_applies_witness :
  let tx := mk_object IncomingPayment
              [("amount", VInt 5); ("user_description", VStr (u ""));
               ("user_category", VStr (u "food"))] in
  let big := mk_TransactionRule [mk_RuleCondition A_amount Greater (VInt 100)] []
               (u "large") (u "!") in
  let any := mk_TransactionRule [] [mk_RuleCondition A_type Equal (VStr (u "IncomingPayment"))]
               (u "income") (u "+") in
  let bad := mk_TransactionRule [mk_RuleCondition A_amount Less (VStr (u "x"))] []
               (u "never") (u "?") in
  get_transaction_description_and_category lower ([big] ++ any :: [bad]) tx
  = Ok (setattr (setattr tx "user_description" (VStr (u "" ++ u "income")))
          "user_category" (VStr (u "food" ++ u "+"))).
Proof.
  intros tx big any bad.
  apply (first_passing_rule_applies lower [big] [bad] any tx (u "") (u "food")).
  - reflexivity.
  - reflexivity.
  - constructor; [vm_compute; reflexivity|constructor].
  - vm_compute. reflexivity.
Defined.

Section analysis_frame.

Variable str_lower : pystr -> pystr.

Lemma same_but_user_texts_refl (o : object) : same_but_user_texts o o.
Proof. split; [reflexivity|]. intros k _ _. reflexivity. Qed.

Lemma same_but_user_texts_trans (o1 o2 o3 : object) :
  same_but_user_texts o1 o2 -> same_but_user_texts o2 o3 -> same_but_user_texts o1 o3.
Proof.
  intros [C12 A12] [C23 A23]. split; [congruence|].
  intros k H1 H2. rewrite (A23 k H1 H2). apply A12; assumption.
Qed.

Lemma iadd_str_frame (o o' : object) (a : string) (s : pystr) :
  a = "user_description" \/ a = "user_category" ->
  iadd_str o a s = Ok o' -> same_but_user_texts o o'.
Proof.
  intros Ha. unfold iadd_str. destruct (getattr o a) as [v|]; [|discriminate]. simpl.
  destruct v; try discriminate. intros [= <-]. split; [reflexivity|].
  intros k H1 H2. apply getattr_setattr_ne. destruct Ha; congruence.
Qed.

Lemma description_and_category_frame (rules : list TransactionRule) (o o' : object) :
  get_transaction_description_and_category str_lower rules o = Ok o' ->
  same_but_user_texts o o'.
Proof.
  induction rules as [|rule rules IH]; cbn [get_transaction_description_and_category].
  - intros [= <-]. apply same_but_user_texts_refl.
  - destruct (TransactionRule.is_transaction_passes str_lower rule o) as [[|]|];
      cbn [rbind]; [|exact IH|discriminate].
    destruct (iadd_str o "user_description" (r_transaction_about rule)) as [o1|] eqn:E1;
      cbn [rbind]; [|discriminate].
    intros E2. apply iadd_str_frame in E1; [|auto]. apply iadd_str_frame in E2; [|auto].
    exact (same_but_user_texts_trans _ _ _ E1 E2).
Qed.

Lemma analyze_loop_frame (rules : list TransactionRule) (l : list ref) (w w' : World) :
  forM l (fun r =>
    let! tx := deref r in
    let! tx := lift (get_transaction_description_and_category str_lower rules tx) in
    store r tx) w = Ok (tt, w') ->
  all w' = all w /\ generator_id w' = generator_id w
  /\ length (heap w') = length (heap w)
  /\ forall r o, heap w !! r = Some o ->
       exists o', heap w' !! r = Some o' /\ same_but_user_texts o o'.
Proof.
  revert w. induction l as [|r l IH]; intros w; cbn [forM].
  - intros [= <-]. repeat split; try reflexivity.
    intros r o Ho. exists o. split; [exact Ho|apply same_but_user_texts_refl].
  - intros H. apply mbind_inv in H as ([] & w1 & Hbody & H).
    apply mbind_inv in Hbody as (tx & w0 & Hd & Hbody).
    unfold deref in Hd. destruct (heap w !! r) as [o0|] eqn:Ho0; [|discriminate].
    injection Hd as <- <-.
    apply mbind_inv in Hbody as (tx' & w0 & Hg & Hst). apply lift_inv in Hg as [Hg ->].
    injection Hst as <-. apply description_and_category_frame in Hg.
    apply IH in H as (Hall & Hgen & Hlen & Hobj).
    split; [exact Hall|]. split; [exact Hgen|].
    split; [rewrite Hlen; simpl; apply length_insert|].
    intros r1 o Ho. destruct (decide (r1 = r)) as [->|Hne].
    + destruct (Hobj r tx') as (o' & Ho' & Hs).
      { simpl. apply list_lookup_insert_eq. apply lookup_lt_Some in Ho0. exact Ho0. }
      exists o'. split; [exact Ho'|].
      pose proof (eq_trans (eq_sym Ho) Ho0) as E. injection E as ->.
      exact (same_but_user_texts_trans _ _ _ Hg Hs).
    + apply Hobj. simpl. rewrite list_lookup_insert_ne by congruence. exact Ho.
Qed.

(** X13: the analysis touches nothing but the two texts of the user.
    When [analyze_all_transactions] returns, the registries, the id
    generator and the number of objects are what they were, and every
    transaction has its class and all its attributes as before, the
    description and the category of the user apart: amounts, dates and
    ids are not changed by the rules. *)
Theorem analyze_all_transactions_frame (rules : list TransactionRule) (w w' : World) :
  analyze_all_transactions str_lower rules w = Ok (tt, w') ->
  all w' = all w /\ generator_id w' = generator_id w
  /\ length (heap w') = length (heap w)
  /\ forall r o, heap w !! r = Some o ->
       exists o', heap w' !! r = Some o' /\ same_but_user_texts o o'.
Proof. unfold analyze_all_transactions. apply analyze_loop_frame. Qed.

End analysis_frame.

Lemma analyze_all_transactions_frame_witness :
  let rules := [mk_TransactionRule
                  [] [mk_RuleCondition A_type Equal (VStr (u "OutgoingPayment"))]
                  (u "paid") (u "out")] in
  exists w',
    analyze_all_transactions lower rules sample_unsorted_world = Ok (tt, w')
    /\ all w' = all sample_unsorted_world
    /\ generator_id w' = generator_id sample_unsorted_world
    /\ length (heap w') = length (heap sample_unsorted_world)
    /\ forall r o, heap sample_unsorted_world !! r = Some o ->
         exists o', heap w' !! r = Some o' /\ same_but_user_texts o o'.
Proof.
  intros rules.
  destruct (analyze_all_transactions lower rules sample_unsorted_world)
    as [[[] w']|e] eqn:E; [|vm_compute in E; discriminate].
  exists w'. split; [reflexivity|].
  exact (analyze_all_transactions_frame lower rules _ _ E).
Defined.

Section conditions.

Variable str_lower : pystr -> pystr.

Lemma new_object_lookup (C : Class) (kw : kwargs) (w w' : World) (r : ref) :
  new C kw w = Ok (r, w') ->
  exists a o,
    heap w' !! r = Some o /\ cls o = C
    /\ bind_fields (fields C) kw = Ok a
    /\ finished C a (fresh_id w) = Ok o.
Proof.
  intros H. apply new_inv in H as (a & o & Ha & Ho & -> & ->).
  exists a, o. split; [apply registered_lookup|].
  split; [exact (finished_cls _ _ _ _ Ho)|]. auto.
Qed.

(** X14: a condition on an attribute the transaction does not have is
    false, and no error.  No instance a class call returns has the
    attributes [transaction_user_description] and
    [transaction_user_category] that the annotation of
    [check_tx_attribute] lists (the fields are [user_description] and
    [user_category]), so a condition on them never passes; and a
    condition on [card_owner] or [vendor_text] never passes on an
    instance of a class outside the card payments. *)
Theorem condition_on_absent_attribute
    (C : Class) (kw : kwargs) (w w' : World) (r : ref) (cond : RuleCondition) :
  new C kw w = Ok (r, w') ->
  c_check_tx_attribute cond = A_transaction_user_description
  \/ c_check_tx_attribute cond = A_transaction_user_category
  \/ (issubclass C CardPaymentDebit = false
      /\ (c_check_tx_attribute cond = A_card_owner
          \/ c_check_tx_attribute cond = A_vendor_text)) ->
  exists o,
    heap w' !! r = Some o
    /\ RuleCondition.check_condition_passes str_lower cond o = Ok false.
Proof.
  intros Hnew Hattr.
  destruct (new_object_lookup _ _ _ _ _ Hnew) as (a & o & Ho & Hcls & Ha & Hfin).
  exists o. split; [exact Ho|].
  assert (Hnone : lookup_kw (attribute_name (c_check_tx_attribute cond)) (attrs o) = None).
  { destruct Hattr as [E|[E|[Hsub [E|E]]]]; rewrite E; cbn [attribute_name].
    - rewrite (finished_lookup _ _ _ _ _ Hfin) by discriminate.
      rewrite (bind_fields_lookup _ _ _ _ Ha). destruct C; reflexivity.
    - rewrite (finished_lookup _ _ _ _ _ Hfin) by discriminate.
      rewrite (bind_fields_lookup _ _ _ _ Ha). destruct C; reflexivity.
    - unfold finished in Hfin. rewrite Hsub in Hfin. simpl in Hfin.
      injection Hfin as <-. simpl. rewrite lookup_update_kw_ne by discriminate.
      rewrite (bind_fields_lookup _ _ _ _ Ha). destruct C; try discriminate Hsub; reflexivity.
    - rewrite (finished_lookup _ _ _ _ _ Hfin) by discriminate.
      rewrite (bind_fields_lookup _ _ _ _ Ha).
      destruct C; try discriminate Hsub; reflexivity. }
  unfold RuleCondition.check_condition_passes.
  destruct Hattr as [E|[E|[Hsub [E|E]]]]; rewrite E in *; cbn [attribute_name] in *;
    rewrite Hnone; reflexivity.
Qed.

(** X15: a condition on the type compares the value with the name of
    the class of the instance itself; the classes it derives from do
    not count.  With "equal" and the name of a class, the condition
    passes exactly on the direct instances of that class. *)
Theorem type_condition_is_exact (c : Class) (transaction : object) :
  RuleCondition.check_condition_passes str_lower
    (mk_RuleCondition A_type Equal (VStr (class_name c))) transaction
  = Ok (bool_decide (cls transaction = c)).
Proof.
  unfold RuleCondition.check_condition_passes. cbn [c_check_tx_attribute c_comparison c_value].
  f_equal. unfold py_eq. cbn [number_compare as_int]. unfold str_eqb.
  destruct (decide (cls transaction = c)) as [->|Hne].
  - rewrite !bool_decide_eq_true_2 by reflexivity. reflexivity.
  - rewrite (bool_decide_eq_false_2 (cls transaction = c)) by exact Hne.
    apply bool_decide_eq_false_2. intros E. apply Hne.
    destruct (cls transaction), c; try reflexivity; vm_compute in E; discriminate E.
Qed.

(** X16: a condition on an attribute whose value is [None], as the
    optional fields are by default.  "equal" is false and "not equal"
    true; the other comparisons raise: TypeError for "less", "greater"
    and "not in", AttributeError for "is in". *)
Theorem condition_on_None_attribute
    (check : tx_attribute) (comparison : pystr) (v : value) (cond : RuleCondition)
    (transaction : object) :
  RuleCondition.new check comparison v = Ok cond ->
  check <> A_type ->
  lookup_kw (attribute_name check) (attrs transaction) = Some VNone ->
  RuleCondition.check_condition_passes str_lower cond transaction
  = match c_comparison cond with
    | Equal => Ok false
    | NotEqual => Ok true
    | IsIn => Raise AttributeError
    | Less | Greater | NotIn => Raise TypeError
    end.
Proof.
  unfold RuleCondition.new. destruct (comparison_of comparison) as [k|]; [|discriminate].
  intros Hnew Htype Hnone.
  assert (Hcond : cond = mk_RuleCondition check k v /\ v <> VNone).
  { destruct v; try discriminate Hnew; injection Hnew as <-; split; congruence. }
  destruct Hcond as [-> Hv]. clear Hnew.
  unfold RuleCondition.check_condition_passes. cbn [c_check_tx_attribute c_comparison c_value].
  destruct check; try congruence; rewrite Hnone;
    unfold RuleCondition.validate; cbn [c_comparison c_value];
    destruct k; destruct v as [|b|z|x|s]; try congruence; try reflexivity.
Qed.

End conditions.

Lemma condition_on_absent_attribute_witness :
  exists o,
    heap sample_single_world !! 0%nat = Some o
    /\ RuleCondition.check_condition_passes lower
         (mk_RuleCondition A_transaction_user_category NotEqual (VStr (u "food"))) o
       = Ok false.
Proof.
  apply (condition_on_absent_attribute lower IncomingPayment
           [ ("statement_account", VStr (u "111/0800"));
             ("date_booked", VStr (u "15.03.2023")) ] empty_World).
  - vm_compute. reflexivity.
  - right. left. reflexivity.
Defined.

Lemma condition_on_None_attribute_witness :
  RuleCondition.check_condition_passes lower
    (mk_RuleCondition A_variable_symbol Less (VInt 100))
    (mk_object IncomingPayment [("variable_symbol", VNone)])
  = Raise TypeError.
Proof.
  apply (condition_on_None_attribute lower A_variable_symbol (u "less") (VInt 100)).
  - vm_compute. reflexivity.
  - discriminate.
  - reflexivity.
Defined.

(** ** The head of a pdf statement *)

Import StatementAccountPdf.

Lemma scan_lines_total {A} (f : pystr -> option A) (page : list pystr)
    (lines : list (nat * pystr)) :
  scan_lines (fun _ _ line => Ok (f line)) page lines
  = Ok (match List.find (fun il => bool_decide (is_Some (f (snd il)))) lines with
        | Some il => f (snd il)
        | None => None
        end).
Proof.
  induction lines as [|[i line] lines IH]; [reflexivity|].
  cbn [scan_lines rbind List.find snd].
  destruct (f line) as [a|] eqn:E.
  - rewrite bool_decide_eq_true_2 by eauto. cbn [snd]. rewrite E. reflexivity.
  - rewrite bool_decide_eq_false_2 by (intros [x Hx]; discriminate). exact IH.
Qed.

Lemma find_enumerate_from {A} (P : A -> bool) (l : list A) (n : nat) :
  snd <$> List.find (fun il => P (snd il)) (combine (seq n (length l)) l)
  = List.find P l.
Proof.
  revert n. induction l as [|x l IH]; intros n; [reflexivity|].
  cbn [length seq combine List.find snd]. destruct (P x); [reflexivity|apply IH].
Qed.

Lemma find_app {A} (P : A -> bool) (l1 l2 : list A) :
  List.find P (l1 ++ l2)
  = match List.find P l1 with Some x => Some x | None => List.find P l2 end.
Proof. induction l1 as [|x l1 IH]; [reflexivity|]. simpl. destruct (P x); auto. Qed.

Lemma scan_pages_total {A} (f : pystr -> option A) (pages : list (list pystr)) :
  scan_pages (fun _ _ line => Ok (f line)) pages
  = Ok (match List.find (fun line => bool_decide (is_Some (f line))) (concat pages) with
        | Some line => f line
        | None => None
        end).
Proof.
  induction pages as [|page pages IH]; [reflexivity|].
  cbn [scan_pages concat]. rewrite scan_lines_total. cbn [rbind].
  rewrite find_app. unfold enumerate.
  pose proof (find_enumerate_from (fun line => bool_decide (is_Some (f line))) page 0) as H.
  destruct (List.find _ (combine (seq 0 (length page)) page)) as [[i line]|] eqn:E;
    simpl in H; rewrite <- H.
  - apply find_some in E as [_ E]. simpl in E. apply bool_decide_eq_true in E.
    destruct E as [a Ha]. simpl. rewrite Ha. reflexivity.
  - exact IH.
Qed.

Lemma get_bank_name_pdf_first_line_aux (self : StatementAccount) :
  match List.find (fun line => bool_decide (is_Some (bank_of_line line)))
                  (concat (pages_content_pdf self)) with
  | Some line =>
    exists bank,
      bank_of_line line = Some bank
      /\ get_bank_name_pdf self = StatementAccountCsv.set_bank_name (Some bank) self
  | None => get_bank_name_pdf self = self
  end.
Proof.
  unfold get_bank_name_pdf.
  change (fun (_ : list pystr) (_ : nat) (line : pystr) =>
            Ok (snd <$> List.find (fun '(key, _) => str_in key line) bank_names))
    with (fun (_ : list pystr) (_ : nat) (line : pystr) => Ok (bank_of_line line)).
  rewrite scan_pages_total.
  destruct (List.find _ (concat (pages_content_pdf self))) as [line|] eqn:E; [|reflexivity].
  apply find_some in E as [_ E]. apply bool_decide_eq_true in E. destruct E as [bank Hb].
  exists bank. split; [exact Hb|]. rewrite Hb. reflexivity.
Qed.

(** X17: the bank of a pdf statement is read off the first line, in
    the order of the pages and of the lines, that holds one of the
    four markers, and it is the bank of the first marker of the table
    that line holds: "csob", "cs" or "revolut".  Nothing else of the
    statement changes, and a pdf without any marker keeps no bank. *)
Theorem get_bank_name_pdf_first_line (self : StatementAccount) :
  match List.find (fun line => bool_decide (is_Some (bank_of_line line)))
                  (concat (pages_content_pdf self)) with
  | Some line =>
    exists bank,
      bank_of_line line = Some bank
      /\ In bank [u "csob"; u "cs"; u "revolut"]
      /\ get_bank_name_pdf self = StatementAccountCsv.set_bank_name (Some bank) self
  | None => get_bank_name_pdf self = self
  end.
Proof.
  pose proof (get_bank_name_pdf_first_line_aux self) as H.
  destruct (List.find _ (concat (pages_content_pdf self))) as [line|]; [|exact H].
  destruct H as (bank & Hb & H). exists bank. split; [exact Hb|]. split; [|exact H].
  unfold bank_of_line in Hb.
  destruct (List.find _ bank_names) as [[key b]|] eqn:Ef; [|discriminate].
  injection Hb as <-. apply find_some in Ef as [Hin _].
  unfold bank_names in Hin. simpl in Hin.
  destruct Hin as [[= _ <-]|[[= _ <-]|[[= _ <-]|[[= _ <-]|[]]]]]; simpl; auto.
Qed.

Lemma head_steps_keep_bank (self self' : StatementAccount) :
  get_account_nr_pdf self = Ok self' \/ get_account_start_balance_pdf self = Ok self'
  \/ get_account_end_balance_pdf self = Ok self' \/ get_statement_year_pdf self = Ok self' ->
  bank_name self' = bank_name self /\ pages_content_pdf self' = pages_content_pdf self.
Proof.
  unfold get_account_nr_pdf, get_account_start_balance_pdf, get_account_end_balance_pdf,
    get_statement_year_pdf.
  intros [H|[H|[H|H]]];
    match type of H with
    | rbind ?m _ = _ => destruct m as [[x|]|]; simpl in H; try discriminate H
    end; injection H as <-; split; reflexivity.
Qed.

(** X18: of the pdf statements only those of "cs" and "csob" can be
    loaded.  When the first bank marker of the pages is the one of
    Revolut, or the pages hold no bank marker, and there is a line at
    all, [initialize_from_pdf] raises: whatever the head of the
    statement gives, the extraction of the transactions looks the
    markers up under a bank that has none. *)
Theorem initialize_from_pdf_other_bank
    (file_path : pystr) (pages : list (list pystr)) (w : World) :
  (exists page, In page pages /\ page <> []) ->
  match List.find (fun line => bool_decide (is_Some (bank_of_line line))) (concat pages) with
  | Some line => bank_of_line line = Some (u "revolut")
  | None => True
  end ->
  is_raise (initialize_from_pdf file_path pages w).
Proof.
  intros Hpage Hbank. unfold initialize_from_pdf. cbv zeta.
  set (self0 := mk_StatementAccount file_path None None None None None pages [] []).
  assert (H1 : (bank_name (get_bank_name_pdf self0) = None
                \/ bank_name (get_bank_name_pdf self0) = Some (u "revolut"))
               /\ pages_content_pdf (get_bank_name_pdf self0) = pages).
  { pose proof (get_bank_name_pdf_first_line_aux self0) as H. simpl in H.
    destruct (List.find _ (concat pages)) as [line|].
    - destruct H as (bank & Hb & ->). rewrite Hbank in Hb. injection Hb as <-.
      split; [right; reflexivity|reflexivity].
    - rewrite H. split; [left; reflexivity|reflexivity]. }
  destruct H1 as [Hb1 Hp1]. set (self1 := get_bank_name_pdf self0) in *. clearbody self1.
  rewrite mbind_lift.
  destruct (get_account_nr_pdf self1) as [self2|] eqn:E2; [|exact I].
  destruct (head_steps_keep_bank _ _ (or_introl E2)) as [Hb2 Hp2].
  rewrite mbind_lift.
  destruct (get_account_start_balance_pdf self2) as [self3|] eqn:E3; [|exact I].
  destruct (head_steps_keep_bank _ _ (or_intror (or_introl E3))) as [Hb3 Hp3].
  rewrite mbind_lift.
  destruct (get_account_end_balance_pdf self3) as [self4|] eqn:E4; [|exact I].
  destruct (head_steps_keep_bank _ _ (or_intror (or_intror (or_introl E4)))) as [Hb4 Hp4].
  rewrite mbind_lift.
  destruct (get_statement_year_pdf self4) as [self5|] eqn:E5; [|exact I].
  destruct (head_steps_keep_bank _ _ (or_intror (or_intror (or_intror E5)))) as [Hb5 Hp5].
  assert (Hb : bank_name self5 = None \/ bank_name self5 = Some (u "revolut")).
  { rewrite Hb5, Hb4, Hb3, Hb2. exact Hb1. }
  assert (Hp : pages_content_pdf self5 = pages) by congruence.
  unfold StatementAccount.get_transactions_pdf.
  rewrite (mbind_raise _ _ _ TypeError); [exact I|].
  apply pages_loop_unknown_bank.
  - destruct Hb as [-> | ->]; [discriminate|]. intros H. vm_compute in H. discriminate.
  - destruct Hb as [-> | ->]; [discriminate|]. intros H. vm_compute in H. discriminate.
  - rewrite Hp. exact Hpage.
Qed.

Lemma initialize_from_pdf_other_bank_witness :
  is_raise (initialize_from_pdf (u "revolut_2023_01.pdf") [sample_revolut_page] empty_World).
Proof.
  apply initialize_from_pdf_other_bank.
  - exists sample_revolut_page. split; [left; reflexivity|discriminate].
  - vm_compute. reflexivity.
Defined.








(** ** The files of a run *)

Import main_py.

Lemma endswith_iff (suffix s : pystr) :
  endswith suffix s = true <-> exists x, s = x ++ suffix.
Proof.
  unfold endswith, str_eqb. split.
  - intros H. apply andb_true_iff in H as [_ H]. apply bool_decide_eq_true in H.
    exists (take (length s - length suffix) s).
    transitivity (take (length s - length suffix) s ++ drop (length s - length suffix) s);
      [symmetry; apply take_drop|]. rewrite H. reflexivity.
  - intros [x ->]. rewrite length_app. apply andb_true_iff. split.
    + apply Nat.leb_le. lia.
    + apply bool_decide_eq_true.
      replace (length x + length suffix - length suffix)%nat with (length x) by lia.
      apply drop_app_length.
Qed.

Lemma endswith_path_join (suffix a b : pystr) :
  endswith suffix b = true -> endswith suffix (path_join a b) = true.
Proof.
  intros H. apply endswith_iff in H as [x ->]. apply endswith_iff. unfold path_join.
  destruct (startswith (u "/") (x ++ suffix)); [eauto|].
  destruct a as [|c a]; [eauto|].
  destruct (endswith (u "/") (c :: a)).
  - exists ((c :: a) ++ x). rewrite app_assoc. reflexivity.
  - exists ((c :: a) ++ u "/" ++ x). rewrite <- !app_assoc. reflexivity.
Qed.

Lemma endswith_lower (suffix s : pystr) :
  lower suffix = suffix -> endswith suffix s = true -> endswith suffix (lower s) = true.
Proof.
  intros Hl H. apply endswith_iff in H as [x ->]. apply endswith_iff.
  exists (lower x). unfold lower in *. rewrite flat_map_app, Hl. reflexivity.
Qed.

Lemma endswith_other (suffix suffix' s : pystr) :
  length suffix = length suffix' -> suffix <> suffix' ->
  endswith suffix s = true -> endswith suffix' s = false.
Proof.
  unfold endswith, str_eqb. intros Hlen Hne H.
  apply andb_true_iff in H as [_ H]. apply bool_decide_eq_true in H.
  rewrite <- Hlen, H. apply andb_false_iff. right.
  apply bool_decide_eq_false_2. exact Hne.
Qed.

(** The files a run selects for one suffix. *)
Lemma get_files_to_process_In (walk : list (pystr * list pystr)) (suffix path : pystr) :
  In path (get_files_to_process walk [suffix]) ->
  exists dirpath f, path = path_join dirpath f /\ endswith (lower (lower suffix)) f = true.
Proof.
  unfold get_files_to_process. intros H.
  apply in_flat_map in H as ([dirpath filenames] & _ & H).
  apply in_map_iff in H as (f & <- & H). apply filter_In in H as [_ H].
  cbn [fmap list_fmap existsb] in H. rewrite orb_false_r in H. eauto.
Qed.

Section run.

Variable pages_of : pystr -> list (list pystr).
Variable rows_of : pystr -> list csv_row.

(** X20: the two places that look at the ending of a file name agree.
    The search compares the name as it is with ".pdf" (or ".csv"),
    [__post_init__] compares the path in lower case: every path the
    search finds for ".pdf" is initialised from the pages of the pdf,
    every path it finds for ".csv" from the rows of the csv, and none
    is left uninitialised or read twice. *)
Theorem selected_file_is_read_by_its_suffix
    (walk : list (pystr * list pystr)) (path : pystr) (p : main.Program) :
  In path (get_files_to_process walk [u ".pdf"])
  \/ In path (get_files_to_process walk [u ".csv"]) ->
  StatementAccount_new pages_of rows_of path p
  = let? '(self, w) :=
      if bool_decide (path ∈ get_files_to_process walk [u ".pdf"])
      then StatementAccountPdf.initialize_from_pdf path (pages_of path) (main.world p)
      else StatementAccountCsv.initialize_from_csv path (rows_of path) (main.world p) in
    Ok (main.mk_Program w (main.StatementAccount_all p ++ [self]) (main.stdout p)).
Proof.
  assert (Hpdf : In path (get_files_to_process walk [u ".pdf"]) ->
                 endswith (u ".pdf") (lower path) = true).
  { intros H. apply get_files_to_process_In in H as (d & f & -> & H).
    change (lower (lower (u ".pdf"))) with (u ".pdf") in H.
    apply endswith_lower; [reflexivity|]. apply endswith_path_join, H. }
  assert (Hcsv : In path (get_files_to_process walk [u ".csv"]) ->
                 endswith (u ".csv") (lower path) = true).
  { intros H. apply get_files_to_process_In in H as (d & f & -> & H).
    change (lower (lower (u ".csv"))) with (u ".csv") in H.
    apply endswith_lower; [reflexivity|]. apply endswith_path_join, H. }
  intros H. unfold StatementAccount_new.
  destruct (bool_decide (path ∈ get_files_to_process walk [u ".pdf"])) eqn:E.
  - apply bool_decide_eq_true, list_elem_of_In in E. rewrite (Hpdf E). reflexivity.
  - apply bool_decide_eq_false in E. rewrite list_elem_of_In in E.
    destruct H as [H|H]; [contradiction|].
    specialize (Hcsv H).
    rewrite (endswith_other (u ".csv") (u ".pdf") _ eq_refl) by (discriminate || exact Hcsv).
    rewrite Hcsv. reflexivity.
Qed.

End run.

Lemma selected_file_is_read_by_its_suffix_witness :
  let walk := [(u "statements", [u "cs_2023_02.pdf"; u "notes.txt"; u "old.PDF"])] in
  get_files_to_process walk [u ".pdf"] = [u "statements/cs_2023_02.pdf"]
  /\ forall p,
       StatementAccount_new (fun _ => [sample_cs_page]) (fun _ => [])
         (u "statements/cs_2023_02.pdf") p
       = let? '(self, w) :=
           StatementAccountPdf.initialize_from_pdf (u "statements/cs_2023_02.pdf")
             [sample_cs_page] (main.world p) in
         Ok (main.mk_Program w (main.StatementAccount_all p ++ [self]) (main.stdout p)).
Proof.
  intros walk. split; [vm_compute; reflexivity|]. intros p.
  rewrite (selected_file_is_read_by_its_suffix (fun _ => [sample_cs_page]) (fun _ => [])
             walk (u "statements/cs_2023_02.pdf") p).
  - rewrite bool_decide_eq_true_2; [reflexivity|].
    apply list_elem_of_In. vm_compute. left. reflexivity.
  - left. vm_compute. left. reflexivity.
Defined.

(** ** A run, end to end *)

Lemma validate_loop_raises (w : World) (l : list StatementAccount) (s : StatementAccount)
    (out : list main.output) :
  In s l -> start_balance s = None \/ end_balance s = None ->
  is_raise (main.validate_loop w l out).
Proof.
  intros Hin Hs. revert out. induction l as [|s0 l IH]; intros out; [destruct Hin|].
  cbn [main.validate_loop]. destruct Hin as [->|Hin].
  - assert (H : main.validate_one w s out = Raise TypeError).
    { unfold main.validate_one, main.balance_delta.
      destruct Hs as [-> | ->]; destruct (end_balance s), (start_balance s); reflexivity. }
    rewrite H. exact I.
  - destruct (main.validate_one w s0 out) as [out1|]; [|exact I]. apply IH, Hin.
Qed.

Section run_end_to_end.

Variable pages_of : pystr -> list (list pystr).
Variable rows_of : pystr -> list csv_row.
Variable str_of_float : float -> pystr.
Variable str_lower : pystr -> pystr.

Lemma StatementAccount_new_appends (path : pystr) (p p' : main.Program) :
  StatementAccount_new pages_of rows_of path p = Ok p' ->
  exists self, main.StatementAccount_all p' = main.StatementAccount_all p ++ [self].
Proof.
  unfold StatementAccount_new.
  destruct (if endswith (u ".pdf") (lower path) then _ else _) as [[self w]|];
    [|discriminate].
  intros [= <-]. exists self. reflexivity.
Qed.

Lemma load_files_keeps (files : list pystr) (p p' : main.Program) (s : StatementAccount) :
  load_files pages_of rows_of files p = Ok p' ->
  In s (main.StatementAccount_all p) -> In s (main.StatementAccount_all p').
Proof.
  revert p. induction files as [|f files IH]; intros p; cbn [load_files].
  - intros [= <-]. auto.
  - destruct (StatementAccount_new pages_of rows_of f p) as [p1|] eqn:E; [|discriminate].
    cbn [rbind]. intros H Hin. apply (IH _ H).
    apply StatementAccount_new_appends in E as [self ->]. apply in_or_app. auto.
Qed.

(** A csv file without rows gives a statement without balances. *)
Lemma load_files_empty_csv (files : list pystr) (path : pystr) (p p' : main.Program) :
  In path files -> endswith (u ".csv") (lower path) = true -> rows_of path = [] ->
  load_files pages_of rows_of files p = Ok p' ->
  exists s, In s (main.StatementAccount_all p') /\ start_balance s = None.
Proof.
  intros Hin Hcsv Hrows. revert p. induction files as [|f files IH]; intros p; [destruct Hin|].
  cbn [load_files].
  destruct (StatementAccount_new pages_of rows_of f p) as [p1|] eqn:E; [|discriminate].
  cbn [rbind]. intros H. destruct Hin as [->|Hin]; [|exact (IH Hin _ H)].
  unfold StatementAccount_new in E.
  rewrite (endswith_other (u ".csv") (u ".pdf") _ eq_refl) in E
    by (discriminate || exact Hcsv).
  rewrite Hcsv, Hrows in E. cbn in E. injection E as <-.
  eexists. split; [eapply (load_files_keeps _ _ _ _ H)|].
  - cbn. apply in_or_app. right. left. reflexivity.
  - reflexivity.
Qed.

(** X21: a csv file without rows stops the run before anything is
    exported.  The statement of such a file has no balances; if the
    loading and the analysis get through, the reconciliation subtracts
    [None] from [None] and raises, and [save_transactions] is not
    reached: [main] raises whatever the other files hold. *)
Theorem main_raises_on_empty_csv
    (rules : list TransactionRule) (walk : list (pystr * list pystr)) (path : pystr)
    (p : main.Program) :
  In path (get_files_to_process walk [u ".csv"]) ->
  rows_of path = [] ->
  is_raise (main pages_of rows_of str_of_float str_lower rules walk p).
Proof.
  intros Hin Hrows. unfold main.
  destruct (load_pdfs pages_of rows_of walk p) as [p1|]; [|exact I]. cbn [rbind].
  destruct (load_csvs pages_of rows_of walk p1) as [p2|] eqn:E2; [|exact I]. cbn [rbind].
  unfold load_csvs in E2.
  assert (Hcsv : endswith (u ".csv") (lower path) = true).
  { pose proof Hin as H. apply get_files_to_process_In in H as (d & f & -> & H).
    change (lower (lower (u ".csv"))) with (u ".csv") in H.
    apply endswith_lower; [reflexivity|]. apply endswith_path_join, H. }
  destruct (load_files_empty_csv _ _ _ _ Hin Hcsv Hrows E2) as (s & Hs & Hnone).
  unfold in_world at 1.
  destruct (analyze_all_transactions str_lower rules (main.world p2)) as [[[] w3]|];
    [|exact I].
  cbn [rbind]. unfold main.validate_all_transactions_extracted.
  cbn [main.world main.StatementAccount_all main.stdout].
  pose proof (validate_loop_raises w3 _ s (main.stdout p2) Hs (or_introl Hnone)) as Hr.
  destruct (main.validate_loop w3 (main.StatementAccount_all p2) (main.stdout p2));
    [destruct Hr|exact I].
Qed.

(** X22: a run over a folder with no pdf and no csv file, from the
    state a program starts in: nothing is printed, and the export
    writes the empty document and a csv file with the header row
    only. *)
Theorem main_without_statements
    (rules : list TransactionRule) (walk : list (pystr * list pystr)) :
  get_files_to_process walk [u ".pdf"] = [] ->
  get_files_to_process walk [u ".csv"] = [] ->
  exists p,
    main pages_of rows_of str_of_float str_lower rules walk initial_Program = Ok p
    /\ main.stdout p = [] /\ main.StatementAccount_all p = []
    /\ heap (main.world p) = []
    /\ transactions_json (main.world p) = Some []
    /\ transactions_csv (main.world p) = Some [Transaction.headers].
Proof.
  intros Hpdf Hcsv. unfold main, load_pdfs, load_csvs. rewrite Hpdf, Hcsv.
  eexists. split; [reflexivity|]. repeat split; reflexivity.
Qed.

End run_end_to_end.

Lemma main_raises_on_empty_csv_witness :
  is_raise (main (fun _ => []) (fun _ => []) (fun _ => []) lower []
              [(u "revolut", [u "czk_2301.csv"])] initial_Program).
Proof.
  apply (main_raises_on_empty_csv _ _ _ _ _ _ (u "revolut/czk_2301.csv")).
  - vm_compute. left. reflexivity.
  - reflexivity.
Defined.

Lemma main_without_statements_witness :
  exists p,
    main (fun _ => []) (fun _ => []) (fun _ => []) lower []
      [(u "notes", [u "readme.txt"])] initial_Program = Ok p
    /\ main.stdout p = [] /\ main.StatementAccount_all p = []
    /\ heap (main.world p) = []
    /\ transactions_json (main.world p) = Some []
    /\ transactions_csv (main.world p) = Some [Transaction.headers].
Proof.
  apply main_without_statements; vm_compute; reflexivity.
Defined.

(** ** What a transaction keeps of its statement *)

#[local] Arguments u : simpl never.
#[local] Arguments str_in : simpl never.
#[local] Arguments getitem : simpl never.

Lemma create_rule_fields (c : Class) (bank year account : value) (i : nat)
    (page : list pystr) (w w1 : World) (r : ref) :
  create_rule c bank year account i page w = Ok (Some r, w1) ->
  exists o,
    r = length (heap w) /\ w1 = registered o w
    /\ getattr o "statement_account" = Ok account
    /\ getattr o "year" = Ok year.
Proof.
  intros H.
  destruct c; unfold_create_in H;
    repeat match type of H with
           | (if ?b then _ else _) w = _ => destruct b
           end;
    try discriminate H;
    apply create_shape_inv in H as (kw & a & o & Hkw & Ha & Ho & Hres & ->);
    injection Hres as ->; exists o;
    (split; [reflexivity|]); (split; [reflexivity|]);
    chain_inv Hkw;
    repeat match type of Hkw with
           | (let '(_, _) := ?p in _) = _ => destruct p
           | (if ?b then _ else _) = _ => destruct b
           end;
    injection Hkw as <-; split; field_of Ha Ho.
Qed.

Lemma getattr_setattr_eq (o : object) (k : string) (v : value) :
  getattr (setattr o k v) k = Ok v.
Proof. unfold getattr, setattr. simpl. rewrite lookup_update_kw_eq. reflexivity. Qed.

Lemma carries_same_header (s s' : StatementAccount) (o : object) :
  same_header s s' -> carries s o -> carries s' o.
Proof.
  intros (Hf & _ & Ha & Hy) (H1 & H2 & H3). unfold carries.
  rewrite Ha, Hy, Hf. auto.
Qed.

(** What a line does to the instances: those that were there keep what
    they carry, and what the statement gains carries the statement. *)
Lemma process_line_carry page i line self active w self' active' w' :
  StatementAccount.process_line page i line (self, active) w = Ok ((self', active'), w') ->
  (forall r o, heap w !! r = Some o ->
     exists o', heap w' !! r = Some o' /\ forall s, carries s o -> carries s o')
  /\ exists added,
       all_transactions self' = all_transactions self ++ added
       /\ Forall (fun r => exists o, heap w' !! r = Some o /\ carries self o) added.
Proof.
  assert (Hsame : forall s a,
            Ok (s, a, w) = Ok (self', active', w') -> s = self ->
            (forall r o, heap w !! r = Some o ->
               exists o', heap w' !! r = Some o' /\ forall s, carries s o -> carries s o')
            /\ exists added,
                 all_transactions self' = all_transactions self ++ added
                 /\ Forall (fun r => exists o, heap w' !! r = Some o /\ carries self o)
                           added).
  { intros s a [= <- _ <-] ->. split; [eauto|].
    exists []. rewrite app_nil_r. split; [reflexivity|constructor]. }
  assert (Hcreate : forall c,
            (let! tx := create_rule c (str_or_none (bank_name self))
                          (str_or_none (year self)) (str_or_none (account_number self))
                          i page in
             let! self := StatementAccount.append_created self tx in ret (self, true)) w
            = Ok ((self', active'), w') ->
            (forall r o, heap w !! r = Some o ->
               exists o', heap w' !! r = Some o' /\ forall s, carries s o -> carries s o')
            /\ exists added,
                 all_transactions self' = all_transactions self ++ added
                 /\ Forall (fun r => exists o, heap w' !! r = Some o /\ carries self o)
                           added).
  { intros c H. apply mbind_inv in H as (tx & w1 & Hc & H).
    apply mbind_inv in H as (s1 & w2 & Ha & H). injection H as <- _ <-.
    unfold StatementAccount.append_created in Ha. destruct tx as [r|]; [|discriminate].
    apply create_rule_fields in Hc as (o & -> & -> & Hacc & Hyear).
    apply mbind_inv in Ha as (o0 & w3 & Hd & Ha).
    unfold deref in Hd. rewrite registered_lookup in Hd. injection Hd as <- <-.
    apply mbind_inv in Ha as (x & w4 & Hst & Ha). injection Hst as _ <-.
    injection Ha as <- <-. split.
    - intros r0 o0 H0. exists o0. split; [|auto]. simpl.
      assert (r0 < length (heap w))%nat by (apply lookup_lt_Some in H0; exact H0).
      rewrite list_lookup_insert_ne by lia. rewrite lookup_app_l by lia. exact H0.
    - exists [length (heap w)]. split; [reflexivity|]. constructor; [|constructor].
      eexists. split.
      + simpl. apply list_lookup_insert_eq. rewrite length_app. simpl. lia.
      + unfold carries. rewrite !getattr_setattr_ne by discriminate.
        rewrite getattr_setattr_eq. auto. }
  unfold StatementAccount.process_line. cbv beta iota zeta.
  repeat (
    rewrite mbind_lift;
    match goal with
    | |- context [StatementAccount.any_identifier_in ?ti ?b ?l] =>
      let c := class_of_identifiers ti in
      destruct (StatementAccount.any_identifier_in ti b l) as [[|]|]; [| |discriminate];
      [exact (Hcreate c)|]
    end).
  destruct (existsb _ _).
  { intros H. exact (Hsame _ _ H eq_refl). }
  destruct (active && _).
  - intros H. apply mbind_inv in H as (r & w1 & Hr & H).
    apply lift_inv in Hr as [_ ->].
    apply mbind_inv in H as (o & w2 & Hd & H).
    unfold deref in Hd. destruct (heap w !! r) as [o0|] eqn:Ho; [|discriminate].
    injection Hd as <- <-.
    apply mbind_inv in H as (t1 & w3 & Ht1 & H). apply lift_inv in Ht1 as [_ ->].
    apply mbind_inv in H as (t2 & w4 & Ht2 & H). apply lift_inv in Ht2 as [_ ->].
    apply mbind_inv in H as (x & w5 & Hst & H). injection Hst as _ <-.
    injection H as <- _ <-. split.
    + intros r0 o1 H1. simpl. destruct (decide (r0 = r)) as [->|Hne].
      * rewrite list_lookup_insert_eq by (apply lookup_lt_Some in Ho; exact Ho).
        eexists. split; [reflexivity|].
        pose proof (eq_trans (eq_sym H1) Ho) as E. injection E as ->.
        intros s (Hx & Hy & Hz). unfold carries.
        rewrite !getattr_setattr_ne by discriminate. auto.
      * rewrite list_lookup_insert_ne by congruence. eauto.
    + exists []. rewrite app_nil_r. split; [reflexivity|constructor].
  - intros H. exact (Hsame _ _ H eq_refl).
Qed.

Lemma lines_loop_carry page lines st w st' w' :
  StatementAccount.lines_loop page lines st w = Ok (st', w') ->
  (forall r o, heap w !! r = Some o ->
     exists o', heap w' !! r = Some o' /\ forall s, carries s o -> carries s o')
  /\ exists added,
       all_transactions (fst st') = all_transactions (fst st) ++ added
       /\ Forall (fun r => exists o, heap w' !! r = Some o /\ carries (fst st) o) added.
Proof.
  revert st w. induction lines as [|[i line] lines IH]; intros st w; simpl.
  - intros [= <- <-]. split; [eauto|].
    exists []. rewrite app_nil_r. split; [reflexivity|constructor].
  - intros H. apply mbind_inv in H as ([s1 a1] & w1 & Hp & H).
    destruct st as [s a]. pose proof (process_line_header _ _ _ _ _ _ _ _ _ Hp) as Hh.
    apply process_line_carry in Hp as (K1 & add1 & E1 & F1).
    apply IH in H as (K2 & add2 & E2 & F2). simpl in *. split.
    + intros r o Ho. destruct (K1 r o Ho) as (o1 & Ho1 & C1).
      destruct (K2 r o1 Ho1) as (o2 & Ho2 & C2). eauto.
    + exists (add1 ++ add2). split; [rewrite E2, E1, app_assoc; reflexivity|].
      apply Forall_app. split.
      * eapply Forall_impl; [exact F1|]. simpl. intros r (o & Ho & Hc).
        destruct (K2 r o Ho) as (o2 & Ho2 & C2). eauto.
      * eapply Forall_impl; [exact F2|]. simpl. intros r (o & Ho & Hc).
        exists o. split; [exact Ho|].
        destruct Hh as (Hf & Hb & Ha & Hy). destruct Hc as (H1 & H2 & H3).
        unfold carries. rewrite <- Ha, <- Hy, <- Hf. auto.
Qed.

Lemma pages_loop_carry pages st w st' w' :
  StatementAccount.pages_loop pages st w = Ok (st', w') ->
  (forall r o, heap w !! r = Some o ->
     exists o', heap w' !! r = Some o' /\ forall s, carries s o -> carries s o')
  /\ exists added,
       all_transactions (fst st') = all_transactions (fst st) ++ added
       /\ Forall (fun r => exists o, heap w' !! r = Some o /\ carries (fst st) o) added.
Proof.
  revert st w. induction pages as [|page pages IH]; intros st w; simpl.
  - intros [= <- <-]. split; [eauto|].
    exists []. rewrite app_nil_r. split; [reflexivity|constructor].
  - intros H. apply mbind_inv in H as (st1 & w1 & Hp & H).
    pose proof (lines_loop_header _ _ _ _ _ _ Hp) as Hh.
    apply lines_loop_carry in Hp as (K1 & add1 & E1 & F1).
    apply IH in H as (K2 & add2 & E2 & F2). split.
    + intros r o Ho. destruct (K1 r o Ho) as (o1 & Ho1 & C1).
      destruct (K2 r o1 Ho1) as (o2 & Ho2 & C2). eauto.
    + exists (add1 ++ add2). split; [rewrite E2, E1, app_assoc; reflexivity|].
      apply Forall_app. split.
      * eapply Forall_impl; [exact F1|]. simpl. intros r (o & Ho & Hc).
        destruct (K2 r o Ho) as (o2 & Ho2 & C2). eauto.
      * eapply Forall_impl; [exact F2|]. simpl. intros r (o & Ho & Hc).
        exists o. split; [exact Ho|].
        destruct Hh as (Hf & Hb & Ha & Hy). destruct Hc as (H1 & H2 & H3).
        unfold carries. rewrite <- Ha, <- Hy, <- Hf. auto.
Qed.

(** X23: every transaction [get_transactions_pdf] adds to a statement
    carries the statement: its [statement_account] is the account
    number of the statement, its [year] the year of the statement and
    its [parent_statement] the path of the file, whatever class and
    bank rule created it and whatever lines were appended to its text
    afterwards. *)
Theorem pdf_transactions_carry_statement
    (self self' : StatementAccount) (w w' : World) :
  StatementAccount.get_transactions_pdf self w = Ok (self', w') ->
  exists added,
    all_transactions self' = all_transactions self ++ added
    /\ Forall (fun r => exists o, heap w' !! r = Some o /\ carries self o) added.
Proof.
  intros H. unfold StatementAccount.get_transactions_pdf in H.
  apply mbind_inv in H as ([s1 a1] & w1 & Hp & H). injection H as <- <-.
  apply pages_loop_carry in Hp as (_ & added & E & F). eauto.
Qed.

Lemma pdf_transactions_carry_statement_witness :
  exists self' w' added,
    StatementAccount.get_transactions_pdf (sample_cs_statement [sample_cs_page]) empty_World
    = Ok (self', w')
    /\ all_transactions self' = [] ++ added
    /\ Forall (fun r => exists o, heap w' !! r = Some o
                                  /\ carries (sample_cs_statement [sample_cs_page]) o) added.
Proof.
  destruct (StatementAccount.get_transactions_pdf
              (sample_cs_statement [sample_cs_page]) empty_World)
    as [[self' w']|e] eqn:E; [|vm_compute in E; discriminate].
  destruct (pdf_transactions_carry_statement _ _ _ _ E) as (added & H).
  exists self', w', added. split; [reflexivity|exact H].
Defined.

(** ** The same on the csv path *)

Lemma new_kw_carries (self : StatementAccount) (c : Class) (kw : kwargs) (w w' : World)
    (r : ref) :
  lookup_kw "statement_account" kw = Some (str_or_none (account_number self)) ->
  lookup_kw "year" kw = Some (str_or_none (year self)) ->
  lookup_kw "parent_statement" kw = Some (VStr (file_path self)) ->
  new c kw w = Ok (r, w') ->
  r = length (heap w) /\ exists o, w' = registered o w /\ carries self o.
Proof.
  intros H1 H2 H3 H. apply new_inv in H as (a & o & Ha & Ho & -> & ->).
  split; [reflexivity|]. exists o. split; [reflexivity|].
  unfold carries, getattr.
  rewrite !(finished_lookup _ _ _ _ _ Ho) by discriminate.
  rewrite !(bind_fields_lookup _ _ _ _ Ha).
  destruct c; cbn; unfold initial_value; cbn; rewrite ?H1, ?H2, ?H3; auto.
Qed.

Lemma apply_rule_carry key types negative tx_type description currency ds dc amount fee
    self w self' w' :
  StatementAccount.apply_rule key types negative tx_type description currency ds dc
    amount fee self w = Ok (self', w') ->
  (forall r o, heap w !! r = Some o -> heap w' !! r = Some o)
  /\ exists added,
       all_transactions self' = all_transactions self ++ added
       /\ Forall (fun r => exists o, heap w' !! r = Some o /\ carries self o) added.
Proof.
  assert (Hnone : forall s w0, Ok (s, w0) = Ok (self', w') -> s = self -> w0 = w ->
            (forall r o, heap w !! r = Some o -> heap w' !! r = Some o)
            /\ exists added,
                 all_transactions self' = all_transactions self ++ added
                 /\ Forall (fun r => exists o, heap w' !! r = Some o /\ carries self o)
                           added).
  { intros s w0 [= <- <-] -> ->. split; [auto|].
    exists []. rewrite app_nil_r. split; [reflexivity|constructor]. }
  unfold StatementAccount.apply_rule. rewrite mbind_lift.
  destruct tx_type as [t|]; [|discriminate].
  destruct (existsb (str_eqb (lower t)) types);
    [|intros H; exact (Hnone _ _ H eq_refl eq_refl)].
  destruct (Bool.eqb negative (flt amount (float_of_Z 0)));
    [|intros H; exact (Hnone _ _ H eq_refl eq_refl)].
  clear Hnone. intros H. apply mbind_inv in H as (tx & w1 & Hnew & H).
  assert (Hprimary : tx = length (heap w)
                     /\ exists o, w1 = registered o w /\ carries self o).
  { destruct key; try discriminate Hnew;
      apply (new_kw_carries self) in Hnew; try reflexivity; exact Hnew. }
  clear Hnew. destruct Hprimary as (-> & o & -> & Hc).
  cbv zeta in H. destruct (flt (float_of_Z 0) fee).
  - apply mbind_inv in H as (tx_fee & w2 & Hnew2 & H).
    apply (new_kw_carries self) in Hnew2 as (-> & o2 & -> & Hc2); try reflexivity.
    injection H as <- <-. split.
    + intros r0 o0 H0. rewrite !registered_heap.
      rewrite !lookup_app_l; [exact H0| |]; rewrite ?length_app;
        apply lookup_lt_Some in H0; lia.
    + exists [length (heap w); length (heap (registered o w))].
      split; [simpl; rewrite <- app_assoc; reflexivity|].
      constructor; [|constructor; [|constructor]].
      * exists o. split; [|exact Hc]. rewrite registered_heap.
        rewrite lookup_app_l by (rewrite registered_heap, length_app; simpl; lia).
        apply registered_lookup.
      * exists o2. split; [apply registered_lookup|exact Hc2].
  - injection H as <- <-. split.
    + intros r0 o0 H0. rewrite registered_heap.
      rewrite lookup_app_l; [exact H0|]. apply lookup_lt_Some in H0. lia.
    + exists [length (heap w)]. split; [reflexivity|].
      constructor; [|constructor]. exists o. split; [apply registered_lookup|exact Hc].
Qed.

Lemma carry_compose (self s1 self' : StatementAccount) (w1 w' : World)
    (add1 add2 : list ref) :
  same_header self s1 ->
  (forall r o, heap w1 !! r = Some o -> heap w' !! r = Some o) ->
  all_transactions s1 = all_transactions self ++ add1 ->
  Forall (fun r => exists o, heap w1 !! r = Some o /\ carries self o) add1 ->
  all_transactions self' = all_transactions s1 ++ add2 ->
  Forall (fun r => exists o, heap w' !! r = Some o /\ carries s1 o) add2 ->
  all_transactions self' = all_transactions self ++ (add1 ++ add2)
  /\ Forall (fun r => exists o, heap w' !! r = Some o /\ carries self o) (add1 ++ add2).
Proof.
  intros Hh K2 E1 F1 E2 F2. split; [rewrite E2, E1, app_assoc; reflexivity|].
  apply Forall_app. split.
  - eapply Forall_impl; [exact F1|]. simpl. intros r (o & Ho & Hc). eauto.
  - eapply Forall_impl; [exact F2|]. simpl. intros r (o & Ho & Hc).
    exists o. split; [exact Ho|].
    destruct Hh as (Hf & Hb & Ha & Hy). destruct Hc as (H1 & H2 & H3).
    unfold carries. rewrite <- Ha, <- Hy, <- Hf. auto.
Qed.

Lemma rules_loop_carry rules tx_type description currency ds dc amount fee
    self w self' w' :
  StatementAccount.rules_loop rules tx_type description currency ds dc amount fee self w
  = Ok (self', w') ->
  (forall r o, heap w !! r = Some o -> heap w' !! r = Some o)
  /\ same_header self self'
  /\ exists added,
       all_transactions self' = all_transactions self ++ added
       /\ Forall (fun r => exists o, heap w' !! r = Some o /\ carries self o) added.
Proof.
  revert self w. induction rules as [|[key [types negative]] rules IH]; intros self w.
  - simpl. intros [= <- <-]. split; [auto|]. split; [apply same_header_refl|].
    exists []. rewrite app_nil_r. split; [reflexivity|constructor].
  - cbn [StatementAccount.rules_loop]. intros H.
    apply mbind_inv in H as (s1 & w1 & Ha & H).
    pose proof (apply_rule_steps _ _ _ _ _ _ _ _ _ _ _ _ _ _ Ha) as (_ & _ & Hh1 & _).
    apply apply_rule_carry in Ha as (K1 & add1 & E1 & F1).
    apply IH in H as (K2 & Hh2 & add2 & E2 & F2).
    split; [auto|]. split; [exact (same_header_trans _ _ _ Hh1 Hh2)|].
    exists (add1 ++ add2). exact (carry_compose _ _ _ _ _ _ _ Hh1 K2 E1 F1 E2 F2).
Qed.

Lemma rows_loop_carry rows self w self' w' :
  StatementAccount.rows_loop rows self w = Ok (self', w') ->
  (forall r o, heap w !! r = Some o -> heap w' !! r = Some o)
  /\ same_header self self'
  /\ exists added,
       all_transactions self' = all_transactions self ++ added
       /\ Forall (fun r => exists o, heap w' !! r = Some o /\ carries self o) added.
Proof.
  revert self w. induction rows as [|row rows IH]; intros self w; simpl.
  - intros [= <- <-]. split; [auto|]. split; [apply same_header_refl|].
    exists []. rewrite app_nil_r. split; [reflexivity|constructor].
  - intros H. apply mbind_inv in H as (s1 & w1 & Hp & H).
    assert (Hrow : (forall r o, heap w !! r = Some o -> heap w1 !! r = Some o)
                   /\ same_header self s1
                   /\ exists added,
                        all_transactions s1 = all_transactions self ++ added
                        /\ Forall (fun r => exists o, heap w1 !! r = Some o
                                                      /\ carries self o) added).
    { unfold StatementAccount.process_row in Hp.
      apply mbind_inv in Hp as (ds & w0 & H1 & Hp). apply lift_inv in H1 as [_ ->].
      apply mbind_inv in Hp as (dc & w0 & H1 & Hp). apply lift_inv in H1 as [_ ->].
      apply mbind_inv in Hp as (amount & w0 & H1 & Hp). apply lift_inv in H1 as [_ ->].
      apply mbind_inv in Hp as (fee & w0 & H1 & Hp). apply lift_inv in H1 as [_ ->].
      apply mbind_inv in Hp as (valid & w0 & H1 & Hp). apply lift_inv in H1 as [_ ->].
      destruct (negb valid).
      - injection Hp as <- <-. split; [auto|]. split; [apply same_header_refl|].
        exists []. rewrite app_nil_r. split; [reflexivity|constructor].
      - exact (rules_loop_carry _ _ _ _ _ _ _ _ _ _ _ _ Hp). }
    destruct Hrow as (K1 & Hh1 & add1 & E1 & F1).
    apply IH in H as (K2 & Hh2 & add2 & E2 & F2).
    split; [auto|]. split; [exact (same_header_trans _ _ _ Hh1 Hh2)|].
    exists (add1 ++ add2). exact (carry_compose _ _ _ _ _ _ _ Hh1 K2 E1 F1 E2 F2).
Qed.

(** X24: every transaction [get_transactions_csv] adds to a statement,
    the fee transactions included, carries the statement: account
    number, year and path of the file; and the instances of the store
    are not touched by the run. *)
Theorem csv_transactions_carry_statement
    (self self' : StatementAccount) (w w' : World) :
  StatementAccount.get_transactions_csv self w = Ok (self', w') ->
  (forall r o, heap w !! r = Some o -> heap w' !! r = Some o)
  /\ exists added,
       all_transactions self' = all_transactions self ++ added
       /\ Forall (fun r => exists o, heap w' !! r = Some o /\ carries self o) added.
Proof.
  intros H. unfold StatementAccount.get_transactions_csv in H.
  apply rows_loop_carry in H as (K & _ & added & E & F). eauto.
Qed.

Lemma csv_transactions_carry_statement_witness :
  exists self' w',
    StatementAccount.get_transactions_csv sample_csv_statement_rows empty_World
    = Ok (self', w')
    /\ (forall r o, heap empty_World !! r = Some o -> heap w' !! r = Some o)
    /\ exists added,
         all_transactions self' = [] ++ added
         /\ Forall (fun r => exists o, heap w' !! r = Some o
                                       /\ carries sample_csv_statement_rows o) added.
Proof.
  destruct (StatementAccount.get_transactions_csv sample_csv_statement_rows empty_World)
    as [[self' w']|e] eqn:E; [|vm_compute in E; discriminate].
  exists self', w'. split; [reflexivity|].
  exact (csv_transactions_carry_statement _ _ _ _ E).
Defined.

(** ** Texts that are no amounts *)








(** ** The rules and the reconciliation *)

Lemma mapM_ext_in {A B} (f g : A -> result B) (l : list A) :
  (forall x, In x l -> f x = g x) -> mapM f l = mapM g l.
Proof.
  induction l as [|x l IH]; intros H; [reflexivity|]. simpl.
  rewrite (H x (or_introl eq_refl)), IH; [reflexivity|].
  intros y Hy. apply H. right. exact Hy.
Qed.

Section reconciliation_after_analysis.

Variable str_lower : pystr -> pystr.

(** X26: the rules cannot change the result of the reconciliation.
    After [analyze_all_transactions] the check of the statements prints
    and raises exactly what it would have before: the analysis writes
    the description and the category only, and the check reads the
    amounts. *)
Theorem analysis_keeps_reconciliation
    (rules : list TransactionRule) (w w' : World)
    (statements : list StatementAccount) (out : list main.output) :
  analyze_all_transactions str_lower rules w = Ok (tt, w') ->
  main.validate_loop w' statements out = main.validate_loop w statements out.
Proof.
  intros H. unfold analyze_all_transactions in H.
  apply analyze_loop_frame in H as (_ & _ & Hlen & Hobj).
  assert (Hamount : forall r,
            match heap w' !! r with
            | Some t => let? a := getattr t "amount" in main.number a
            | None => Raise IndexError
            end
            = match heap w !! r with
              | Some t => let? a := getattr t "amount" in main.number a
              | None => Raise IndexError
              end).
  { intros r. destruct (heap w !! r) as [o|] eqn:Ho.
    - destruct (Hobj r o Ho) as (o' & Ho' & _ & Hattr). rewrite Ho'.
      rewrite (Hattr "amount") by discriminate. reflexivity.
    - apply lookup_ge_None in Ho.
      rewrite (proj2 (lookup_ge_None (heap w') r)) by lia. reflexivity. }
  assert (Hamounts : forall s, main.amounts w' s = main.amounts w s).
  { intros s. unfold main.amounts. apply mapM_ext_in. intros r _. apply Hamount. }
  revert out. induction statements as [|s l IH]; intros out; [reflexivity|].
  cbn [main.validate_loop]. unfold main.validate_one. rewrite Hamounts.
  destruct (let? delta := main.balance_delta s in _) as [out1|]; cbn [rbind];
    [apply IH|reflexivity].
Qed.

End reconciliation_after_analysis.

Lemma analysis_keeps_reconciliation_witness :
  let rules := [mk_TransactionRule
                  [] [mk_RuleCondition A_type Equal (VStr (u "IncomingPayment"))]
                  (u "income") (u "in")] in
  exists w',
    analyze_all_transactions lower rules sample_reconciliation_world = Ok (tt, w')
    /\ main.validate_loop w' (main.StatementAccount_all sample_reconciliation_program) []
       = main.validate_loop sample_reconciliation_world
           (main.StatementAccount_all sample_reconciliation_program) [].
Proof.
  intros rules.
  destruct (analyze_all_transactions lower rules sample_reconciliation_world)
    as [[[] w']|e] eqn:E; [|vm_compute in E; discriminate].
  exists w'. split; [reflexivity|].
  exact (analysis_keeps_reconciliation lower rules _ _ _ _ E).
Defined.

(** ** The two files of a run *)

Section csv_export.

Variable str_of_float : float -> pystr.

Lemma csv_row_inv (tx : object) (row : list cell) :
  Transaction.csv_row str_of_float tx = Ok row ->
  exists id s d,
    getattr tx "transaction_id" = Ok id
    /\ getattr tx "date_booked" = Ok (VStr s)
    /\ strptime_dmY s = Ok d
    /\ length row = 11%nat
    /\ row !! 0%nat = Some (CellValue id)
    /\ row !! 2%nat = Some (CellDate d).
Proof.
  unfold Transaction.csv_row. intros H.
  destruct (if isinstance tx BankPayedService then _ else _) as [clean|]; [|discriminate].
  cbn [rbind] in H.
  destruct (getattr tx "transaction_id") as [id|] eqn:Eid; [|discriminate].
  cbn [rbind] in H.
  destruct (getattr tx "statement_account") as [sa|]; [|discriminate]. cbn [rbind] in H.
  destruct (getattr tx "date_booked") as [[| | | |s]|] eqn:Es; try discriminate.
  cbn [rbind] in H.
  destruct (strptime_dmY s) as [d|] eqn:Ed; [|discriminate]. cbn [rbind] in H.
  destruct (getattr tx "account_from"); [|discriminate]. cbn [rbind] in H.
  destruct (getattr tx "account_to"); [|discriminate]. cbn [rbind] in H.
  destruct (getattr tx "amount"); [|discriminate]. cbn [rbind] in H.
  destruct (getattr tx "currency"); [|discriminate]. cbn [rbind] in H.
  destruct (getattr tx "user_category"); [|discriminate]. cbn [rbind] in H.
  destruct (getattr tx "user_description"); [|discriminate]. cbn [rbind] in H.
  destruct (getattr tx "all_transaction_lines_text"); [|discriminate]. cbn [rbind] in H.
  injection H as <-. exists id, s, d. repeat split; try reflexivity; assumption.
Qed.

(** X27: the table of a run.  When [save_transactions] returns, over a
    registry that lists no transaction twice, [transactions.csv] holds
    the headings and one row of eleven cells per transaction; row [i]
    (from 0) is the transaction at place [i] of the sorted registry, its
    first cell is the new id [i + 1] and its third cell the booking date
    read with [%d.%m.%Y]. *)
Theorem save_transactions_csv_rows (p p' : main.Program) :
  NoDup (all (main.world p) Transaction) ->
  main_py.save_transactions str_of_float p = Ok p' ->
  exists rows,
    transactions_csv (main.world p') = Some (Transaction.headers :: rows)
    /\ Permutation (all (main.world p') Transaction) (all (main.world p) Transaction)
    /\ length rows = length (all (main.world p) Transaction)
    /\ forall i r, all (main.world p') Transaction !! i = Some r ->
         exists row tx s d,
           rows !! i = Some row
           /\ length row = length Transaction.headers
           /\ row !! 0%nat = Some (CellValue (VInt (Z.of_nat i + 1)))
           /\ heap (main.world p) !! r = Some tx
           /\ getattr tx "date_booked" = Ok (VStr s)
           /\ strptime_dmY s = Ok d
           /\ row !! 2%nat = Some (CellDate d).
Proof.
  intros Hnd H. unfold main_py.save_transactions, main_py.in_world in H.
  destruct (Transaction.save_transactions_json (main.world p)) as [[[] w1]|] eqn:Hsave;
    [|discriminate].
  pose proof (save_ok_keys _ _ Hsave) as Hkeys.
  destruct (save_transactions_json_full _ Hnd Hkeys)
    as (sorted & w2 & data & Hrun & Hall & Hperm & _ & _ & _ & _ & _ & _ & Hin).
  rewrite Hrun in Hsave. injection Hsave as <-.
  cbn [rbind main.world main.StatementAccount_all main.stdout] in H.
  unfold Transaction.transactions_to_csv in H.
  change (heap (set_transactions_json (Some data) w2)) with (heap w2) in H.
  change (all (set_transactions_json (Some data) w2)) with (all w2) in H.
  assert (Hreg : all w2 Transaction = sorted) by (rewrite Hall; reflexivity).
  rewrite Hreg in H.
  destruct (mapM _ sorted) as [rows|] eqn:Hrows; [|discriminate].
  cbn [rbind] in H. injection H as <-.
  apply mapM_Forall2 in Hrows. exists rows.
  unfold set_transactions_csv, set_transactions_json.
  cbn [main.world all transactions_csv]. rewrite Hreg.
  split; [reflexivity|]. split; [exact Hperm|]. split.
  { rewrite <- (Forall2_length _ _ _ Hrows). apply Permutation_length, Hperm. }
  intros i r Hi.
  destruct (Forall2_lookup_l _ _ _ _ _ Hrows Hi) as (row & Hrow & Hf).
  destruct (Hin i r Hi) as (tx & Htx & Htx' & _).
  destruct (heap w2 !! r) as [o|] eqn:Eo; [|discriminate Htx'].
  injection Htx' as ->.
  apply csv_row_inv in Hf as (id & s & d & Hid & Hs & Hd & Hlen & H0 & H2).
  rewrite getattr_setattr_eq in Hid. injection Hid as <-.
  rewrite getattr_setattr_ne in Hs by discriminate.
  exists row, tx, s, d. repeat split; assumption.
Qed.

End csv_export.

Lemma save_transactions_csv_rows_witness :
  let p := main.mk_Program sample_unsorted_world [] [] in
  exists p' rows,
    main_py.save_transactions (fun _ => []) p = Ok p'
    /\ transactions_csv (main.world p') = Some (Transaction.headers :: rows)
    /\ length rows = length (all sample_unsorted_world Transaction).
Proof.
  intros p.
  destruct (main_py.save_transactions (fun _ => []) p) as [p'|e] eqn:E;
    [|vm_compute in E; discriminate].
  destruct (save_transactions_csv_rows (fun _ => []) p p') as (rows & Hcsv & _ & Hlen & _).
  - apply (bool_decide_unpack _). vm_compute. exact I.
  - exact E.
  - exists p', rows. split; [reflexivity|]. split; [exact Hcsv|exact Hlen].
Defined.
